(** * campus-backend: leave workflow and attendance ledger

    A shallow embedding of the request handlers of the campus backend
    (packages [leaves], [attendance], [validation], [notifications],
    [auth], [api]) and the
    properties of the leave workflow, the scope rules and the attendance
    ledger that hold of them.

    Conventions of the embedding:
    - a [time.Time] is the instant it denotes, in nanoseconds since the Unix
      epoch; a [time.Duration] is an [int64] count of nanoseconds;
    - the relational store behind [db.DB] is a record of tables, each table a
      list of rows in insertion order; a handler takes the store and returns
      the store it leaves behind.  The store itself never fails: the only
      error of a lookup is "record not found";
    - a handler writes exactly one JSON answer, or panics; both are values of
      [Outcome];
    - the request body is the Go struct that JSON decoding produced; binding
      and validation tags are then applied to it as gin and the validator
      library apply them. *)

From Stdlib Require Import ZArith QArith Lia Ascii String Sorted.
From stdpp Require Import base strings gmap list.

(** ** Go's [time] package *)

Module time.
Local Open Scope Z_scope.

Definition Time : Type := Z.
Definition Duration : Type := Z.

Definition Nanosecond : Duration := 1.
Definition Second : Duration := 1000000000 * Nanosecond.
Definition Minute : Duration := 60 * Second.
Definition Hour : Duration := 60 * Minute.

Definition minDuration : Duration := - 2 ^ 63.
Definition maxDuration : Duration := 2 ^ 63 - 1.

(** The zero [Time]: January 1, year 1, 00:00:00 UTC. *)
Definition zero : Time := -62135596800 * Second.

Definition IsZero (t : Time) : bool := t =? zero.

(** [t.Sub(u)]: the duration t-u, saturated to the range of [Duration]. *)
Definition Sub (t u : Time) : Duration :=
  let d := t - u in
  if d <? minDuration then minDuration
  else if maxDuration <? d then maxDuration
  else d.

Definition After (t u : Time) : bool := u <? t.
Definition Before (t u : Time) : bool := t <? u.

(** [t.Truncate(d)]: t rounded down to a multiple of d since the zero time;
    for d <= 0 the time is returned unchanged.  The zero time is a whole
    number of days before the epoch, so for a d that divides 24 hours the
    multiples of d since the zero time are the multiples of d since the
    epoch. *)
Definition Truncate (t : Time) (d : Duration) : Time :=
  if d <=? 0 then t else t - (t - zero) mod d.

(** [int(d.Hours()/24)]: [Hours] is a float64, the conversion truncates
    toward zero.  For the durations a validated request can carry (between
    0 and 30 days) the floating-point quotient has the same integer part as
    the exact one, which is what is computed here. *)
Definition whole_days (d : Duration) : Z := Z.quot d (24 * Hour).

(** *** [time.Parse("2006-01-02", s)] *)

Definition digit (a : ascii) : option Z :=
  let n := Z.of_nat (nat_of_ascii a) in
  if (48 <=? n) && (n <=? 57) then Some (n - 48) else None.

Definition isLeap (y : Z) : bool :=
  (y mod 4 =? 0) && (negb (y mod 100 =? 0) || (y mod 400 =? 0)).

Definition daysIn (m y : Z) : Z :=
  if m =? 2 then (if isLeap y then 29 else 28)
  else if (m =? 4) || (m =? 6) || (m =? 9) || (m =? 11) then 30
  else 31.

(** Days from 1970-01-01 to the civil date y-m-d (proleptic Gregorian). *)
Definition daysFromCivil (y m d : Z) : Z :=
  let y' := if m <=? 2 then y - 1 else y in
  let era := y' / 400 in
  let yoe := y' - era * 400 in
  let mp := (m + 9) mod 12 in
  let doy := (153 * mp + 2) / 5 + d - 1 in
  let doe := yoe * 365 + yoe / 4 - yoe / 100 + doy in
  era * 146097 + doe - 719468.

Definition Parse_date (s : string) : option Time :=
  match s with
  | String y1 (String y2 (String y3 (String y4 (String h1
      (String m1 (String m2 (String h2
      (String d1 (String d2 EmptyString))))))))) =>
      if negb (Ascii.eqb h1 "-" && Ascii.eqb h2 "-") then None else
      match digit y1, digit y2, digit y3, digit y4,
            digit m1, digit m2, digit d1, digit d2 with
      | Some a, Some b, Some c, Some e, Some f, Some g, Some h, Some i =>
          let y := 1000 * a + 100 * b + 10 * c + e in
          let m := 10 * f + g in
          let d := 10 * h + i in
          if (1 <=? m) && (m <=? 12) && (1 <=? d) && (d <=? daysIn m y)
          then Some (daysFromCivil y m d * (24 * Hour))
          else None
      | _, _, _, _, _, _, _, _ => None
      end
  | _ => None
  end.
End time.

(** ** Go's [unicode/utf8]: rune count of a string

    A Go string is a sequence of bytes.  In a valid UTF-8 string (and JSON
    decoding yields no other) the runes are as many as the bytes that are not
    continuation bytes (0x80 to 0xBF). *)

Module utf8.
Definition isContinuation (a : ascii) : bool :=
  let n := nat_of_ascii a in
  (128 <=? n)%nat && (n <? 192)%nat.

Fixpoint RuneCountInString (s : string) : nat :=
  match s with
  | EmptyString => 0
  | String a s' =>
      ((if isContinuation a then 0 else 1) + RuneCountInString s')%nat
  end.
End utf8.

(** ** The validator library (go-playground/validator), as gin and
       [validation.ValidateStruct] use it

    The tags of a field run from left to right; the first one that fails is
    the field's error and ends the field.  [required] fails on the zero value
    of the field's type (the empty string, 0, [false], the zero time, a nil
    pointer).  A nil pointer whose tags do not start with [omitempty] fails
    its first tag.  [min] and [max] on a string count runes. *)

Module validator.
Record FieldError := mkFieldError
  { Field : string; Tag : string; Param : string }.

(** One tag of a field: its name, its parameter, and whether the value
    passes it. *)
Definition check : Type := string * string * bool.

Fixpoint run (field : string) (tags : list check) : list FieldError :=
  match tags with
  | [] => []
  | (tag, param, ok) :: rest =>
      if ok then run field rest else [mkFieldError field tag param]
  end.

(** A pointer field: nil fails the first tag, otherwise the tags run on
    the value pointed to. *)
Definition run_ptr {A} (field : string) (p : option A)
    (tags : A -> list check) (first : string * string) : list FieldError :=
  match p with
  | None => [mkFieldError field first.1 first.2]
  | Some v => run field (tags v)
  end.

Definition required_string (s : string) : bool := negb (String.eqb s "").
Definition required_uint (n : nat) : bool := negb (Nat.eqb n 0).
Definition required_bool (b : bool) : bool := b.
Definition required_time (t : time.Time) : bool := negb (time.IsZero t).

Definition min_string (n : nat) (s : string) : bool :=
  (n <=? utf8.RuneCountInString s)%nat.
Definition max_string (n : nat) (s : string) : bool :=
  (utf8.RuneCountInString s <=? n)%nat.
Definition oneof (options : list string) (s : string) : bool :=
  existsb (String.eqb s) options.
End validator.

(** ** Data model (packages [users], [leaves], [attendance],
       [notifications])

    The columns are the fields of the Go structs that the handlers read or
    write.  [gorm.Model] contributes the primary key [ID]; rows are never
    deleted by any handler, so its soft-delete column is left out. *)

Module User.
Record t := mk
  { ID : nat;
    Name : string;
    Email : string;
    Role : string;
    Dept : string;
    Hostel : option string }.
End User.

Module LeaveRequest.
Record t := mk
  { ID : nat;
    StudentID : nat;
    LeaveType : string;
    Reason : string;
    StartDate : time.Time;
    EndDate : time.Time;
    Status : string;
    ApprovedBy : option nat;
    Remarks : option string;
    Dept : string;
    Hostel : option string;
    Days : Z;
    CreatedAt : time.Time;
    UpdatedAt : time.Time }.
End LeaveRequest.

Module Attendance.
Record t := mk
  { ID : nat;
    StudentID : nat;
    Date : time.Time;
    Present : bool;
    MarkedBy : nat;
    Subject : option string;
    Period : option string;
    CreatedAt : time.Time }.
End Attendance.

Module Notification.
(** The text of a leave-status notification is kept as the values that
    [fmt.Sprintf] puts into it. *)
Record message := mkMessage
  { msgLeaveType : string;
    msgStart : time.Time;
    msgEnd : time.Time;
    msgStatus : string;
    msgRemarks : option string }.

Record t := mk
  { ID : nat;
    UserID : nat;
    Title : string;
    Message : message;
    Type_ : string;
    IsRead : bool;
    RelatedID : option nat;
    CreatedAt : time.Time }.
End Notification.

(** Modelled from the spec: the role constants [users.RoleAdmin],
    [users.RoleStudent], [users.RoleFaculty] and [users.RoleWarden], whose
    declaration is not among the sources; the values are those of the
    [oneof=admin student faculty warden] tag on [User.Role]. *)
Module users.
Definition RoleAdmin : string := "admin".
Definition RoleStudent : string := "student".
Definition RoleFaculty : string := "faculty".
Definition RoleWarden : string := "warden".
End users.

(** ** The store behind [db.DB] *)

Record DB := mkDB
  { users_table : list User.t;
    leave_requests : list LeaveRequest.t;
    attendances : list Attendance.t;
    notifications : list Notification.t }.

Module gorm.
Section Table.
Context {A : Type} (id : A -> nat).

(** [Where(cond).Find(&rows)] *)
Definition Find (cond : A -> bool) (rows : list A) : list A :=
  List.filter cond rows.

(** [Where(cond).First(&row)]: the matching row with the least primary
    key, or "record not found". *)
Definition lesser (best : option A) (r : A) : option A :=
  match best with
  | None => Some r
  | Some b => if (id r <? id b)%nat then Some r else Some b
  end.

Definition First (cond : A -> bool) (rows : list A) : option A :=
  fold_left lesser (Find cond rows) None.

(** [First(&row, key)] *)
Definition FirstByID (key : nat) (rows : list A) : option A :=
  First (fun r => Nat.eqb (id r) key) rows.

(** The key the store gives to the next row it creates. *)
Definition nextID (rows : list A) : nat :=
  S (fold_right Nat.max 0%nat (map id rows)).

(** [Where(cond).Count(&n)] *)
Definition Count (cond : A -> bool) (rows : list A) : Z :=
  Z.of_nat (length (Find cond rows)).

(** [Save(&row)] of a row that was loaded from the table: every column
    of the row with that key is overwritten. *)
Definition Save (row : A) (rows : list A) : list A :=
  map (fun r => if Nat.eqb (id r) (id row) then row else r) rows.

(** [Order(key DESC)]: a stable insertion sort on a time column. *)
Fixpoint insertDesc (key : A -> time.Time) (r : A) (sorted : list A)
  : list A :=
  match sorted with
  | [] => [r]
  | s :: rest =>
      if (key s <? key r)%Z then r :: s :: rest
      else s :: insertDesc key r rest
  end.

Definition OrderDesc (key : A -> time.Time) (rows : list A) : list A :=
  fold_left (fun sorted r => insertDesc key r sorted) rows [].
End Table.
End gorm.

(** ** HTTP answers *)

Module http.
Definition StatusOK : nat := 200.
Definition StatusCreated : nat := 201.
Definition StatusBadRequest : nat := 400.
Definition StatusUnauthorized : nat := 401.
Definition StatusForbidden : nat := 403.
Definition StatusNotFound : nat := 404.
Definition StatusConflict : nat := 409.
Definition StatusInternalServerError : nat := 500.
End http.

Record AttendanceStats := mkStats
  { statsStudentID : nat;
    statsStudentName : string;
    TotalDays : Z;
    PresentDays : Z;
    AbsentDays : Z;
    AttendancePercentage : Q;
    LastAttendance : option time.Time }.

(** The JSON objects the handlers answer with. *)
Inductive Body :=
  | H_error (msg : string)
  | H_bind_error (errs : list validator.FieldError)
  | H_error_details (msg : string) (details : gmap string string)
  | H_leave_submitted (leave : LeaveRequest.t)
  | H_leaves (leaves : list LeaveRequest.t) (page limit : string)
             (total : nat)
  | H_leave (leave : LeaveRequest.t)
  | H_leave_updated (leave : LeaveRequest.t)
  | H_leave_conflict (msg leave_type reason : string)
                     (start_date end_date : time.Time)
  | H_attendance_marked (a : Attendance.t)
  | H_attendance (records : list Attendance.t)
                 (start_date end_date subject : string)
  | H_stats (stats : AttendanceStats).

Inductive Outcome :=
  | JSON (code : nat) (obj : Body)
  | Panic (reason : string).

(** What the JWT middleware leaves in the gin context, and the query and
    path parameters of the request.  [ctxUserID] is [c.Get("userID")];
    [ctxRole] is the role claim of the token. *)
Record Context := mkContext
  { ctxUserID : option nat;
    ctxRole : string;
    ctxQuery : gmap string string;
    ctxParamID : nat }.

Definition Query (c : Context) (key : string) : string :=
  default "" (ctxQuery c !! key).

Definition DefaultQuery (c : Context) (key dflt : string) : string :=
  default dflt (ctxQuery c !! key).

(** Answers of the handlers of [notifications] and of
    [GetDepartmentStats]: [gin.H{"error": msg}], [gin.H{"message": msg}],
    or an object of the handler's own. *)
Inductive Reply (A : Type) : Type :=
  | ReplyError (code : nat) (msg : string)
  | ReplyMessage (code : nat) (msg : string)
  | ReplyObject (code : nat) (obj : A)
  | ReplyPanic (reason : string).

Arguments ReplyError {A} code msg.
Arguments ReplyMessage {A} code msg.
Arguments ReplyObject {A} code obj.
Arguments ReplyPanic {A} reason.

(** ** Go's [strconv] package *)

Module strconv.
Local Open Scope Z_scope.

Fixpoint digits (s : string) (acc : Z) : option Z :=
  match s with
  | EmptyString => Some acc
  | String a s' =>
      match time.digit a with
      | Some d => digits s' (10 * acc + d)
      | None => None
      end
  end.

(** [strconv.ParseUint(s, 10, 32)]: a non-empty string of decimal digits,
    without sign, whose value fits 32 bits; anything else is an error. *)
Definition ParseUint32 (s : string) : option nat :=
  match s with
  | EmptyString => None
  | _ =>
      match digits s 0 with
      | Some n => if n <=? 4294967295 then Some (Z.to_nat n) else None
      | None => None
      end
  end.
End strconv.

(** ** Package [validation] *)

Module validation.
Import validator.
Local Open Scope Z_scope.

(** validateDateRange ensures end date is after start date *)
Definition validateDateRange (start end_ : time.Time) : bool :=
  time.After end_ start.

(** validateFutureDate ensures the date is not in the past; today's date
    is allowed. *)
Definition validateFutureDate (now date : time.Time) : bool :=
  negb (time.Before date (time.Truncate now (24 * time.Hour))).

(** validateLeaveDuration ensures leave duration is reasonable (max 30
    days) *)
Definition validateLeaveDuration (start end_ : time.Time) : bool :=
  let duration := time.Sub end_ start in
  (duration <=? 30 * 24 * time.Hour) && (duration >=? 0).

Definition message (e : FieldError) : string :=
  let field := Field e in
  let tag := Tag e in
  if String.eqb tag "required" then field +:+ " is required"
  else if String.eqb tag "email" then
    field +:+ " must be a valid email address"
  else if String.eqb tag "min" then
    field +:+ " must be at least " +:+ Param e +:+ " characters long"
  else if String.eqb tag "max" then
    field +:+ " must be at most " +:+ Param e +:+ " characters long"
  else if String.eqb tag "oneof" then
    field +:+ " must be one of: " +:+ Param e
  else if String.eqb tag "date_range" then
    "End date must be after start date"
  else if String.eqb tag "future_date" then "Date cannot be in the past"
  else if String.eqb tag "leave_duration" then
    "Leave duration cannot exceed 30 days"
  else field +:+ " is invalid".

(** FormatValidationErrors formats validation errors into a map from
    field to message. *)
Definition FormatValidationErrors (errs : list FieldError)
  : gmap string string :=
  fold_left (fun errors e => <[Field e := message e]> errors) errs ∅.
End validation.

(** ** Package [notifications] *)

Module notifications_pkg.
Definition CreateNotification (now : time.Time) (db : DB) (userID : nat)
    (title : string) (msg : Notification.message) (type : string)
    (relatedID : option nat) : DB :=
  let notification :=
    Notification.mk (gorm.nextID Notification.ID (notifications db))
      userID title msg type false relatedID now in
  mkDB (users_table db) (leave_requests db) (attendances db)
       (notifications db ++ [notification]).

(** NotifyLeaveStatusChange: nothing is written when the student or the
    approver cannot be found (the error is returned to a caller that
    drops it). *)
Definition NotifyLeaveStatusChange (now : time.Time) (db : DB)
    (leaveRequest : LeaveRequest.t) : DB :=
  match gorm.FirstByID User.ID (LeaveRequest.StudentID leaveRequest)
          (users_table db) with
  | None => db
  | Some student =>
      let approverFound :=
        match LeaveRequest.ApprovedBy leaveRequest with
        | None => true
        | Some a =>
            bool_decide
              (is_Some (gorm.FirstByID User.ID a (users_table db)))
        end in
      if approverFound then
        CreateNotification now db (LeaveRequest.StudentID leaveRequest)
          ("Leave Request " +:+ LeaveRequest.Status leaveRequest)
          (Notification.mkMessage
             (LeaveRequest.LeaveType leaveRequest)
             (LeaveRequest.StartDate leaveRequest)
             (LeaveRequest.EndDate leaveRequest)
             (LeaveRequest.Status leaveRequest)
             (LeaveRequest.Remarks leaveRequest))
          "leave_status"
          (Some (LeaveRequest.ID leaveRequest))
      else db
  end.

Definition set_notifications (db : DB) (rows : list Notification.t) : DB :=
  mkDB (users_table db) (leave_requests db) (attendances db) rows.

Definition read (n : Notification.t) : Notification.t :=
  Notification.mk (Notification.ID n) (Notification.UserID n)
    (Notification.Title n) (Notification.Message n) (Notification.Type_ n)
    true (Notification.RelatedID n) (Notification.CreatedAt n).

(** [Model(&Notification{}).Where(cond).Update("is_read", true)] *)
Definition markRead (cond : Notification.t -> bool) (db : DB) : DB :=
  set_notifications db
    (map (fun n => if cond n then read n else n) (notifications db)).

(** [id = ? AND user_id = ?] *)
Definition MarkNotificationAsReadDB (db : DB) (notificationID userID : nat)
  : DB :=
  markRead (fun n => Nat.eqb (Notification.ID n) notificationID
                     && Nat.eqb (Notification.UserID n) userID) db.

(** [user_id = ?] *)
Definition MarkAllNotificationsAsReadDB (db : DB) (userID : nat) : DB :=
  markRead (fun n => Nat.eqb (Notification.UserID n) userID) db.

(** [user_id = ? AND is_read = false] *)
Definition GetUnreadNotificationCount (db : DB) (userID : nat) : Z :=
  gorm.Count (fun n => Nat.eqb (Notification.UserID n) userID
                       && negb (Notification.IsRead n))
    (notifications db).

(** The handlers.  [idParam] is [c.Param("id")] as it stands in the path. *)
Definition MarkNotificationAsRead (db : DB) (c : Context)
    (idParam : string) : Reply unit * DB :=
  match ctxUserID c with
  | None => (ReplyError http.StatusUnauthorized "User not found", db)
  | Some userID =>
      match strconv.ParseUint32 idParam with
      | None =>
          (ReplyError http.StatusBadRequest "Invalid notification ID", db)
      | Some notificationID =>
          (ReplyMessage http.StatusOK "Notification marked as read",
           MarkNotificationAsReadDB db notificationID userID)
      end
  end.

Definition MarkAllNotificationsAsRead (db : DB) (c : Context)
  : Reply unit * DB :=
  match ctxUserID c with
  | None => (ReplyError http.StatusUnauthorized "User not found", db)
  | Some userID =>
      (ReplyMessage http.StatusOK "All notifications marked as read",
       MarkAllNotificationsAsReadDB db userID)
  end.

(** The object of [GetUnreadCount] is its [unread_count]. *)
Definition GetUnreadCount (db : DB) (c : Context) : Reply Z :=
  match ctxUserID c with
  | None => ReplyError http.StatusUnauthorized "User not found"
  | Some userID =>
      ReplyObject http.StatusOK (GetUnreadNotificationCount db userID)
  end.
End notifications_pkg.

(** ** Package [leaves] *)

Module leaves.
Import validator.
Local Open Scope Z_scope.

Record ApplyLeaveRequest := mkApply
  { LeaveType : string;
    Reason : string;
    StartDate : time.Time;
    EndDate : time.Time }.

Record ApproveRejectRequest := mkDecide
  { Action : string;
    Remarks : option string }.

Definition leaveTypes : list string :=
  ["medical"; "personal"; "emergency"; "academic"].

(** The [binding] tags of [ApplyLeaveRequest], checked by
    [c.ShouldBindJSON]. *)
Definition bind_ApplyLeaveRequest (input : ApplyLeaveRequest)
  : list FieldError :=
  run "LeaveType" [("required", "", required_string (LeaveType input))]
  ++ run "Reason" [("required", "", required_string (Reason input))]
  ++ run "StartDate" [("required", "", required_time (StartDate input))]
  ++ run "EndDate" [("required", "", required_time (EndDate input))].

(** The [validate] tags of [ApplyLeaveRequest], checked by
    [validation.ValidateStruct]. *)
Definition validate_ApplyLeaveRequest (now : time.Time)
    (input : ApplyLeaveRequest) : list FieldError :=
  run "LeaveType"
    [("required", "", required_string (LeaveType input));
     ("oneof", "medical personal emergency academic",
      oneof leaveTypes (LeaveType input))]
  ++ run "Reason"
    [("required", "", required_string (Reason input));
     ("min", "10", min_string 10 (Reason input));
     ("max", "500", max_string 500 (Reason input))]
  ++ run "StartDate"
    [("required", "", required_time (StartDate input));
     ("future_date", "",
      validation.validateFutureDate now (StartDate input))]
  ++ run "EndDate"
    [("required", "", required_time (EndDate input));
     ("date_range", "",
      validation.validateDateRange (StartDate input) (EndDate input));
     ("leave_duration", "",
      validation.validateLeaveDuration (StartDate input) (EndDate input))].

Definition bind_ApproveRejectRequest (input : ApproveRejectRequest)
  : list FieldError :=
  run "Action" [("required", "", required_string (Action input))].

Definition validate_ApproveRejectRequest (input : ApproveRejectRequest)
  : list FieldError :=
  run "Action"
    [("required", "", required_string (Action input));
     ("oneof", "approve reject",
      oneof ["approve"; "reject"] (Action input))]
  ++ run_ptr "Remarks" (Remarks input)
       (fun r => [("max", "200", max_string 200 r)]) ("max", "200").

Definition set_leave_requests (db : DB) (rows : list LeaveRequest.t) : DB :=
  mkDB (users_table db) rows (attendances db) (notifications db).

(** The condition of the query that looks for leaves of the same period:
    [student_id = ? AND status IN (pending, approved) AND
     ((start_date <= start AND end_date >= start) OR
      (start_date <= end AND end_date >= end))]. *)
Definition samePeriod (studentID : nat) (start end_ : time.Time)
    (l : LeaveRequest.t) : bool :=
  Nat.eqb (LeaveRequest.StudentID l) studentID
  && existsb (String.eqb (LeaveRequest.Status l)) ["pending"; "approved"]
  && (((LeaveRequest.StartDate l <=? start)
       && (LeaveRequest.EndDate l >=? start))
      || ((LeaveRequest.StartDate l <=? end_)
          && (LeaveRequest.EndDate l >=? end_))).

(** The record [ApplyLeave] builds for a student. *)
Definition submitted (now : time.Time) (db : DB)
    (input : ApplyLeaveRequest) (studentID : nat) (student : User.t)
  : LeaveRequest.t :=
  LeaveRequest.mk
    (gorm.nextID LeaveRequest.ID (leave_requests db))
    studentID (LeaveType input) (Reason input)
    (StartDate input) (EndDate input)
    "pending" (* Start as pending *) None None
    (User.Dept student) (User.Hostel student)
    (* Calculate number of days *)
    (time.whole_days (time.Sub (EndDate input) (StartDate input)) + 1)
    now now.

Definition ApplyLeave (now : time.Time) (db : DB) (c : Context)
    (input : ApplyLeaveRequest) : Outcome * DB :=
  match bind_ApplyLeaveRequest input with
  | (_ :: _) as errs => (JSON http.StatusBadRequest (H_bind_error errs), db)
  | [] =>
  match validate_ApplyLeaveRequest now input with
  | (_ :: _) as errs =>
      (JSON http.StatusBadRequest
         (H_error_details "Validation failed"
            (validation.FormatValidationErrors errs)), db)
  | [] =>
  match ctxUserID c with
  | None => (JSON http.StatusUnauthorized (H_error "Unauthorized"), db)
  | Some studentID =>
  match gorm.FirstByID User.ID studentID (users_table db) with
  | None =>
      (JSON http.StatusInternalServerError
         (H_error "Student data not found"), db)
  | Some student =>
      let existingLeaves :=
        gorm.Find
          (samePeriod studentID (StartDate input) (EndDate input))
          (leave_requests db) in
      if (0 <? length existingLeaves)%nat then
        (JSON http.StatusBadRequest
           (H_error "You already have a leave request for this period"),
         db)
      else
        let leave := submitted now db input studentID student in
        (JSON http.StatusCreated (H_leave_submitted leave),
         set_leave_requests db (leave_requests db ++ [leave]))
  end end end end.

(** The optional [status] and [leave_type] filters of [ListLeaves];
    [dflt] is the status looked for when none is asked for ("" for no
    condition). *)
Definition listFilter (status leaveType dflt : string)
    (l : LeaveRequest.t) : bool :=
  (if negb (String.eqb status "") then
     String.eqb (LeaveRequest.Status l) status
   else if negb (String.eqb dflt "") then
     String.eqb (LeaveRequest.Status l) dflt
   else true)
  && (if negb (String.eqb leaveType "") then
        String.eqb (LeaveRequest.LeaveType l) leaveType
      else true).

Definition ListLeaves (db : DB) (c : Context) : Outcome :=
  let role := ctxRole c in
  let status := Query c "status" in
  let leaveType := Query c "leave_type" in
  let page := DefaultQuery c "page" "1" in
  let limit := DefaultQuery c "limit" "10" in
  let answer (leaves : list LeaveRequest.t) :=
    JSON http.StatusOK (H_leaves leaves page limit (length leaves)) in
  let sorted cond :=
    gorm.OrderDesc LeaveRequest.CreatedAt
      (gorm.Find cond (leave_requests db)) in
  if String.eqb role users.RoleStudent then
    match ctxUserID c with
    | None => Panic "interface conversion: interface {} is nil, not uint"
    | Some userID =>
        answer (sorted (fun l =>
          Nat.eqb (LeaveRequest.StudentID l) userID
          && listFilter status leaveType "" l))
    end
  else if String.eqb role users.RoleWarden
          || String.eqb role users.RoleFaculty
          || String.eqb role users.RoleAdmin then
    if String.eqb role users.RoleWarden then
      match ctxUserID c with
      | None => Panic "interface conversion: interface {} is nil, not uint"
      | Some userID =>
      match gorm.FirstByID User.ID userID (users_table db) with
      | None =>
          JSON http.StatusInternalServerError (H_error "User not found")
      | Some approver =>
      match User.Hostel approver with
      | None =>
          Panic "invalid memory address or nil pointer dereference"
      | Some hostel =>
          answer (sorted (fun l =>
            bool_decide (LeaveRequest.Hostel l = Some hostel)
            && listFilter status leaveType "pending" l))
      end end end
    else if String.eqb role users.RoleFaculty then
      match ctxUserID c with
      | None => Panic "interface conversion: interface {} is nil, not uint"
      | Some userID =>
      match gorm.FirstByID User.ID userID (users_table db) with
      | None =>
          JSON http.StatusInternalServerError (H_error "User not found")
      | Some approver =>
          answer (sorted (fun l =>
            String.eqb (LeaveRequest.Dept l) (User.Dept approver)
            && listFilter status leaveType "pending" l))
      end end
    else
      answer (sorted (listFilter status leaveType ""))
  else JSON http.StatusForbidden (H_error "Forbidden").

Definition GetLeaveDetails (db : DB) (c : Context) : Outcome :=
  let leaveID := ctxParamID c in
  let role := ctxRole c in
  match gorm.FirstByID LeaveRequest.ID leaveID (leave_requests db) with
  | None => JSON http.StatusNotFound (H_error "Leave request not found")
  | Some leave =>
      let shown := JSON http.StatusOK (H_leave leave) in
      if String.eqb role users.RoleStudent then
        match ctxUserID c with
        | None =>
            Panic "interface conversion: interface {} is nil, not uint"
        | Some userID =>
            if negb (Nat.eqb (LeaveRequest.StudentID leave) userID) then
              JSON http.StatusForbidden
                (H_error "You can only view your own leave requests")
            else shown
        end
      else if String.eqb role users.RoleFaculty then
        match ctxUserID c with
        | None =>
            Panic "interface conversion: interface {} is nil, not uint"
        | Some userID =>
        match gorm.FirstByID User.ID userID (users_table db) with
        | None =>
            JSON http.StatusInternalServerError (H_error "User not found")
        | Some approver =>
            if negb (String.eqb (User.Dept approver)
                       (LeaveRequest.Dept leave)) then
              JSON http.StatusForbidden
                (H_error "You can only view leaves from your department")
            else shown
        end end
      else if String.eqb role users.RoleWarden then
        match ctxUserID c with
        | None =>
            Panic "interface conversion: interface {} is nil, not uint"
        | Some userID =>
        match gorm.FirstByID User.ID userID (users_table db) with
        | None =>
            JSON http.StatusInternalServerError (H_error "User not found")
        | Some approver =>
            match User.Hostel approver, LeaveRequest.Hostel leave with
            | Some ah, Some lh =>
                if negb (String.eqb ah lh) then
                  JSON http.StatusForbidden
                    (H_error "You can only view leaves from your hostel")
                else shown
            | _, _ =>
                JSON http.StatusForbidden
                  (H_error "You can only view leaves from your hostel")
            end
        end end
      else shown
  end.
Definition decided (leave : LeaveRequest.t) (status : string)
    (approverID : nat) (remarks : option string) (updated : time.Time)
  : LeaveRequest.t :=
  LeaveRequest.mk
    (LeaveRequest.ID leave) (LeaveRequest.StudentID leave)
    (LeaveRequest.LeaveType leave) (LeaveRequest.Reason leave)
    (LeaveRequest.StartDate leave) (LeaveRequest.EndDate leave)
    status (Some approverID) remarks
    (LeaveRequest.Dept leave) (LeaveRequest.Hostel leave)
    (LeaveRequest.Days leave) (LeaveRequest.CreatedAt leave) updated.

Definition ApproveRejectLeave (now : time.Time) (db : DB) (c : Context)
    (input : ApproveRejectRequest) : Outcome * DB :=
  let leaveID := ctxParamID c in
  match bind_ApproveRejectRequest input with
  | (_ :: _) as errs => (JSON http.StatusBadRequest (H_bind_error errs), db)
  | [] =>
  match validate_ApproveRejectRequest input with
  | (_ :: _) as errs =>
      (JSON http.StatusBadRequest
         (H_error_details "Validation failed"
            (validation.FormatValidationErrors errs)), db)
  | [] =>
  match gorm.FirstByID LeaveRequest.ID leaveID (leave_requests db) with
  | None =>
      (JSON http.StatusNotFound (H_error "Leave request not found"), db)
  | Some leave =>
  (* Check if leave is already processed *)
  if negb (String.eqb (LeaveRequest.Status leave) "pending") then
    (JSON http.StatusBadRequest
       (H_error "Leave request has already been processed"), db)
  else
  match ctxUserID c with
  | None => (JSON http.StatusUnauthorized (H_error "Unauthorized"), db)
  | Some approverID =>
  let role := ctxRole c in
  (* Role-based approval restrictions; [None] lets the request through *)
  let restricted : option Outcome :=
    if String.eqb role users.RoleFaculty then
      match gorm.FirstByID User.ID approverID (users_table db) with
      | None =>
          Some (JSON http.StatusInternalServerError
                  (H_error "Approver not found"))
      | Some approver =>
          if negb (String.eqb (User.Dept approver)
                     (LeaveRequest.Dept leave)) then
            Some (JSON http.StatusForbidden
              (H_error "You can only approve leaves from your department"))
          else None
      end
    else if String.eqb role users.RoleWarden then
      match gorm.FirstByID User.ID approverID (users_table db) with
      | None =>
          Some (JSON http.StatusInternalServerError
                  (H_error "Approver not found"))
      | Some approver =>
          match User.Hostel approver, LeaveRequest.Hostel leave with
          | Some ah, Some lh =>
              if negb (String.eqb ah lh) then
                Some (JSON http.StatusForbidden
                  (H_error "You can only approve leaves from your hostel"))
              else None
          | _, _ =>
              Some (JSON http.StatusForbidden
                (H_error "You can only approve leaves from your hostel"))
          end
      end
    else None in
  match restricted with
  | Some answer => (answer, db)
  | None =>
      (* Update leave status *)
      let status :=
        if String.eqb (Action input) "approve" then "approved"
        else if String.eqb (Action input) "reject" then "rejected"
        else LeaveRequest.Status leave in
      let leave' := decided leave status approverID (Remarks input) now in
      let db' :=
        set_leave_requests db
          (gorm.Save LeaveRequest.ID leave' (leave_requests db)) in
      (JSON http.StatusOK (H_leave_updated leave'),
       notifications_pkg.NotifyLeaveStatusChange now db' leave')
  end end end end end.
End leaves.

(** ** Package [attendance] *)

Module attendance.
Import validator.
Local Open Scope Z_scope.

Record MarkAttendanceRequest := mkMark
  { StudentID : nat;
    Date : time.Time;
    Present : bool;
    Subject : option string;
    Period : option string }.

(** The [binding] tags of [MarkAttendanceRequest]: [required] on each of
    [StudentID], [Date] and [Present]. *)
Definition bind_MarkAttendanceRequest (req : MarkAttendanceRequest)
  : list FieldError :=
  run "StudentID" [("required", "", required_uint (StudentID req))]
  ++ run "Date" [("required", "", required_time (Date req))]
  ++ run "Present" [("required", "", required_bool (Present req))].

Definition validate_MarkAttendanceRequest (req : MarkAttendanceRequest)
  : list FieldError :=
  run "StudentID" [("required", "", required_uint (StudentID req))]
  ++ run "Date" [("required", "", required_time (Date req))]
  ++ run_ptr "Subject" (Subject req)
       (fun s => [("max", "50", max_string 50 s)]) ("max", "50")
  ++ run_ptr "Period" (Period req)
       (fun s => [("max", "20", max_string 20 s)]) ("max", "20").

Definition set_attendances (db : DB) (rows : list Attendance.t) : DB :=
  mkDB (users_table db) (leave_requests db) rows (notifications db).

(** [student_id = ? AND date = ?] *)
Definition markedOn (studentID : nat) (day : time.Time)
    (a : Attendance.t) : bool :=
  Nat.eqb (Attendance.StudentID a) studentID
  && (Attendance.Date a =? day).

(** [student_id = ? AND status = approved AND start_date <= ? AND
    end_date >= ?] *)
Definition approvedOn (studentID : nat) (day : time.Time)
    (l : LeaveRequest.t) : bool :=
  Nat.eqb (LeaveRequest.StudentID l) studentID
  && String.eqb (LeaveRequest.Status l) "approved"
  && (LeaveRequest.StartDate l <=? day)
  && (LeaveRequest.EndDate l >=? day).

Definition MarkAttendance (now : time.Time) (db : DB) (c : Context)
    (req : MarkAttendanceRequest) : Outcome * DB :=
  match bind_MarkAttendanceRequest req with
  | (_ :: _) as errs => (JSON http.StatusBadRequest (H_bind_error errs), db)
  | [] =>
  match validate_MarkAttendanceRequest req with
  | (_ :: _) as errs =>
      (JSON http.StatusBadRequest
         (H_error_details "Validation failed"
            (validation.FormatValidationErrors errs)), db)
  | [] =>
  match ctxUserID c with
  | None => (JSON http.StatusUnauthorized (H_error "User not found"), db)
  | Some markerID =>
  (* Check if student exists *)
  match gorm.FirstByID User.ID (StudentID req) (users_table db) with
  | None => (JSON http.StatusNotFound (H_error "Student not found"), db)
  | Some student =>
  let day := time.Truncate (Date req) (24 * time.Hour) in
  (* Check if attendance already exists for this date *)
  match gorm.First Attendance.ID (markedOn (StudentID req) day)
          (attendances db) with
  | Some existingAttendance =>
      (JSON http.StatusBadRequest
         (H_error "Attendance already marked for this date"), db)
  | None =>
  (* Check if student has approved leave for this date *)
  let approvedLeave :=
    gorm.First LeaveRequest.ID (approvedOn (StudentID req) day)
      (leave_requests db) in
  let create :=
    let attendance :=
      Attendance.mk (gorm.nextID Attendance.ID (attendances db))
        (StudentID req) day (Present req) markerID
        (Subject req) (Period req) now in
    (JSON http.StatusCreated (H_attendance_marked attendance),
     set_attendances db (attendances db ++ [attendance])) in
  match approvedLeave with
  | Some leave =>
      if Present req then
        (JSON http.StatusBadRequest
           (H_leave_conflict "Student has approved leave for this date"
              (LeaveRequest.LeaveType leave) (LeaveRequest.Reason leave)
              (LeaveRequest.StartDate leave) (LeaveRequest.EndDate leave)),
         db)
      else create
  | None => create
  end end end end end end.

(** The student whose records [ViewAttendance] and [GetStats] work on, or
    the answer that ends the request. *)
Definition whichStudent (c : Context) : Outcome + nat :=
  let role := ctxRole c in
  if String.eqb role users.RoleStudent then
    match ctxUserID c with
    | None => inl (JSON http.StatusUnauthorized (H_error "User not found"))
    | Some userID => inr userID
    end
  else
    (* Faculty, Warden, or Admin can view any student's attendance *)
    let studentIDParam := Query c "student_id" in
    if String.eqb studentIDParam "" then
      inl (JSON http.StatusBadRequest
             (H_error "student_id parameter is required"))
    else
      (* Placeholder - implement proper parsing *)
      inr 1%nat.

Definition viewFilter (studentID : nat) (startDate endDate subject : string)
    (a : Attendance.t) : bool :=
  Nat.eqb (Attendance.StudentID a) studentID
  && (if negb (String.eqb startDate "") then
        match time.Parse_date startDate with
        | Some start => Attendance.Date a >=? start
        | None => true
        end
      else true)
  && (if negb (String.eqb endDate "") then
        match time.Parse_date endDate with
        | Some end_ => Attendance.Date a <=? end_
        | None => true
        end
      else true)
  && (if negb (String.eqb subject "") then
        bool_decide (Attendance.Subject a = Some subject)
      else true).

Definition ViewAttendance (db : DB) (c : Context) : Outcome :=
  match whichStudent c with
  | inl answer => answer
  | inr studentID =>
      let startDate := Query c "start_date" in
      let endDate := Query c "end_date" in
      let subject := Query c "subject" in
      let records :=
        gorm.OrderDesc Attendance.Date
          (gorm.Find (viewFilter studentID startDate endDate subject)
             (attendances db)) in
      JSON http.StatusOK (H_attendance records startDate endDate subject)
  end.

Definition GetStats (db : DB) (c : Context) : Outcome :=
  match whichStudent c with
  | inl answer => answer
  | inr studentID =>
  match gorm.FirstByID User.ID studentID (users_table db) with
  | None => JSON http.StatusNotFound (H_error "Student not found")
  | Some student =>
      let ofStudent (a : Attendance.t) :=
        Nat.eqb (Attendance.StudentID a) studentID in
      let totalDays := gorm.Count ofStudent (attendances db) in
      let presentDays :=
        gorm.Count (fun a => ofStudent a && Attendance.Present a)
          (attendances db) in
      let lastAttendance :=
        Attendance.Date <$>
          head (gorm.OrderDesc Attendance.Date
                  (gorm.Find ofStudent (attendances db))) in
      let attendancePercentage : Q :=
        if totalDays >? 0 then
          (inject_Z presentDays / inject_Z totalDays * 100)%Q
        else 0%Q in
      JSON http.StatusOK
        (H_stats (mkStats studentID (User.Name student) totalDays
                    presentDays (totalDays - presentDays)
                    attendancePercentage lastAttendance))
  end end.

(** The statistics that the loop of [GetDepartmentStats] computes for one
    student of the department. *)
Definition studentStats (db : DB) (student : User.t) : AttendanceStats :=
  let ofStudent (a : Attendance.t) :=
    Nat.eqb (Attendance.StudentID a) (User.ID student) in
  let totalDays := gorm.Count ofStudent (attendances db) in
  let presentDays :=
    gorm.Count (fun a => ofStudent a && Attendance.Present a)
      (attendances db) in
  let lastAttendance :=
    Attendance.Date <$>
      head (gorm.OrderDesc Attendance.Date
              (gorm.Find ofStudent (attendances db))) in
  let attendancePercentage : Q :=
    if totalDays >? 0 then
      (inject_Z presentDays / inject_Z totalDays * 100)%Q
    else 0%Q in
  mkStats (User.ID student) (User.Name student) totalDays presentDays
    (totalDays - presentDays) attendancePercentage lastAttendance.

Record DepartmentStats := mkDepartmentStats
  { department : string;
    stats : list AttendanceStats;
    total_students : nat }.

Definition GetDepartmentStats (db : DB) (c : Context)
  : Reply DepartmentStats :=
  let role := ctxRole c in
  if negb (String.eqb role users.RoleFaculty)
     && negb (String.eqb role users.RoleAdmin) then
    ReplyError http.StatusForbidden "Access denied"
  else
    let chosen : Reply DepartmentStats + string :=
      if String.eqb role users.RoleFaculty then
        match ctxUserID c with
        | None =>
            inl (ReplyPanic
                   "interface conversion: interface {} is nil, not uint")
        | Some userID =>
            match gorm.FirstByID User.ID userID (users_table db) with
            | None =>
                inl (ReplyError http.StatusInternalServerError
                       "Faculty not found")
            | Some faculty => inr (User.Dept faculty)
            end
        end
      else
        let dept := Query c "department" in
        if String.eqb dept "" then
          inl (ReplyError http.StatusBadRequest
                 "department parameter is required")
        else inr dept in
    match chosen with
    | inl answer => answer
    | inr dept =>
        (* Get all students in the department *)
        let students :=
          gorm.Find
            (fun u => String.eqb (User.Role u) users.RoleStudent
                      && String.eqb (User.Dept u) dept)
            (users_table db) in
        ReplyObject http.StatusOK
          (mkDepartmentStats dept (map (studentStats db) students)
             (length students))
    end.
End attendance.

(** ** Packages [auth] and [api]: the role gate and the routes *)

Module auth.
(** [RequireRole(role)]: whether the request goes on to the handler. *)
Definition RequireRole (role : string) (c : Context) : bool :=
  String.eqb (ctxRole c) role.

Definition forbidden : Outcome :=
  JSON http.StatusForbidden
    (H_error "Forbidden - insufficient permissions").
End auth.

Module api.
(** POST /leaves/apply: the JWT middleware, then the handler. *)
Definition POST_leaves_apply := leaves.ApplyLeave.


(** PUT /leaves/:id/approve and PUT /leaves/:id/reject: the JWT
    middleware, then the same handler; no role gate. *)
Definition PUT_leaves_approve := leaves.ApproveRejectLeave.
Definition PUT_leaves_reject := leaves.ApproveRejectLeave.

(** POST /attendance/mark: the JWT middleware, [RequireRole(faculty)],
    then the handler. *)
Definition POST_attendance_mark (now : time.Time) (db : DB) (c : Context)
    (req : attendance.MarkAttendanceRequest) : Outcome * DB :=
  if auth.RequireRole users.RoleFaculty c then
    attendance.MarkAttendance now db c req
  else (auth.forbidden, db).

Definition GET_attendance := attendance.ViewAttendance.
Definition GET_attendance_stats := attendance.GetStats.

(** GET /attendance/department: the JWT middleware, then the handler. *)
Definition GET_attendance_department := attendance.GetDepartmentStats.

(** The routes of [notifications]: the JWT middleware, then the handler. *)
Definition GET_notifications_unread_count := notifications_pkg.GetUnreadCount.
Definition PUT_notifications_id_read :=
  notifications_pkg.MarkNotificationAsRead.
Definition PUT_notifications_read_all :=
  notifications_pkg.MarkAllNotificationsAsRead.
End api.

(** ** Reading an answer *)

Definition code_of (o : Outcome) : option nat :=
  match o with
  | JSON code _ => Some code
  | Panic _ => None
  end.

(** The inclusive calendar-day span of [start, end]: the number of UTC
    calendar days from the day of [start] to the day of [end_], both
    counted.  This follows the words of the specification, not the code. *)
Definition calendarDaySpan (start end_ : time.Time) : Z :=
  (end_ / (24 * time.Hour) - start / (24 * time.Hour) + 1)%Z.

(** Two inclusive ranges intersect. *)
Definition intersects (s1 e1 s2 e2 : time.Time) : Prop :=
  (s1 <= e2 /\ s2 <= e1)%Z.

(** ** Scenario data *)

Module scenario.
Local Open Scope Z_scope.

Definition date (s : string) : time.Time := default 0 (time.Parse_date s).

Definition now : time.Time := date "2025-03-01" + 10 * time.Hour.

Definition alice : User.t :=
  User.mk 1 "Alice" "alice@campus.edu" "student" "CS" (Some "North").
Definition frank : User.t :=
  User.mk 2 "Frank" "frank@campus.edu" "faculty" "CS" None.
Definition wanda : User.t :=
  User.mk 3 "Wanda" "wanda@campus.edu" "warden" "CS" None.

Definition people : list User.t := [alice; frank; wanda].

Definition as_user (id : nat) (role : string) (leaveID : nat) : Context :=
  mkContext (Some id) role ∅ leaveID.

(** Alice's leave from March 10 to March 12, as [ApplyLeave] stores it. *)
Definition leave1 (status : string) (by_ : option nat) : LeaveRequest.t :=
  LeaveRequest.mk 1 1 "medical" "flu and fever"
    (date "2025-03-10") (date "2025-03-12") status by_ None
    "CS" (Some "North") 3 now now.

Definition db_empty : DB := mkDB people [] [] [].
Definition db_pending : DB := mkDB people [leave1 "pending" None] [] [].
Definition db_approved : DB :=
  mkDB people [leave1 "approved" (Some 2%nat)] [] [].

Definition apply (start end_ : time.Time) : leaves.ApplyLeaveRequest :=
  leaves.mkApply "medical" "flu and fever" start end_.

Definition mark (present : bool) : attendance.MarkAttendanceRequest :=
  attendance.mkMark 1 (date "2025-03-11" + 9 * time.Hour) present
    (Some "Algebra") (Some "2").

Definition marked : Attendance.t :=
  Attendance.mk 1 1 (date "2025-03-11") true 2
    (Some "Algebra") (Some "2") now.

Definition db_marked : DB := mkDB people [] [marked] [].

(** A second student, Bob, with id 7, marked absent on the same day. *)
Definition bob : User.t :=
  User.mk 7 "Bob" "bob@campus.edu" "student" "EE" None.

Definition bob_marked : Attendance.t :=
  Attendance.mk 2 7 (date "2025-03-11") false 2 None None now.

Definition db_class : DB :=
  mkDB (people ++ [bob]) [] [marked; bob_marked] [].

(** Hana, warden of the hostel North, and Eve, of the faculty of EE. *)
Definition hana : User.t :=
  User.mk 4 "Hana" "hana@campus.edu" "warden" "CS" (Some "North").
Definition eve : User.t :=
  User.mk 5 "Eve" "eve@campus.edu" "faculty" "EE" None.

Definition staff : list User.t := people ++ [hana; eve].

Definition db_staff_pending : DB :=
  mkDB staff [leave1 "pending" None] [] [].

(** Notifications: two unread ones of Alice, one unread one of Bob. *)
Definition note (id user : nat) : Notification.t :=
  Notification.mk id user "Leave Request approved"
    (Notification.mkMessage "medical" (date "2025-03-10")
       (date "2025-03-12") "approved" None)
    "leave_status" false (Some 1%nat) now.

Definition db_notes : DB :=
  mkDB (people ++ [bob]) [] [] [note 1 1; note 2 1; note 3 7].



(** Frank, of the faculty, asking for the attendance of a student. *)
Definition frank_asks_for (student_id : string) : Context :=
  mkContext (Some 2%nat) "faculty" {[ "student_id" := student_id ]} 0.
End scenario.

(** What [ApplyLeave] asks of a request body before it looks at the store:
    the end is after the start, the start is not before today's midnight
    (UTC), end minus start is at most 30 days of 24 hours, the reason has 10
    to 500 runes and the type is one of the four. *)
Definition acceptable (now : time.Time) (input : leaves.ApplyLeaveRequest)
  : Prop :=
  (leaves.StartDate input < leaves.EndDate input)%Z
  /\ (time.Truncate now (24 * time.Hour) <= leaves.StartDate input)%Z
  /\ (leaves.EndDate input - leaves.StartDate input
       <= 30 * 24 * time.Hour)%Z
  /\ (10 <= utf8.RuneCountInString (leaves.Reason input) <= 500)%nat
  /\ In (leaves.LeaveType input) leaves.leaveTypes.

(** The same request with another value for the [student_id] query
    parameter, and the same request made by the student with a given id. *)
Definition with_student_id (v : string) (c : Context) : Context :=
  mkContext (ctxUserID c) (ctxRole c)
    (<["student_id" := v]> (ctxQuery c)) (ctxParamID c).

Definition as_student (id : nat) (c : Context) : Context :=
  mkContext (Some id) users.RoleStudent (ctxQuery c) (ctxParamID c).

(** The same request with another value for one query parameter. *)
Definition with_query (key v : string) (c : Context) : Context :=
  mkContext (ctxUserID c) (ctxRole c) (<[key := v]> (ctxQuery c))
    (ctxParamID c).

(** Rows in descending order of a time column. *)
Definition descending {A : Type} (key : A -> time.Time) (rows : list A)
  : Prop :=
  StronglySorted (fun a b => (key b <= key a)%Z) rows.

(** No two rows of a table share their primary key. *)
Definition uniqueKeys {A : Type} (id : A -> nat) (rows : list A) : Prop :=
  NoDup (map id rows).

(** The UTC calendar day of an instant, in days since the epoch. *)
Definition dayOf (t : time.Time) : Z := (t / (24 * time.Hour))%Z.

(** The status that a valid action of [ApproveRejectRequest] leads to. *)
Definition outcomeOf (action : string) : string :=
  if String.eqb action "approve" then "approved" else "rejected".

(** A decision by [approverID] on [leave] went through: the answer is 200
    with the updated record, which is stored under the key of the request
    with its new status, approver and remarks; the rows under every other
    key, the users and the attendance records are as before. *)
Definition decision_taken (now : time.Time) (db : DB) (c : Context)
    (input : leaves.ApproveRejectRequest) (leave : LeaveRequest.t)
    (approverID : nat) (result : Outcome * DB) : Prop :=
  let leave' :=
    leaves.decided leave (outcomeOf (leaves.Action input)) approverID
      (leaves.Remarks input) now in
  result.1 = JSON http.StatusOK (H_leave_updated leave')
  /\ gorm.FirstByID LeaveRequest.ID (ctxParamID c)
       (leave_requests result.2) = Some leave'
  /\ (forall key,
        key <> ctxParamID c ->
        gorm.FirstByID LeaveRequest.ID key (leave_requests result.2)
        = gorm.FirstByID LeaveRequest.ID key (leave_requests db))
  /\ users_table result.2 = users_table db
  /\ attendances result.2 = attendances db.

(** The columns of a leave request that no decision changes. *)
Definition same_request (l l' : LeaveRequest.t) : Prop :=
  LeaveRequest.ID l' = LeaveRequest.ID l
  /\ LeaveRequest.StudentID l' = LeaveRequest.StudentID l
  /\ LeaveRequest.LeaveType l' = LeaveRequest.LeaveType l
  /\ LeaveRequest.Reason l' = LeaveRequest.Reason l
  /\ LeaveRequest.StartDate l' = LeaveRequest.StartDate l
  /\ LeaveRequest.EndDate l' = LeaveRequest.EndDate l
  /\ LeaveRequest.Dept l' = LeaveRequest.Dept l
  /\ LeaveRequest.Hostel l' = LeaveRequest.Hostel l
  /\ LeaveRequest.Days l' = LeaveRequest.Days l
  /\ LeaveRequest.CreatedAt l' = LeaveRequest.CreatedAt l.

(** Every attendance record is dated at a UTC midnight. *)
Definition datedAtMidnight (rows : list Attendance.t) : Prop :=
  forall a,
    In a rows ->
    Attendance.Date a = (24 * time.Hour * dayOf (Attendance.Date a))%Z.

(** No two attendance records are of the same student and UTC calendar
    day. *)
Definition oneMarkPerDay (rows : list Attendance.t) : Prop :=
  NoDup
    (map (fun a => (Attendance.StudentID a, dayOf (Attendance.Date a)))
       rows).

(** The record that [MarkAttendance] creates. *)
Definition markedRecord (now : time.Time) (db : DB) (markerID : nat)
    (req : attendance.MarkAttendanceRequest) : Attendance.t :=
  Attendance.mk (gorm.nextID Attendance.ID (attendances db))
    (attendance.StudentID req)
    (time.Truncate (attendance.Date req) (24 * time.Hour)%Z)
    (attendance.Present req) markerID
    (attendance.Subject req) (attendance.Period req) now.

(** * Properties *)

(** ** The store *)

Section StoreFacts.
Context {A : Type} (id : A -> nat).

Lemma fold_lesser_from_Some (l : list A) (b : A) :
  exists r, fold_left (gorm.lesser id) l (Some b) = Some r
            /\ (r = b \/ In r l).
Proof.
  revert b. induction l as [|x l IH]; intros b; simpl.
  - exists b. auto.
  - destruct (id x <? id b)%nat.
    + destruct (IH x) as (r & Hr & Hor). exists r.
      split; [exact Hr|]. destruct Hor as [Heq|Hin]; auto.
    + destruct (IH b) as (r & Hr & Hor). exists r.
      split; [exact Hr|]. destruct Hor as [Heq|Hin]; auto.
Qed.

Lemma First_None (cond : A -> bool) (rows : list A) :
  gorm.First id cond rows = None <-> gorm.Find cond rows = [].
Proof.
  unfold gorm.First. destruct (gorm.Find cond rows) as [|x l]; simpl.
  - tauto.
  - destruct (fold_lesser_from_Some l x) as (r & Hr & _).
    rewrite Hr. split; discriminate.
Qed.

Lemma First_Some_In (cond : A -> bool) (rows : list A) (r : A) :
  gorm.First id cond rows = Some r -> In r rows /\ cond r = true.
Proof.
  unfold gorm.First, gorm.Find. intros H.
  apply filter_In.
  destruct (List.filter cond rows) as [|x l]; simpl in H; [discriminate|].
  destruct (fold_lesser_from_Some l x) as (r' & Hr & Hin).
  rewrite Hr in H. injection H as <-.
  destruct Hin as [-> | Hin]; [left | right]; auto.
Qed.

Lemma First_found (cond : A -> bool) (rows : list A) (r : A) :
  In r rows -> cond r = true -> is_Some (gorm.First id cond rows).
Proof.
  intros Hin Hc.
  destruct (gorm.First id cond rows) eqn:E; [eauto|].
  apply First_None in E. unfold gorm.Find in E.
  assert (In r (List.filter cond rows)) as H by (apply filter_In; auto).
  rewrite E in H. destruct H.
Qed.

Lemma fold_lesser_repeat (x : A) (n : nat) :
  fold_left (gorm.lesser id) (repeat x n) (Some x) = Some x.
Proof.
  induction n as [|n IH]; simpl; [reflexivity|].
  rewrite Nat.ltb_irrefl. exact IH.
Qed.

Lemma Find_Save (key : nat) (row : A) (rows : list A) :
  id row = key ->
  gorm.Find (fun r => Nat.eqb (id r) key) (gorm.Save id row rows)
  = repeat row
      (length (gorm.Find (fun r => Nat.eqb (id r) key) rows)).
Proof.
  intros <-. unfold gorm.Find, gorm.Save.
  induction rows as [|x rows IH]; simpl; [reflexivity|].
  destruct (Nat.eqb (id x) (id row)) eqn:E; simpl.
  - rewrite Nat.eqb_refl. simpl. f_equal. exact IH.
  - rewrite E. exact IH.
Qed.

(** A row that was found under its key is found again, with its new
    columns, after it is saved. *)
Lemma FirstByID_Save (key : nat) (old row : A) (rows : list A) :
  gorm.FirstByID id key rows = Some old ->
  id row = key ->
  gorm.FirstByID id key (gorm.Save id row rows) = Some row.
Proof.
  intros Hold Hid. unfold gorm.FirstByID, gorm.First in *.
  rewrite (Find_Save key row rows Hid).
  destruct (gorm.Find _ rows) as [|x l]; simpl in *; [discriminate|].
  apply fold_lesser_repeat.
Qed.

Lemma FirstByID_key (key : nat) (r : A) (rows : list A) :
  gorm.FirstByID id key rows = Some r -> id r = key /\ In r rows.
Proof.
  intros H. apply First_Some_In in H as [Hin Hc].
  apply Nat.eqb_eq in Hc. auto.
Qed.
End StoreFacts.

(** ** The validator *)

Lemma run_nil (field : string) (tags : list validator.check) :
  validator.run field tags = [] <-> forallb snd tags = true.
Proof.
  induction tags as [|[[tag param] ok] tags IH]; simpl.
  - tauto.
  - destruct ok; simpl; [exact IH | split; discriminate].
Qed.

Section ValidatorFacts.
Local Open Scope Z_scope.

Lemma required_string_true (s : string) :
  validator.required_string s = true <-> s <> "".
Proof.
  unfold validator.required_string.
  rewrite negb_true_iff. apply String.eqb_neq.
Qed.

Lemma required_time_true (t : time.Time) :
  validator.required_time t = true <-> t <> time.zero.
Proof.
  unfold validator.required_time, time.IsZero.
  rewrite negb_true_iff. apply Z.eqb_neq.
Qed.

Lemma oneof_true (options : list string) (s : string) :
  validator.oneof options s = true <-> In s options.
Proof.
  unfold validator.oneof. rewrite existsb_exists. split.
  - intros (x & Hin & Heq). apply String.eqb_eq in Heq. now subst.
  - intros Hin. exists s. split; [exact Hin | apply String.eqb_refl].
Qed.

Lemma validateDateRange_true (start end_ : time.Time) :
  validation.validateDateRange start end_ = true <-> start < end_.
Proof. unfold validation.validateDateRange, time.After. apply Z.ltb_lt. Qed.

Lemma validateFutureDate_true (now date : time.Time) :
  validation.validateFutureDate now date = true
  <-> time.Truncate now (24 * time.Hour) <= date.
Proof.
  unfold validation.validateFutureDate, time.Before.
  rewrite negb_true_iff, Z.ltb_ge. tauto.
Qed.

Lemma Sub_exact (t u : time.Time) :
  time.minDuration <= t - u <= time.maxDuration -> time.Sub t u = t - u.
Proof.
  intros H. unfold time.Sub.
  destruct (Z.ltb_spec (t - u) time.minDuration); [lia|].
  destruct (Z.ltb_spec time.maxDuration (t - u)); [lia|reflexivity].
Qed.

Lemma validateLeaveDuration_true (start end_ : time.Time) :
  validation.validateLeaveDuration start end_ = true
  <-> 0 <= end_ - start <= 30 * 24 * time.Hour.
Proof.
  unfold validation.validateLeaveDuration, time.Sub.
  rewrite andb_true_iff, Z.leb_le, Z.geb_le.
  change time.minDuration with (-9223372036854775808).
  change time.maxDuration with 9223372036854775807.
  change (30 * 24 * time.Hour) with 2592000000000000.
  destruct (Z.ltb_spec (end_ - start) (-9223372036854775808));
    [lia|].
  destruct (Z.ltb_spec 9223372036854775807 (end_ - start)); lia.
Qed.

Lemma Truncate_day_bounds (t : time.Time) :
  t - 24 * time.Hour < time.Truncate t (24 * time.Hour) <= t.
Proof.
  unfold time.Truncate.
  change (24 * time.Hour) with 86400000000000.
  change (86400000000000 <=? 0) with false. cbv iota.
  pose proof (Z.mod_pos_bound (t - time.zero) 86400000000000).
  lia.
Qed.

(** Truncation to 24 hours lands on a UTC midnight. *)
Lemma Truncate_day_midnight (t : time.Time) :
  time.Truncate t (24 * time.Hour) = 24 * time.Hour * (t / (24 * time.Hour)).
Proof.
  unfold time.Truncate.
  change (24 * time.Hour) with 86400000000000.
  change (86400000000000 <=? 0) with false. cbv iota.
  change time.zero with (- (719162 * 86400000000000)).
  replace (t - - (719162 * 86400000000000))
    with (t + 719162 * 86400000000000) by lia.
  rewrite Z.mod_add by lia.
  pose proof (Z.div_mod t 86400000000000). lia.
Qed.

Lemma acceptable_iff (now : time.Time) (input : leaves.ApplyLeaveRequest) :
  0 <= now ->
  leaves.bind_ApplyLeaveRequest input = []
  /\ leaves.validate_ApplyLeaveRequest now input = []
  <-> acceptable now input.
Proof.
  intros Hnow.
  unfold leaves.bind_ApplyLeaveRequest, leaves.validate_ApplyLeaveRequest,
    acceptable.
  rewrite !app_nil, !run_nil. cbn [forallb snd].
  repeat rewrite andb_true_iff.
  rewrite !required_string_true, !required_time_true, oneof_true,
    validateDateRange_true, validateFutureDate_true,
    validateLeaveDuration_true.
  unfold validator.min_string, validator.max_string.
  rewrite Nat.leb_le, Nat.leb_le.
  pose proof (Truncate_day_bounds now) as Ht.
  change (24 * time.Hour) with 86400000000000 in *.
  change (30 * 86400000000000) with 2592000000000000.
  change time.zero with (-62135596800000000000).
  split.
  - intros H. repeat split; try tauto; lia.
  - intros (Hlt & Hfut & Hdur & [Hmin Hmax] & Htype).
    assert (leaves.Reason input <> "") as Hr.
    { intros E. rewrite E in Hmin. simpl in Hmin. lia. }
    assert (leaves.LeaveType input <> "") as Hl.
    { intros E. rewrite E in Htype. simpl in Htype.
      repeat destruct Htype as [Htype|Htype]; try discriminate; auto. }
    repeat split; auto; lia.
Qed.
End ValidatorFacts.

(** ** Submitting a leave request *)

Section ApplyLeaveFacts.
Local Open Scope Z_scope.
Variables (now : time.Time) (db : DB) (c : Context)
          (input : leaves.ApplyLeaveRequest).

Lemma ApplyLeave_accepts (studentID : nat) (student : User.t) :
  leaves.bind_ApplyLeaveRequest input = [] ->
  leaves.validate_ApplyLeaveRequest now input = [] ->
  ctxUserID c = Some studentID ->
  gorm.FirstByID User.ID studentID (users_table db) = Some student ->
  gorm.Find
    (leaves.samePeriod studentID (leaves.StartDate input)
       (leaves.EndDate input)) (leave_requests db) = [] ->
  leaves.ApplyLeave now db c input
  = (JSON http.StatusCreated
       (H_leave_submitted
          (leaves.submitted now db input studentID student)),
     leaves.set_leave_requests db
       (leave_requests db
        ++ [leaves.submitted now db input studentID student])).
Proof.
  intros Hb Hv Hu Hs Hf. unfold leaves.ApplyLeave.
  rewrite Hb, Hv, Hu, Hs, Hf. reflexivity.
Qed.

Lemma ApplyLeave_rejects_invalid :
  ~ (leaves.bind_ApplyLeaveRequest input = []
     /\ leaves.validate_ApplyLeaveRequest now input = []) ->
  code_of (leaves.ApplyLeave now db c input).1
    = Some http.StatusBadRequest
  /\ (leaves.ApplyLeave now db c input).2 = db.
Proof.
  intros H. unfold leaves.ApplyLeave.
  destruct (leaves.bind_ApplyLeaveRequest input); [|split; reflexivity].
  destruct (leaves.validate_ApplyLeaveRequest now input);
    [|split; reflexivity].
  exfalso. apply H. split; reflexivity.
Qed.

Lemma ApplyLeave_created_inv (body : Body) (db' : DB) :
  leaves.ApplyLeave now db c input = (JSON http.StatusCreated body, db') ->
  leaves.bind_ApplyLeaveRequest input = []
  /\ leaves.validate_ApplyLeaveRequest now input = []
  /\ exists studentID student,
       ctxUserID c = Some studentID
       /\ gorm.FirstByID User.ID studentID (users_table db) = Some student
       /\ body = H_leave_submitted
                    (leaves.submitted now db input studentID student)
       /\ db' = leaves.set_leave_requests db
                  (leave_requests db
                   ++ [leaves.submitted now db input studentID student]).
Proof.
  unfold leaves.ApplyLeave.
  destruct (leaves.bind_ApplyLeaveRequest input); [|discriminate].
  destruct (leaves.validate_ApplyLeaveRequest now input); [|discriminate].
  destruct (ctxUserID c) as [studentID|] eqn:Hu; [|discriminate].
  destruct (gorm.FirstByID User.ID studentID (users_table db))
    as [student|] eqn:Hs; [|discriminate].
  destruct (0 <? length _)%nat; [discriminate|].
  intros H. injection H as <- <-.
  split; [reflexivity|]. split; [reflexivity|].
  exists studentID, student. auto.
Qed.

(** A leave of the student that is pending or approved and holds the
    start or the end of the requested range stops the request. *)
Lemma ApplyLeave_endpoint_inside (l : LeaveRequest.t) :
  In l (leave_requests db) ->
  ctxUserID c = Some (LeaveRequest.StudentID l) ->
  LeaveRequest.Status l = "pending" \/ LeaveRequest.Status l = "approved" ->
  LeaveRequest.StartDate l <= leaves.StartDate input
    <= LeaveRequest.EndDate l
  \/ LeaveRequest.StartDate l <= leaves.EndDate input
    <= LeaveRequest.EndDate l ->
  code_of (leaves.ApplyLeave now db c input).1 <> Some http.StatusCreated
  /\ (leaves.ApplyLeave now db c input).2 = db.
Proof.
  intros Hin Hu Hst Hov. unfold leaves.ApplyLeave.
  destruct (leaves.bind_ApplyLeaveRequest input);
    [|split; [discriminate|reflexivity]].
  destruct (leaves.validate_ApplyLeaveRequest now input);
    [|split; [discriminate|reflexivity]].
  rewrite Hu.
  destruct (gorm.FirstByID User.ID _ (users_table db));
    [|split; [discriminate|reflexivity]].
  assert (In l (gorm.Find
            (leaves.samePeriod (LeaveRequest.StudentID l)
               (leaves.StartDate input) (leaves.EndDate input))
            (leave_requests db))) as Hfound.
  { apply filter_In. split; [exact Hin|].
    unfold leaves.samePeriod. rewrite Nat.eqb_refl. simpl.
    apply andb_true_iff. split.
    - destruct Hst as [-> | ->]; reflexivity.
    - apply orb_true_iff.
      destruct Hov as [H|H]; [left|right];
        apply andb_true_iff; split;
        first [apply Z.leb_le | apply Z.geb_le]; lia. }
  destruct (gorm.Find _ (leave_requests db)); [destruct Hfound|].
  split; [discriminate|reflexivity].
Qed.
End ApplyLeaveFacts.

Section DayCount.
Local Open Scope Z_scope.

Lemma acceptable_of_valid (now : time.Time)
    (input : leaves.ApplyLeaveRequest) :
  leaves.validate_ApplyLeaveRequest now input = [] -> acceptable now input.
Proof.
  unfold leaves.validate_ApplyLeaveRequest, acceptable.
  rewrite !app_nil, !run_nil. cbn [forallb snd].
  repeat rewrite andb_true_iff.
  rewrite oneof_true, validateDateRange_true, validateFutureDate_true,
    validateLeaveDuration_true.
  unfold validator.min_string, validator.max_string.
  rewrite Nat.leb_le, Nat.leb_le.
  intros H. repeat split; try tauto; lia.
Qed.

Lemma whole_days_exact (start end_ : time.Time) :
  0 <= end_ - start <= 30 * 24 * time.Hour ->
  time.whole_days (time.Sub end_ start) = (end_ - start) / (24 * time.Hour).
Proof.
  intros H. unfold time.whole_days.
  rewrite Sub_exact.
  - apply Z.quot_div_nonneg; [lia | reflexivity].
  - change time.minDuration with (-9223372036854775808).
    change time.maxDuration with 9223372036854775807.
    change (30 * 24 * time.Hour) with 2592000000000000 in H. lia.
Qed.

(** Whole days elapsed against calendar days crossed. *)
Lemma elapsed_days_calendar (d s e : Z) :
  0 < d ->
  (s mod d <= e mod d -> (e - s) / d = e / d - s / d)
  /\ (e mod d < s mod d -> (e - s) / d = e / d - s / d - 1).
Proof.
  intros Hd.
  pose proof (Z.div_mod e d) as He. pose proof (Z.div_mod s d) as Hs.
  pose proof (Z.mod_pos_bound e d Hd) as Be.
  pose proof (Z.mod_pos_bound s d Hd) as Bs.
  split; intros Hcmp; symmetry.
  - apply (Z.div_unique_pos _ _ _ (e mod d - s mod d)); lia.
  - apply (Z.div_unique_pos _ _ _ (d + e mod d - s mod d)); lia.
Qed.
End DayCount.

(** C1 (the code departs from the claim).  The claim: a request whose range
    intersects one of the student's pending or approved leaves is rejected,
    also when one range holds the other.  The query of [ApplyLeave] looks
    for a leave that holds the start or the end of the request, so a request
    that strictly encloses an existing leave is accepted: with Alice's
    pending leave of March 10 to 12 in the store, her request for March 9 to
    13 is answered 201 and stored next to it. *)
Theorem C1_enclosing_request_is_accepted :
  let existing := scenario.leave1 "pending" None in
  let request :=
    scenario.apply (scenario.date "2025-03-09") (scenario.date "2025-03-13") in
  let answer :=
    api.POST_leaves_apply scenario.now scenario.db_pending
      (scenario.as_user 1 "student" 0) request in
  leave_requests scenario.db_pending = [existing]
  /\ LeaveRequest.StudentID existing = 1%nat
  /\ LeaveRequest.Status existing = "pending"
  /\ intersects (LeaveRequest.StartDate existing)
       (LeaveRequest.EndDate existing)
       (leaves.StartDate request) (leaves.EndDate request)
  /\ exists created,
       answer.1 = JSON http.StatusCreated (H_leave_submitted created)
       /\ leave_requests answer.2 = [existing; created]
       /\ LeaveRequest.StudentID created = 1%nat
       /\ LeaveRequest.Status created = "pending"
       /\ LeaveRequest.StartDate created = scenario.date "2025-03-09"
       /\ LeaveRequest.EndDate created = scenario.date "2025-03-13".
Proof.
  cbv zeta. repeat split; try (vm_compute; congruence).
  eexists. repeat split; vm_compute; reflexivity.
Qed.

(** C5, counterexample to the claim as stated: a single-day request (end
    equal to start) fails validation with "End date must be after start
    date", and a request of 31 inclusive days (end minus start equal to 30
    days) is accepted. *)
Lemma C5_single_day_rejected_31_days_accepted :
  let day := scenario.date "2025-03-10" in
  let alice := scenario.as_user 1 "student" 0 in
  (leaves.ApplyLeave scenario.now scenario.db_empty alice
     (scenario.apply day day)).1
  = JSON http.StatusBadRequest
      (H_error_details "Validation failed"
         {[ "EndDate" := "End date must be after start date" ]})
  /\ (scenario.date "2025-04-09" - day = 30 * (24 * time.Hour))%Z
  /\ code_of
       (leaves.ApplyLeave scenario.now scenario.db_empty alice
          (scenario.apply day (scenario.date "2025-04-09"))).1
     = Some http.StatusCreated.
Proof.
  cbv zeta. split; [|split]; vm_compute; reflexivity.
Qed.

(** C5, as amended.  For a known student with no leave that the
    same-period query finds, [ApplyLeave] answers 201 and stores the record
    exactly when the end is strictly after the start, the start is not
    before today's midnight, end minus start is at most 30 days, the reason
    has 10 to 500 runes and the type is one of the four; otherwise it
    answers 400 and stores nothing. *)
Theorem C5_submit_accepts_exactly_when (now : time.Time) (db : DB)
    (c : Context) (input : leaves.ApplyLeaveRequest)
    (studentID : nat) (student : User.t) :
  (0 <= now)%Z ->
  ctxUserID c = Some studentID ->
  gorm.FirstByID User.ID studentID (users_table db) = Some student ->
  gorm.Find
    (leaves.samePeriod studentID (leaves.StartDate input)
       (leaves.EndDate input)) (leave_requests db) = [] ->
  (code_of (leaves.ApplyLeave now db c input).1 = Some http.StatusCreated
   <-> acceptable now input)
  /\ (acceptable now input ->
      leaves.ApplyLeave now db c input
      = (JSON http.StatusCreated
           (H_leave_submitted
              (leaves.submitted now db input studentID student)),
         leaves.set_leave_requests db
           (leave_requests db
            ++ [leaves.submitted now db input studentID student])))
  /\ (~ acceptable now input ->
      code_of (leaves.ApplyLeave now db c input).1
        = Some http.StatusBadRequest
      /\ (leaves.ApplyLeave now db c input).2 = db).
Proof.
  intros Hnow Hu Hs Hf.
  assert (acceptable now input ->
          leaves.ApplyLeave now db c input
          = (JSON http.StatusCreated
               (H_leave_submitted
                  (leaves.submitted now db input studentID student)),
             leaves.set_leave_requests db
               (leave_requests db
                ++ [leaves.submitted now db input studentID student])))
    as Hyes.
  { intros Hacc. apply acceptable_iff in Hacc as [Hb Hv]; [|exact Hnow].
    now apply ApplyLeave_accepts. }
  assert (~ acceptable now input ->
          code_of (leaves.ApplyLeave now db c input).1
            = Some http.StatusBadRequest
          /\ (leaves.ApplyLeave now db c input).2 = db) as Hno.
  { intros Hacc. apply ApplyLeave_rejects_invalid.
    intros H. apply Hacc. now apply acceptable_iff. }
  split; [|split; assumption].
  split.
  - intros Hcode.
    destruct (leaves.ApplyLeave now db c input) as [out db'] eqn:E.
    destruct out as [code body|]; simpl in Hcode; [|discriminate].
    injection Hcode as ->.
    apply ApplyLeave_created_inv in E as (Hb & Hv & _).
    now apply acceptable_of_valid.
  - intros Hacc. rewrite (Hyes Hacc). reflexivity.
Qed.

Lemma C5_witness :
  let request :=
    scenario.apply (scenario.date "2025-03-10") (scenario.date "2025-03-12") in
  acceptable scenario.now request
  /\ leaves.ApplyLeave scenario.now scenario.db_empty
       (scenario.as_user 1 "student" 0) request
     = (JSON http.StatusCreated
          (H_leave_submitted (scenario.leave1 "pending" None)),
        scenario.db_pending).
Proof.
  cbv zeta.
  assert (acceptable scenario.now
            (scenario.apply (scenario.date "2025-03-10")
               (scenario.date "2025-03-12"))) as Hacc.
  { unfold acceptable. simpl. vm_compute.
    repeat split; try discriminate; try lia; auto 10. }
  split; [exact Hacc|].
  refine (proj1 (proj2
            (C5_submit_accepts_exactly_when scenario.now scenario.db_empty
               (scenario.as_user 1 "student" 0)
               (scenario.apply (scenario.date "2025-03-10")
                  (scenario.date "2025-03-12"))
               1%nat scenario.alice _ _ _ _)) Hacc).
  - vm_compute. discriminate.
  - reflexivity.
  - reflexivity.
  - reflexivity.
Defined.

(** C8, counterexample to the claim as stated: a request from 23:00 on
    March 10 to 01:00 on March 11 is accepted with a day count of 1, while
    the calendar days from March 10 to March 11, both counted, are 2. *)
Lemma C8_two_calendar_days_counted_as_one :
  let start := (scenario.date "2025-03-10" + 23 * time.Hour)%Z in
  let end_ := (scenario.date "2025-03-11" + 1 * time.Hour)%Z in
  exists leave db',
    leaves.ApplyLeave scenario.now scenario.db_empty
      (scenario.as_user 1 "student" 0) (scenario.apply start end_)
    = (JSON http.StatusCreated (H_leave_submitted leave), db')
    /\ In leave (leave_requests db')
    /\ LeaveRequest.Days leave = 1%Z
    /\ calendarDaySpan start end_ = 2%Z.
Proof.
  cbv zeta. eexists. eexists.
  split; [vm_compute; reflexivity|].
  split; [left; reflexivity|].
  split; vm_compute; reflexivity.
Qed.

(** C8, as amended.  The day count stored by an accepted submission is the
    number of whole 24-hour days from start to end plus one, and is at least
    1.  It is the inclusive calendar-day span of [start, end] when the time
    of day of the end is not earlier than that of the start (so whenever
    both are midnights), and one less than that span otherwise. *)
Theorem C8_day_count_of_accepted_submission (now : time.Time) (db : DB)
    (c : Context) (input : leaves.ApplyLeaveRequest)
    (body : Body) (db' : DB) :
  leaves.ApplyLeave now db c input = (JSON http.StatusCreated body, db') ->
  let start := leaves.StartDate input in
  let end_ := leaves.EndDate input in
  let day := (24 * time.Hour)%Z in
  exists leave,
    body = H_leave_submitted leave
    /\ leave_requests db' = leave_requests db ++ [leave]
    /\ LeaveRequest.Days leave = ((end_ - start) / day + 1)%Z
    /\ (1 <= LeaveRequest.Days leave)%Z
    /\ ((start mod day <= end_ mod day)%Z ->
        LeaveRequest.Days leave = calendarDaySpan start end_)
    /\ ((end_ mod day < start mod day)%Z ->
        LeaveRequest.Days leave = (calendarDaySpan start end_ - 1)%Z).
Proof.
  intros H. cbv zeta.
  apply ApplyLeave_created_inv in H
    as (_ & Hv & studentID & student & _ & _ & -> & ->).
  apply acceptable_of_valid in Hv as (Hlt & _ & Hdur & _).
  exists (leaves.submitted now db input studentID student).
  assert (LeaveRequest.Days (leaves.submitted now db input studentID student)
          = ((leaves.EndDate input - leaves.StartDate input)
             / (24 * time.Hour) + 1)%Z) as Hdays.
  { simpl. rewrite whole_days_exact; [reflexivity | lia]. }
  destruct (elapsed_days_calendar (24 * time.Hour)
              (leaves.StartDate input) (leaves.EndDate input))
    as [Hsame Hless]; [reflexivity|].
  split; [reflexivity|]. split; [reflexivity|]. split; [exact Hdays|].
  rewrite Hdays. unfold calendarDaySpan.
  split; [|split].
  - assert (0 <= (leaves.EndDate input - leaves.StartDate input)
                 / (24 * time.Hour))%Z
      by (apply Z.div_pos; [lia | reflexivity]).
    lia.
  - intros Hcmp. rewrite (Hsame Hcmp). lia.
  - intros Hcmp. rewrite (Hless Hcmp). lia.
Qed.

Lemma C8_witness :
  exists leave,
    H_leave_submitted (scenario.leave1 "pending" None)
    = H_leave_submitted leave
    /\ LeaveRequest.Days leave = 3%Z
    /\ calendarDaySpan (scenario.date "2025-03-10")
         (scenario.date "2025-03-12") = 3%Z.
Proof.
  destruct (C8_day_count_of_accepted_submission
              scenario.now scenario.db_empty
              (scenario.as_user 1 "student" 0)
              (scenario.apply (scenario.date "2025-03-10")
                 (scenario.date "2025-03-12"))
              (H_leave_submitted (scenario.leave1 "pending" None))
              scenario.db_pending)
    as (leave & Hbody & _ & Hdays & _ & _ & _).
  - vm_compute. reflexivity.
  - exists leave. split; [exact Hbody|].
    split; [rewrite Hdays|]; vm_compute; reflexivity.
Defined.

(** ** Deciding a leave request *)

Section DecideFacts.
Variables (now : time.Time) (db : DB) (c : Context)
          (input : leaves.ApproveRejectRequest).

Lemma valid_action :
  leaves.validate_ApproveRejectRequest input = [] ->
  leaves.Action input = "approve" \/ leaves.Action input = "reject".
Proof.
  unfold leaves.validate_ApproveRejectRequest.
  rewrite app_nil, run_nil. cbn [forallb snd].
  rewrite !andb_true_iff, oneof_true. simpl.
  intros [(_ & [H|[H|[]]] & _) _]; auto.
Qed.

(** A request for a leave that is no longer pending is answered 400 and
    nothing is written; when the body passes binding and validation the
    answer is the "already been processed" error. *)
Lemma ApproveRejectLeave_processed (leave : LeaveRequest.t) :
  gorm.FirstByID LeaveRequest.ID (ctxParamID c) (leave_requests db)
    = Some leave ->
  LeaveRequest.Status leave <> "pending" ->
  code_of (leaves.ApproveRejectLeave now db c input).1
    = Some http.StatusBadRequest
  /\ (leaves.ApproveRejectLeave now db c input).2 = db
  /\ (leaves.bind_ApproveRejectRequest input = [] ->
      leaves.validate_ApproveRejectRequest input = [] ->
      (leaves.ApproveRejectLeave now db c input).1
      = JSON http.StatusBadRequest
          (H_error "Leave request has already been processed")).
Proof.
  intros Hl Hst. apply String.eqb_neq in Hst.
  unfold leaves.ApproveRejectLeave. rewrite Hl, Hst. simpl negb. cbv iota.
  destruct (leaves.bind_ApproveRejectRequest input);
    [|repeat split; discriminate].
  destruct (leaves.validate_ApproveRejectRequest input);
    [|repeat split; discriminate].
  repeat split.
Qed.

Lemma NotifyLeaveStatusChange_leaves (t : time.Time) (d : DB)
    (l : LeaveRequest.t) :
  leave_requests (notifications_pkg.NotifyLeaveStatusChange t d l)
  = leave_requests d.
Proof.
  unfold notifications_pkg.NotifyLeaveStatusChange.
  destruct (gorm.FirstByID User.ID _ (users_table d)); [|reflexivity].
  destruct (match LeaveRequest.ApprovedBy l with
            | Some a => _ | None => true end); reflexivity.
Qed.

(** An answer of 200 means that the leave was found pending and is now
    stored, under the same key, as approved or rejected with the caller
    as approver. *)
Lemma ApproveRejectLeave_ok_inv (body : Body) (db' : DB) :
  leaves.ApproveRejectLeave now db c input = (JSON http.StatusOK body, db')
  -> exists leave approverID status,
       gorm.FirstByID LeaveRequest.ID (ctxParamID c) (leave_requests db)
         = Some leave
       /\ LeaveRequest.Status leave = "pending"
       /\ ctxUserID c = Some approverID
       /\ (status = "approved" \/ status = "rejected")
       /\ body = H_leave_updated
                   (leaves.decided leave status approverID
                      (leaves.Remarks input) now)
       /\ gorm.FirstByID LeaveRequest.ID (ctxParamID c) (leave_requests db')
          = Some (leaves.decided leave status approverID
                    (leaves.Remarks input) now).
Proof.
  unfold leaves.ApproveRejectLeave.
  destruct (leaves.bind_ApproveRejectRequest input); [|discriminate].
  destruct (leaves.validate_ApproveRejectRequest input) eqn:Hv;
    [|discriminate].
  destruct (gorm.FirstByID LeaveRequest.ID _ (leave_requests db))
    as [leave|] eqn:Hl; [|discriminate].
  destruct (String.eqb (LeaveRequest.Status leave) "pending") eqn:Hst;
    simpl negb; cbv iota; [|discriminate].
  destruct (ctxUserID c) as [approverID|]; [|discriminate].
  match goal with
  | |- context [match ?r with Some _ => _ | None => _ end] =>
      destruct r as [answer|] eqn:Hr
  end.
  - intros H. injection H as H1 H2. subst answer db'.
    exfalso. revert Hr.
    destruct (String.eqb (ctxRole c) users.RoleFaculty).
    + destruct (gorm.FirstByID User.ID approverID (users_table db));
        [destruct (negb _)|]; discriminate.
    + destruct (String.eqb (ctxRole c) users.RoleWarden); [|discriminate].
      destruct (gorm.FirstByID User.ID approverID (users_table db))
        as [a|]; [|discriminate].
      destruct (User.Hostel a), (LeaveRequest.Hostel leave);
        try discriminate.
      destruct (negb _); discriminate.
  - intros H. injection H as <- <-.
    apply String.eqb_eq in Hst.
    destruct (FirstByID_key _ _ _ _ Hl) as [Hkey _].
    exists leave, approverID.
    destruct (valid_action Hv) as [Ha | Ha]; rewrite Ha; simpl;
      [exists "approved" | exists "rejected"];
      (repeat split; auto;
       rewrite NotifyLeaveStatusChange_leaves; simpl;
       eapply FirstByID_Save; [exact Hl | exact Hkey]).
Qed.
End DecideFacts.

(** C2, counterexample to the claim as stated: after Frank has approved
    Alice's leave, a second decision on it is answered 400 Bad Request with
    "Leave request has already been processed"; the answer is not the 409 of
    a Conflict. *)
Lemma C2_second_decision_is_400_not_409 :
  let frank := scenario.as_user 2 "faculty" 1 in
  let first :=
    leaves.ApproveRejectLeave scenario.now scenario.db_pending frank
      (leaves.mkDecide "approve" (Some "get well")) in
  let second :=
    leaves.ApproveRejectLeave scenario.now first.2 frank
      (leaves.mkDecide "reject" (Some "changed my mind")) in
  code_of first.1 = Some http.StatusOK
  /\ second.1 = JSON http.StatusBadRequest
                  (H_error "Leave request has already been processed")
  /\ code_of second.1 <> Some http.StatusConflict.
Proof. cbv zeta. split; [|split]; vm_compute; congruence. Qed.

(** C2, as amended.  A decision on a leave request whose status is not
    pending is answered 400 Bad Request and leaves the whole store as it
    was; when the body passes binding and validation the answer carries
    "Leave request has already been processed".  In particular, once a
    decision on a leave has been answered 200, every later decision on the
    same id, whatever its action and whoever asks, gets that answer. *)
Theorem C2_decide_on_processed_leave :
  (forall (now : time.Time) (db : DB) (c : Context)
          (input : leaves.ApproveRejectRequest) (leave : LeaveRequest.t),
      gorm.FirstByID LeaveRequest.ID (ctxParamID c) (leave_requests db)
        = Some leave ->
      LeaveRequest.Status leave <> "pending" ->
      code_of (leaves.ApproveRejectLeave now db c input).1
        = Some http.StatusBadRequest
      /\ (leaves.ApproveRejectLeave now db c input).2 = db
      /\ (leaves.bind_ApproveRejectRequest input = [] ->
          leaves.validate_ApproveRejectRequest input = [] ->
          (leaves.ApproveRejectLeave now db c input).1
          = JSON http.StatusBadRequest
              (H_error "Leave request has already been processed")))
  /\ (forall (now1 now2 : time.Time) (db db1 : DB) (c1 c2 : Context)
             (input1 input2 : leaves.ApproveRejectRequest) (body : Body),
         leaves.ApproveRejectLeave now1 db c1 input1
           = (JSON http.StatusOK body, db1) ->
         ctxParamID c2 = ctxParamID c1 ->
         code_of (leaves.ApproveRejectLeave now2 db1 c2 input2).1
           = Some http.StatusBadRequest
         /\ (leaves.ApproveRejectLeave now2 db1 c2 input2).2 = db1
         /\ (leaves.bind_ApproveRejectRequest input2 = [] ->
             leaves.validate_ApproveRejectRequest input2 = [] ->
             (leaves.ApproveRejectLeave now2 db1 c2 input2).1
             = JSON http.StatusBadRequest
                 (H_error "Leave request has already been processed"))).
Proof.
  split.
  - intros now db c input leave. apply ApproveRejectLeave_processed.
  - intros now1 now2 db db1 c1 c2 input1 input2 body Hfirst Hid.
    apply ApproveRejectLeave_ok_inv in Hfirst
      as (leave & approverID & status & _ & _ & _ & Hst & _ & Hstored).
    rewrite <- Hid in Hstored.
    apply (ApproveRejectLeave_processed now2 db1 c2 input2 _ Hstored).
    simpl. destruct Hst as [-> | ->]; discriminate.
Qed.

Lemma C2_witness :
  let frank := scenario.as_user 2 "faculty" 1 in
  let approve := leaves.mkDecide "approve" (Some "get well") in
  let again := leaves.mkDecide "reject" (Some "changed my mind") in
  let first :=
    leaves.ApproveRejectLeave scenario.now scenario.db_pending frank
      approve in
  LeaveRequest.Status (scenario.leave1 "approved" (Some 2%nat)) <> "pending"
  /\ leaves.ApproveRejectLeave scenario.now scenario.db_approved frank again
     = (JSON http.StatusBadRequest
          (H_error "Leave request has already been processed"),
        scenario.db_approved)
  /\ code_of first.1 = Some http.StatusOK
  /\ leaves.ApproveRejectLeave scenario.now first.2 frank again
     = (JSON http.StatusBadRequest
          (H_error "Leave request has already been processed"),
        first.2).
Proof.
  cbv zeta.
  assert (LeaveRequest.Status (scenario.leave1 "approved" (Some 2%nat))
          <> "pending") as Hst by (simpl; discriminate).
  split; [exact Hst|].
  destruct C2_decide_on_processed_leave as [Hprocessed Htwice].
  split; [|split; [reflexivity|]].
  - destruct (Hprocessed scenario.now scenario.db_approved
                (scenario.as_user 2 "faculty" 1)
                (leaves.mkDecide "reject" (Some "changed my mind"))
                (scenario.leave1 "approved" (Some 2%nat)))
      as (_ & Hdb & Hmsg); [reflexivity | exact Hst |].
    apply injective_projections; [apply Hmsg; reflexivity | exact Hdb].
  - destruct (leaves.ApproveRejectLeave scenario.now scenario.db_pending
                (scenario.as_user 2 "faculty" 1)
                (leaves.mkDecide "approve" (Some "get well")))
      as [out db1] eqn:Hfirst.
    assert (exists body, out = JSON http.StatusOK body) as [body ->].
    { eexists. revert Hfirst. vm_compute. intros H. injection H as <- _.
      reflexivity. }
    destruct (Htwice scenario.now scenario.now scenario.db_pending db1
                (scenario.as_user 2 "faculty" 1)
                (scenario.as_user 2 "faculty" 1)
                (leaves.mkDecide "approve" (Some "get well"))
                (leaves.mkDecide "reject" (Some "changed my mind"))
                body Hfirst eq_refl) as (_ & Hdb & Hmsg).
    apply injective_projections; [apply Hmsg; reflexivity | exact Hdb].
Defined.

(** C3 (the code departs from the claim).  The claim: a student can never
    decide a leave request.  [ApproveRejectLeave] restricts faculty and
    wardens only, and the two routes that lead to it have no role gate: the
    student Alice approves her own pending leave, the answer is 200, and the
    stored record is approved with Alice as approver. *)
Theorem C3_student_approves_own_leave :
  let alice := scenario.as_user 1 "student" 1 in
  let answer :=
    api.PUT_leaves_approve scenario.now scenario.db_pending alice
      (leaves.mkDecide "approve" (Some "approved by myself")) in
  gorm.FirstByID User.ID 1 (users_table scenario.db_pending)
    = Some scenario.alice
  /\ User.Role scenario.alice = users.RoleStudent
  /\ leave_requests scenario.db_pending = [scenario.leave1 "pending" None]
  /\ code_of answer.1 = Some http.StatusOK
  /\ exists stored,
       leave_requests answer.2 = [stored]
       /\ LeaveRequest.ID stored = 1%nat
       /\ LeaveRequest.StudentID stored = 1%nat
       /\ LeaveRequest.Status stored = "approved"
       /\ LeaveRequest.ApprovedBy stored = Some 1%nat.
Proof.
  cbv zeta. repeat split; try (vm_compute; reflexivity).
  eexists. repeat split; vm_compute; reflexivity.
Qed.

(** ** Scope of wardens and of unknown roles *)

Section ScopeFacts.
Variables (now : time.Time) (db : DB) (c : Context).

(** Viewing a leave as a warden: an unset hostel on either side is
    answered 403. *)
Lemma GetLeaveDetails_warden_unset_hostel
    (userID : nat) (warden : User.t) (leave : LeaveRequest.t) :
  ctxRole c = users.RoleWarden ->
  ctxUserID c = Some userID ->
  gorm.FirstByID User.ID userID (users_table db) = Some warden ->
  gorm.FirstByID LeaveRequest.ID (ctxParamID c) (leave_requests db)
    = Some leave ->
  User.Hostel warden = None \/ LeaveRequest.Hostel leave = None ->
  leaves.GetLeaveDetails db c
  = JSON http.StatusForbidden
      (H_error "You can only view leaves from your hostel").
Proof.
  intros Hrole Hu Hw Hl Hunset. unfold leaves.GetLeaveDetails.
  rewrite Hl, Hrole, Hu, Hw. simpl.
  destruct Hunset as [-> | ->]; [reflexivity|].
  destruct (User.Hostel warden); reflexivity.
Qed.

(** Deciding a pending leave as a warden: an unset hostel on either side
    is answered 403 and nothing is written. *)
Lemma ApproveRejectLeave_warden_unset_hostel
    (input : leaves.ApproveRejectRequest)
    (userID : nat) (warden : User.t) (leave : LeaveRequest.t) :
  leaves.bind_ApproveRejectRequest input = [] ->
  leaves.validate_ApproveRejectRequest input = [] ->
  ctxRole c = users.RoleWarden ->
  ctxUserID c = Some userID ->
  gorm.FirstByID User.ID userID (users_table db) = Some warden ->
  gorm.FirstByID LeaveRequest.ID (ctxParamID c) (leave_requests db)
    = Some leave ->
  LeaveRequest.Status leave = "pending" ->
  User.Hostel warden = None \/ LeaveRequest.Hostel leave = None ->
  leaves.ApproveRejectLeave now db c input
  = (JSON http.StatusForbidden
       (H_error "You can only approve leaves from your hostel"), db).
Proof.
  intros Hb Hv Hrole Hu Hw Hl Hst Hunset. unfold leaves.ApproveRejectLeave.
  rewrite Hb, Hv, Hl, Hst, Hu, Hrole, Hw. simpl.
  destruct Hunset as [-> | ->]; [reflexivity|].
  destruct (User.Hostel warden); reflexivity.
Qed.

(** Listing as a warden with a hostel: leaves without a hostel are not
    among the answer. *)
Lemma In_OrderDesc {A : Type} (key : A -> time.Time) (rows : list A)
    (x : A) :
  In x (gorm.OrderDesc key rows) -> In x rows.
Proof.
  unfold gorm.OrderDesc.
  assert (forall l acc, In x (fold_left
            (fun sorted r => gorm.insertDesc key r sorted) l acc) ->
          In x acc \/ In x l) as H.
  { induction l as [|r l IH]; intros acc Hin; simpl in *; [auto|].
    destruct (IH _ Hin) as [Hacc | Hl]; [|auto].
    assert (forall s, In x (gorm.insertDesc key r s) -> x = r \/ In x s)
      as Hins.
    { induction s as [|y s IHs]; simpl.
      - intros [->|[]]; auto.
      - destruct (key y <? key r)%Z; simpl.
        + intros [->|[->|Hs]]; auto.
        + intros [->|Hs]; auto. destruct (IHs Hs); auto. }
    destruct (Hins _ Hacc) as [-> | Hs]; auto. }
  intros Hin. destruct (H _ _ Hin) as [[]|]; assumption.
Qed.

Lemma ListLeaves_warden_skips_unset_hostel
    (userID : nat) (warden : User.t) (hostel : string)
    (leaves_ : list LeaveRequest.t) (page limit : string) (total : nat)
    (leave : LeaveRequest.t) :
  ctxRole c = users.RoleWarden ->
  ctxUserID c = Some userID ->
  gorm.FirstByID User.ID userID (users_table db) = Some warden ->
  User.Hostel warden = Some hostel ->
  leaves.ListLeaves db c
    = JSON http.StatusOK (H_leaves leaves_ page limit total) ->
  In leave leaves_ -> LeaveRequest.Hostel leave = Some hostel.
Proof.
  intros Hrole Hu Hw Hh. unfold leaves.ListLeaves.
  rewrite Hrole, Hu, Hw, Hh. simpl.
  intros H. injection H as <- _ _ _. intros Hin.
  apply In_OrderDesc, filter_In in Hin as [_ Hc].
  apply andb_true_iff in Hc as [Hc _].
  now apply bool_decide_eq_true in Hc.
Qed.

End ScopeFacts.

(** C4 (the code departs from the claim).  The claim: a warden whose hostel
    is unset is denied with 403 by every scoped operation, and the scope
    decision never panics.  Viewing and deciding do answer 403, but
    [ListLeaves] dereferences the warden's hostel without the nil check of
    its two siblings: for the warden Wanda, who has no hostel, it panics. *)
Theorem C4_list_panics_for_warden_without_hostel :
  let wanda := scenario.as_user 3 "warden" 1 in
  gorm.FirstByID User.ID 3 (users_table scenario.db_pending)
    = Some scenario.wanda
  /\ User.Role scenario.wanda = users.RoleWarden
  /\ User.Hostel scenario.wanda = None
  /\ leaves.ListLeaves scenario.db_pending wanda
     = Panic "invalid memory address or nil pointer dereference"
  /\ code_of (leaves.ListLeaves scenario.db_pending wanda)
     <> Some http.StatusForbidden
  /\ leaves.GetLeaveDetails scenario.db_pending wanda
     = JSON http.StatusForbidden
         (H_error "You can only view leaves from your hostel")
  /\ leaves.ApproveRejectLeave scenario.now scenario.db_pending wanda
       (leaves.mkDecide "approve" (Some "fine"))
     = (JSON http.StatusForbidden
          (H_error "You can only approve leaves from your hostel"),
        scenario.db_pending).
Proof.
  cbv zeta. repeat split; try (vm_compute; reflexivity).
  vm_compute. discriminate.
Qed.

(** ** Marking attendance *)

Section MarkFacts.
Variables (now : time.Time) (db : DB) (c : Context)
          (req : attendance.MarkAttendanceRequest).

(** [binding:"required"] on the boolean [Present] fails on [false]: a
    request that marks a student absent never gets past binding. *)
Lemma MarkAttendance_absent_never_binds :
  attendance.Present req = false ->
  exists errs,
    attendance.MarkAttendance now db c req
    = (JSON http.StatusBadRequest (H_bind_error errs), db)
    /\ In (validator.mkFieldError "Present" "required" "") errs.
Proof.
  intros Hp. unfold attendance.MarkAttendance.
  assert (In (validator.mkFieldError "Present" "required" "")
            (attendance.bind_MarkAttendanceRequest req)) as Hin.
  { unfold attendance.bind_MarkAttendanceRequest. rewrite Hp.
    apply in_or_app. right. apply in_or_app. right. simpl. auto. }
  destruct (attendance.bind_MarkAttendanceRequest req) as [|e errs];
    [destruct Hin|].
  exists (e :: errs). split; [reflexivity | exact Hin].
Qed.

Lemma bound_is_present :
  attendance.bind_MarkAttendanceRequest req = [] ->
  attendance.Present req = true.
Proof.
  unfold attendance.bind_MarkAttendanceRequest.
  rewrite !app_nil, !run_nil. cbn [forallb snd].
  unfold validator.required_bool.
  intros (_ & _ & H). now apply andb_true_iff in H as [H _].
Qed.

(** With a record of the student for the day in the store, nothing is
    written and the answer is an error; for a body that passes binding and
    validation and a known student it is "already marked". *)
Lemma MarkAttendance_marked (existing : Attendance.t) :
  In existing (attendances db) ->
  Attendance.StudentID existing = attendance.StudentID req ->
  Attendance.Date existing
    = time.Truncate (attendance.Date req) (24 * time.Hour)%Z ->
  (attendance.MarkAttendance now db c req).2 = db
  /\ (exists code,
        code_of (attendance.MarkAttendance now db c req).1 = Some code
        /\ In code [http.StatusBadRequest; http.StatusUnauthorized;
                    http.StatusNotFound])
  /\ (forall markerID student,
        attendance.bind_MarkAttendanceRequest req = [] ->
        attendance.validate_MarkAttendanceRequest req = [] ->
        ctxUserID c = Some markerID ->
        gorm.FirstByID User.ID (attendance.StudentID req) (users_table db)
          = Some student ->
        (attendance.MarkAttendance now db c req).1
        = JSON http.StatusBadRequest
            (H_error "Attendance already marked for this date")).
Proof.
  intros Hin Hs Hd.
  assert (is_Some (gorm.First Attendance.ID
            (attendance.markedOn (attendance.StudentID req)
               (time.Truncate (attendance.Date req) (24 * time.Hour)%Z))
            (attendances db))) as [found Hfound].
  { apply (First_found _ _ _ existing Hin).
    unfold attendance.markedOn. rewrite Hs, Hd, Nat.eqb_refl, Z.eqb_refl.
    reflexivity. }
  unfold attendance.MarkAttendance.
  destruct (attendance.bind_MarkAttendanceRequest req).
  2: { split; [reflexivity|]. split; [|discriminate].
       exists http.StatusBadRequest. simpl. auto. }
  destruct (attendance.validate_MarkAttendanceRequest req).
  2: { split; [reflexivity|]. split; [|discriminate].
       exists http.StatusBadRequest. simpl. auto. }
  destruct (ctxUserID c) as [markerID|].
  2: { split; [reflexivity|]. split; [|discriminate].
       exists http.StatusUnauthorized. simpl. auto. }
  destruct (gorm.FirstByID User.ID _ (users_table db)) as [student|].
  2: { split; [reflexivity|]. split; [|discriminate].
       exists http.StatusNotFound. simpl. auto. }
  rewrite Hfound. split; [reflexivity|]. split; [|reflexivity].
  exists http.StatusBadRequest. simpl. auto.
Qed.
End MarkFacts.

(** C6 (the code departs from the claim).  The claim: on a day of approved
    leave, marking the student present is refused with the details of the
    leave, and marking the student absent is accepted.  The first half
    holds.  The second does not: [Present] is a [bool] bound with
    [binding:"required"], which fails on [false], so the request is answered
    400 at binding and no record is created. *)
Theorem C6_absent_mark_on_leave_day_fails_binding :
  let frank := scenario.as_user 2 "faculty" 0 in
  let leave := scenario.leave1 "approved" (Some 2%nat) in
  leave_requests scenario.db_approved = [leave]
  /\ attendances scenario.db_approved = []
  /\ attendance.approvedOn 1
       (time.Truncate (attendance.Date (scenario.mark false))
          (24 * time.Hour)%Z) leave = true
  /\ api.POST_attendance_mark scenario.now scenario.db_approved frank
       (scenario.mark true)
     = (JSON http.StatusBadRequest
          (H_leave_conflict "Student has approved leave for this date"
             "medical" "flu and fever"
             (scenario.date "2025-03-10") (scenario.date "2025-03-12")),
        scenario.db_approved)
  /\ api.POST_attendance_mark scenario.now scenario.db_approved frank
       (scenario.mark false)
     = (JSON http.StatusBadRequest
          (H_bind_error [validator.mkFieldError "Present" "required" ""]),
        scenario.db_approved).
Proof. cbv zeta. repeat split; vm_compute; reflexivity. Qed.

(** C7, counterexample to the claim as stated: with Alice marked for March
    11, a second mark for that day is answered 400 Bad Request, not the 409
    of a Conflict; and when the second mark says absent, the error is the
    binding failure of [Present], not "already marked". *)
Lemma C7_second_mark_is_400_not_409 :
  let frank := scenario.as_user 2 "faculty" 0 in
  (attendance.MarkAttendance scenario.now scenario.db_marked frank
     (scenario.mark true)).1
  = JSON http.StatusBadRequest
      (H_error "Attendance already marked for this date")
  /\ http.StatusBadRequest <> http.StatusConflict
  /\ (attendance.MarkAttendance scenario.now scenario.db_marked frank
        (scenario.mark false)).1
     = JSON http.StatusBadRequest
         (H_bind_error [validator.mkFieldError "Present" "required" ""]).
Proof. cbv zeta. split; [|split]; vm_compute; congruence. Qed.

(** C7, as amended.  When an attendance record exists for a student and a
    day, every further mark for that student and day, whatever its present
    value, creates no record and is answered with an error (400, or 401 or
    404 when the marker or the student is unknown); a mark that passes
    binding and validation, for a known student, is answered 400 Bad Request
    with "Attendance already marked for this date". *)
Theorem C7_second_mark_creates_nothing (now : time.Time) (db : DB)
    (c : Context) (req : attendance.MarkAttendanceRequest)
    (existing : Attendance.t) :
  In existing (attendances db) ->
  Attendance.StudentID existing = attendance.StudentID req ->
  Attendance.Date existing
    = time.Truncate (attendance.Date req) (24 * time.Hour)%Z ->
  (attendance.MarkAttendance now db c req).2 = db
  /\ (exists code,
        code_of (attendance.MarkAttendance now db c req).1 = Some code
        /\ In code [http.StatusBadRequest; http.StatusUnauthorized;
                    http.StatusNotFound])
  /\ (forall markerID student,
        attendance.bind_MarkAttendanceRequest req = [] ->
        attendance.validate_MarkAttendanceRequest req = [] ->
        ctxUserID c = Some markerID ->
        gorm.FirstByID User.ID (attendance.StudentID req) (users_table db)
          = Some student ->
        (attendance.MarkAttendance now db c req).1
        = JSON http.StatusBadRequest
            (H_error "Attendance already marked for this date")).
Proof. apply MarkAttendance_marked. Qed.

Lemma C7_witness :
  In scenario.marked (attendances scenario.db_marked)
  /\ (attendance.MarkAttendance scenario.now scenario.db_marked
        (scenario.as_user 2 "faculty" 0) (scenario.mark true)).2
     = scenario.db_marked
  /\ (attendance.MarkAttendance scenario.now scenario.db_marked
        (scenario.as_user 2 "faculty" 0) (scenario.mark true)).1
     = JSON http.StatusBadRequest
         (H_error "Attendance already marked for this date").
Proof.
  assert (In scenario.marked (attendances scenario.db_marked)) as Hin
    by (left; reflexivity).
  split; [exact Hin|].
  destruct (C7_second_mark_creates_nothing scenario.now scenario.db_marked
              (scenario.as_user 2 "faculty" 0) (scenario.mark true)
              scenario.marked Hin) as (Hdb & _ & Hmsg).
  - reflexivity.
  - vm_compute. reflexivity.
  - split; [exact Hdb|].
    apply (Hmsg 2%nat scenario.alice); vm_compute; reflexivity.
Defined.

(** ** Whose attendance is shown *)

Lemma Query_with_student_id (v key : string) (c : Context) :
  key <> "student_id" ->
  Query (with_student_id v c) key = Query c key.
Proof.
  intros Hne. unfold Query, with_student_id. simpl.
  rewrite lookup_insert_ne; [reflexivity | congruence].
Qed.

Lemma whichStudent_other_role (c : Context) :
  ctxRole c <> users.RoleStudent ->
  Query c "student_id" <> "" ->
  attendance.whichStudent c = inr 1%nat.
Proof.
  intros Hrole Hq. unfold attendance.whichStudent.
  apply String.eqb_neq in Hrole, Hq. now rewrite Hrole, Hq.
Qed.

(** * Further properties of the handlers *)

(** ** More on the store *)

Lemma In_insertDesc {A : Type} (key : A -> time.Time)
    (r x : A) (sorted : list A) :
  In x (gorm.insertDesc key r sorted) <-> x = r \/ In x sorted.
Proof.
  induction sorted as [|s rest IH]; simpl.
  - intuition.
  - destruct (key s <? key r)%Z; simpl; [intuition|].
    rewrite IH. intuition.
Qed.

Lemma In_OrderDesc_iff {A : Type} (key : A -> time.Time)
    (rows : list A) (x : A) :
  In x (gorm.OrderDesc key rows) <-> In x rows.
Proof.
  unfold gorm.OrderDesc.
  assert (forall l acc,
             In x (fold_left (fun sorted r => gorm.insertDesc key r sorted)
                     l acc)
             <-> In x acc \/ In x l) as H.
  { induction l as [|r l IH]; intros acc; simpl; [intuition|].
    rewrite IH, In_insertDesc. intuition. }
  rewrite H. simpl. intuition.
Qed.

Lemma length_insertDesc {A : Type} (key : A -> time.Time)
    (r : A) (sorted : list A) :
  length (gorm.insertDesc key r sorted) = S (length sorted).
Proof.
  induction sorted as [|s rest IH]; simpl; [reflexivity|].
  destruct (key s <? key r)%Z; simpl; [reflexivity|]. now rewrite IH.
Qed.

Lemma length_OrderDesc {A : Type} (key : A -> time.Time) (rows : list A) :
  length (gorm.OrderDesc key rows) = length rows.
Proof.
  unfold gorm.OrderDesc.
  assert (forall l acc,
             length (fold_left
                       (fun sorted r => gorm.insertDesc key r sorted) l acc)
             = (length acc + length l)%nat) as H.
  { induction l as [|r l IH]; intros acc; simpl; [lia|].
    rewrite IH, length_insertDesc. lia. }
  now rewrite H.
Qed.

Lemma descending_insertDesc {A : Type} (key : A -> time.Time) (r : A)
    (sorted : list A) :
  descending key sorted -> descending key (gorm.insertDesc key r sorted).
Proof.
  unfold descending. induction sorted as [|s rest IH]; intros Hs; simpl.
  - repeat constructor.
  - apply StronglySorted_inv in Hs as [Hrest Hall].
    destruct (Z.ltb_spec (key s) (key r)).
    + constructor; [constructor; assumption|].
      constructor; [lia|].
      eapply Forall_impl; [exact Hall|]. simpl. intros a Ha. lia.
    + constructor; [apply IH; exact Hrest|].
      apply List.Forall_forall. intros x Hx.
      apply In_insertDesc in Hx as [-> | Hx]; [lia|].
      rewrite List.Forall_forall in Hall. now apply Hall.
Qed.

Lemma descending_OrderDesc {A : Type} (key : A -> time.Time) (rows : list A) :
  descending key (gorm.OrderDesc key rows).
Proof.
  unfold gorm.OrderDesc.
  assert (forall l acc,
             descending key acc ->
             descending key
               (fold_left (fun sorted r => gorm.insertDesc key r sorted)
                  l acc)) as H.
  { induction l as [|r l IH]; intros acc Hacc; simpl; [exact Hacc|].
    apply IH, descending_insertDesc, Hacc. }
  apply H. constructor.
Qed.

Section MoreStoreFacts.
Context {A : Type} (id : A -> nat).

Lemma Find_Save_other (key : nat) (row : A) (rows : list A) :
  id row <> key ->
  gorm.Find (fun r => Nat.eqb (id r) key) (gorm.Save id row rows)
  = gorm.Find (fun r => Nat.eqb (id r) key) rows.
Proof.
  intros Hne. unfold gorm.Find, gorm.Save.
  induction rows as [|x rows IH]; simpl; [reflexivity|].
  destruct (Nat.eqb_spec (id x) (id row)) as [E|E].
  - destruct (Nat.eqb_spec (id row) key); [contradiction|].
    destruct (Nat.eqb_spec (id x) key); [congruence | exact IH].
  - destruct (Nat.eqb (id x) key); [f_equal|]; exact IH.
Qed.

(** Saving a row leaves the rows under every other key as they were. *)
Lemma FirstByID_Save_other (key : nat) (row : A) (rows : list A) :
  id row <> key ->
  gorm.FirstByID id key (gorm.Save id row rows)
  = gorm.FirstByID id key rows.
Proof.
  intros Hne. unfold gorm.FirstByID, gorm.First.
  now rewrite Find_Save_other.
Qed.

Lemma keys_Save (row : A) (rows : list A) :
  map id (gorm.Save id row rows) = map id rows.
Proof.
  unfold gorm.Save. induction rows as [|x rows IH]; simpl; [reflexivity|].
  rewrite IH. destruct (Nat.eqb_spec (id x) (id row)); congruence.
Qed.

Lemma nextID_above (rows : list A) (r : A) :
  In r rows -> (id r < gorm.nextID id rows)%nat.
Proof.
  unfold gorm.nextID. induction rows as [|x rows IH]; simpl; [tauto|].
  intros [-> | Hin]; [lia|]. specialize (IH Hin). lia.
Qed.

(** The key given to a new row is the key of no row of the table. *)
Lemma nextID_fresh (rows : list A) :
  ~ In (gorm.nextID id rows) (map id rows).
Proof.
  intros Hin. apply in_map_iff in Hin as (r & Heq & Hr).
  apply nextID_above in Hr. lia.
Qed.

Lemma uniqueKeys_append (rows : list A) (row : A) :
  uniqueKeys id rows -> id row = gorm.nextID id rows ->
  uniqueKeys id (rows ++ [row]).
Proof.
  unfold uniqueKeys. intros Hnd Hid. rewrite map_app. simpl.
  apply NoDup_app. split; [exact Hnd|]. split.
  - intros x Hx Hin. apply list_elem_of_In in Hx, Hin.
    destruct Hin as [<-|[]]. rewrite Hid in Hx.
    now apply nextID_fresh in Hx.
  - apply NoDup_singleton.
Qed.

Lemma Find_key_absent (key : nat) (rows : list A) :
  ~ In key (map id rows) ->
  gorm.Find (fun r => Nat.eqb (id r) key) rows = [].
Proof.
  unfold gorm.Find. induction rows as [|x rows IH]; simpl; [reflexivity|].
  intros Hnot. destruct (Nat.eqb_spec (id x) key) as [E|E]; [tauto|].
  apply IH. tauto.
Qed.

(** Under unique keys, a row of the table is the one found under its
    key. *)
Lemma FirstByID_unique (rows : list A) (r : A) :
  uniqueKeys id rows -> In r rows ->
  gorm.FirstByID id (id r) rows = Some r.
Proof.
  unfold uniqueKeys, gorm.FirstByID, gorm.First.
  induction rows as [|x rows IH]; simpl; [tauto|].
  intros Hnd Hin. apply NoDup_cons in Hnd as [Hx Hnd].
  destruct Hin as [-> | Hin].
  - unfold gorm.Find. simpl. rewrite Nat.eqb_refl.
    fold (gorm.Find (fun r0 => Nat.eqb (id r0) (id r)) rows).
    rewrite Find_key_absent; [reflexivity|].
    intros H. apply Hx. now apply list_elem_of_In.
  - unfold gorm.Find. simpl.
    destruct (Nat.eqb_spec (id x) (id r)) as [E|E].
    + exfalso. apply Hx. rewrite E. apply list_elem_of_In.
      now apply in_map.
    + now apply IH.
Qed.
End MoreStoreFacts.

(** ** More on submitting a leave request *)

(** X1.  A request passes validation, the student is known, and one of the
    student's pending or approved leaves holds the start or the end of the
    requested range (its own bounds included, so ranges that only touch
    count): [ApplyLeave] answers 400 "You already have a leave request for
    this period" and writes nothing. *)
Theorem X1_submit_refused_when_an_end_falls_in_a_leave
    (now : time.Time) (db : DB) (c : Context)
    (input : leaves.ApplyLeaveRequest) (studentID : nat) (student : User.t)
    (l : LeaveRequest.t) :
  leaves.bind_ApplyLeaveRequest input = [] ->
  leaves.validate_ApplyLeaveRequest now input = [] ->
  ctxUserID c = Some studentID ->
  gorm.FirstByID User.ID studentID (users_table db) = Some student ->
  In l (leave_requests db) ->
  LeaveRequest.StudentID l = studentID ->
  LeaveRequest.Status l = "pending" \/ LeaveRequest.Status l = "approved" ->
  (LeaveRequest.StartDate l <= leaves.StartDate input
     <= LeaveRequest.EndDate l
   \/ LeaveRequest.StartDate l <= leaves.EndDate input
     <= LeaveRequest.EndDate l)%Z ->
  leaves.ApplyLeave now db c input
  = (JSON http.StatusBadRequest
       (H_error "You already have a leave request for this period"), db).
Proof.
  intros Hb Hv Hu Hs Hin Hsid Hst Hov. unfold leaves.ApplyLeave.
  rewrite Hb, Hv, Hu, Hs.
  assert (In l (gorm.Find
            (leaves.samePeriod studentID (leaves.StartDate input)
               (leaves.EndDate input)) (leave_requests db))) as Hfound.
  { apply filter_In. split; [exact Hin|].
    unfold leaves.samePeriod. rewrite Hsid, Nat.eqb_refl. simpl.
    apply andb_true_iff. split.
    - destruct Hst as [-> | ->]; reflexivity.
    - apply orb_true_iff.
      destruct Hov as [H|H]; [left|right];
        apply andb_true_iff; split;
        first [apply Z.leb_le | apply Z.geb_le]; lia. }
  destruct (gorm.Find _ (leave_requests db)); [destruct Hfound|].
  reflexivity.
Qed.

Lemma X1_witness :
  leaves.ApplyLeave scenario.now scenario.db_pending
    (scenario.as_user 1 "student" 0)
    (scenario.apply (scenario.date "2025-03-12") (scenario.date "2025-03-14"))
  = (JSON http.StatusBadRequest
       (H_error "You already have a leave request for this period"),
     scenario.db_pending).
Proof.
  apply (X1_submit_refused_when_an_end_falls_in_a_leave
           scenario.now scenario.db_pending (scenario.as_user 1 "student" 0)
           (scenario.apply (scenario.date "2025-03-12")
              (scenario.date "2025-03-14"))
           1%nat scenario.alice (scenario.leave1 "pending" None)).
  - vm_compute. reflexivity.
  - vm_compute. reflexivity.
  - reflexivity.
  - reflexivity.
  - left. reflexivity.
  - reflexivity.
  - left. reflexivity.
  - left. vm_compute. split; discriminate.
Defined.

(** X2.  The record behind an answer of 201: it belongs to the caller, is
    pending with no approver and no remarks, carries the type, reason and
    dates of the request and the department and hostel that the student's
    profile has at that moment, and gets a key that no stored leave has.
    It is added after the leaves already stored; the other tables are not
    touched. *)
Theorem X2_submitted_record (now : time.Time) (db : DB) (c : Context)
    (input : leaves.ApplyLeaveRequest) (body : Body) (db' : DB) :
  leaves.ApplyLeave now db c input = (JSON http.StatusCreated body, db') ->
  exists leave studentID student,
    body = H_leave_submitted leave
    /\ ctxUserID c = Some studentID
    /\ gorm.FirstByID User.ID studentID (users_table db) = Some student
    /\ LeaveRequest.StudentID leave = studentID
    /\ LeaveRequest.Status leave = "pending"
    /\ LeaveRequest.ApprovedBy leave = None
    /\ LeaveRequest.Remarks leave = None
    /\ LeaveRequest.LeaveType leave = leaves.LeaveType input
    /\ LeaveRequest.Reason leave = leaves.Reason input
    /\ LeaveRequest.StartDate leave = leaves.StartDate input
    /\ LeaveRequest.EndDate leave = leaves.EndDate input
    /\ LeaveRequest.Dept leave = User.Dept student
    /\ LeaveRequest.Hostel leave = User.Hostel student
    /\ ~ In (LeaveRequest.ID leave)
         (map LeaveRequest.ID (leave_requests db))
    /\ leave_requests db' = leave_requests db ++ [leave]
    /\ users_table db' = users_table db
    /\ attendances db' = attendances db
    /\ notifications db' = notifications db.
Proof.
  intros H.
  apply ApplyLeave_created_inv in H
    as (_ & _ & studentID & student & Hu & Hs & -> & ->).
  exists (leaves.submitted now db input studentID student),
    studentID, student.
  repeat (split; [reflexivity || assumption|]).
  split; [apply nextID_fresh|].
  repeat split.
Qed.

Lemma X2_witness :
  exists leave,
    LeaveRequest.Dept leave = "CS"
    /\ LeaveRequest.Hostel leave = Some "North"
    /\ LeaveRequest.ID leave = 2%nat
    /\ H_leave_submitted leave
       = H_leave_submitted
           (leaves.submitted scenario.now scenario.db_approved
              (scenario.apply (scenario.date "2025-03-20")
                 (scenario.date "2025-03-21")) 1 scenario.alice).
Proof.
  destruct (X2_submitted_record scenario.now scenario.db_approved
              (scenario.as_user 1 "student" 0)
              (scenario.apply (scenario.date "2025-03-20")
                 (scenario.date "2025-03-21"))
              (H_leave_submitted
                 (leaves.submitted scenario.now scenario.db_approved
                    (scenario.apply (scenario.date "2025-03-20")
                       (scenario.date "2025-03-21")) 1 scenario.alice))
              (leaves.set_leave_requests scenario.db_approved
                 (leave_requests scenario.db_approved
                  ++ [leaves.submitted scenario.now scenario.db_approved
                        (scenario.apply (scenario.date "2025-03-20")
                           (scenario.date "2025-03-21")) 1 scenario.alice])))
    as (leave & sid & student & Hbody & Hu & Hs & _ & _ & _ & _ & _ & _ & _
        & _ & Hd & Hh & _).
  - vm_compute. reflexivity.
  - exists leave. injection Hbody as <-.
    repeat split; vm_compute; reflexivity.
Defined.

(** X3.  Whatever the request, [ApplyLeave] answers 201, 400, 401 or 500
    and never panics; unless it answers 201 the store is left as it was. *)
Theorem X3_submit_writes_only_on_201 (now : time.Time) (db : DB)
    (c : Context) (input : leaves.ApplyLeaveRequest) :
  (exists code,
      code_of (leaves.ApplyLeave now db c input).1 = Some code
      /\ In code [http.StatusCreated; http.StatusBadRequest;
                  http.StatusUnauthorized; http.StatusInternalServerError])
  /\ (code_of (leaves.ApplyLeave now db c input).1
        <> Some http.StatusCreated ->
      (leaves.ApplyLeave now db c input).2 = db).
Proof.
  unfold leaves.ApplyLeave.
  destruct (leaves.bind_ApplyLeaveRequest input).
  2: { split; [exists http.StatusBadRequest; simpl; auto | reflexivity]. }
  destruct (leaves.validate_ApplyLeaveRequest now input).
  2: { split; [exists http.StatusBadRequest; simpl; auto | reflexivity]. }
  destruct (ctxUserID c) as [studentID|].
  2: { split; [exists http.StatusUnauthorized; simpl; auto | reflexivity]. }
  destruct (gorm.FirstByID User.ID studentID (users_table db)).
  2: { split; [exists http.StatusInternalServerError; simpl; auto 6
              | reflexivity]. }
  destruct (0 <? length _)%nat.
  - split; [exists http.StatusBadRequest; simpl; auto | reflexivity].
  - split; [exists http.StatusCreated; simpl; auto|].
    simpl. intros H. now contradiction H.
Qed.

(** ** Listing leave requests *)

Lemma Query_with_query (key v key' : string) (c : Context) :
  key <> key' -> Query (with_query key v c) key' = Query c key'.
Proof.
  intros Hne. unfold Query, with_query. simpl.
  now rewrite lookup_insert_ne.
Qed.

Lemma DefaultQuery_with_query (key v dflt : string) (c : Context) :
  DefaultQuery (with_query key v c) key dflt = v.
Proof.
  unfold DefaultQuery, with_query. simpl. now rewrite lookup_insert_eq.
Qed.

Lemma DefaultQuery_with_query_other (key v key' dflt : string)
    (c : Context) :
  key <> key' ->
  DefaultQuery (with_query key v c) key' dflt = DefaultQuery c key' dflt.
Proof.
  intros Hne. unfold DefaultQuery, with_query. simpl.
  now rewrite lookup_insert_ne.
Qed.

(** What the filters of [ListLeaves] let through. *)
Lemma listFilter_true (status leaveType dflt : string) (l : LeaveRequest.t) :
  leaves.listFilter status leaveType dflt l = true
  <-> (if String.eqb status "" then
         dflt = "" \/ LeaveRequest.Status l = dflt
       else LeaveRequest.Status l = status)
      /\ (leaveType = "" \/ LeaveRequest.LeaveType l = leaveType).
Proof.
  unfold leaves.listFilter. rewrite andb_true_iff.
  destruct (String.eqb_spec status ""), (String.eqb_spec dflt ""),
    (String.eqb_spec leaveType ""); simpl;
    rewrite ?String.eqb_eq; intuition congruence.
Qed.

Lemma listed_iff (cond : LeaveRequest.t -> bool) (rows : list LeaveRequest.t)
    (l : LeaveRequest.t) :
  In l (gorm.OrderDesc LeaveRequest.CreatedAt (gorm.Find cond rows))
  <-> In l rows /\ cond l = true.
Proof. rewrite In_OrderDesc_iff. exact (filter_In cond l rows). Qed.

(** X4.  A faculty member is listed exactly the stored leaves whose
    department is the faculty member's own and that pass the filters; when
    no status is asked for, only pending leaves are listed. *)
Theorem X4_faculty_lists_own_department (db : DB) (c : Context)
    (userID : nat) (approver : User.t) :
  ctxRole c = users.RoleFaculty ->
  ctxUserID c = Some userID ->
  gorm.FirstByID User.ID userID (users_table db) = Some approver ->
  exists listed,
    leaves.ListLeaves db c
    = JSON http.StatusOK
        (H_leaves listed (DefaultQuery c "page" "1")
           (DefaultQuery c "limit" "10") (length listed))
    /\ forall l,
         In l listed
         <-> In l (leave_requests db)
             /\ LeaveRequest.Dept l = User.Dept approver
             /\ LeaveRequest.Status l
                = (if String.eqb (Query c "status") "" then "pending"
                   else Query c "status")
             /\ (Query c "leave_type" = ""
                 \/ LeaveRequest.LeaveType l = Query c "leave_type").
Proof.
  intros Hrole Hu Ha. unfold leaves.ListLeaves.
  rewrite Hrole, Hu, Ha. simpl. eexists. split; [reflexivity|].
  intros l. rewrite listed_iff, andb_true_iff, String.eqb_eq,
    listFilter_true.
  destruct (String.eqb (Query c "status") ""); intuition discriminate.
Qed.

Lemma X4_witness :
  exists listed,
    leaves.ListLeaves scenario.db_pending (scenario.as_user 2 "faculty" 0)
    = JSON http.StatusOK (H_leaves listed "1" "10" (length listed))
    /\ In (scenario.leave1 "pending" None) listed.
Proof.
  destruct (X4_faculty_lists_own_department scenario.db_pending
              (scenario.as_user 2 "faculty" 0) 2%nat scenario.frank)
    as (listed & Hanswer & Hin); try reflexivity.
  exists listed. split; [exact Hanswer|].
  apply Hin. repeat split; try reflexivity.
  - left. reflexivity.
  - left. reflexivity.
Defined.

(** X5.  A warden with a hostel is listed exactly the stored leaves whose
    hostel is set and equal to the warden's and that pass the filters; when
    no status is asked for, only pending leaves are listed. *)
Theorem X5_warden_lists_own_hostel (db : DB) (c : Context)
    (userID : nat) (approver : User.t) (hostel : string) :
  ctxRole c = users.RoleWarden ->
  ctxUserID c = Some userID ->
  gorm.FirstByID User.ID userID (users_table db) = Some approver ->
  User.Hostel approver = Some hostel ->
  exists listed,
    leaves.ListLeaves db c
    = JSON http.StatusOK
        (H_leaves listed (DefaultQuery c "page" "1")
           (DefaultQuery c "limit" "10") (length listed))
    /\ forall l,
         In l listed
         <-> In l (leave_requests db)
             /\ LeaveRequest.Hostel l = Some hostel
             /\ LeaveRequest.Status l
                = (if String.eqb (Query c "status") "" then "pending"
                   else Query c "status")
             /\ (Query c "leave_type" = ""
                 \/ LeaveRequest.LeaveType l = Query c "leave_type").
Proof.
  intros Hrole Hu Ha Hh. unfold leaves.ListLeaves.
  rewrite Hrole, Hu, Ha, Hh. simpl. eexists. split; [reflexivity|].
  intros l. rewrite listed_iff, andb_true_iff, bool_decide_eq_true,
    listFilter_true.
  destruct (String.eqb (Query c "status") ""); intuition discriminate.
Qed.

(** X6.  A student is listed exactly the student's own stored leaves that
    pass the filters; without a status filter the leaves of every status
    are listed. *)
Theorem X6_student_lists_own_leaves (db : DB) (c : Context) (userID : nat) :
  ctxRole c = users.RoleStudent ->
  ctxUserID c = Some userID ->
  exists listed,
    leaves.ListLeaves db c
    = JSON http.StatusOK
        (H_leaves listed (DefaultQuery c "page" "1")
           (DefaultQuery c "limit" "10") (length listed))
    /\ forall l,
         In l listed
         <-> In l (leave_requests db)
             /\ LeaveRequest.StudentID l = userID
             /\ (Query c "status" = ""
                 \/ LeaveRequest.Status l = Query c "status")
             /\ (Query c "leave_type" = ""
                 \/ LeaveRequest.LeaveType l = Query c "leave_type").
Proof.
  intros Hrole Hu. unfold leaves.ListLeaves.
  rewrite Hrole, Hu. simpl. eexists. split; [reflexivity|].
  intros l. rewrite listed_iff, andb_true_iff, Nat.eqb_eq, listFilter_true.
  destruct (String.eqb_spec (Query c "status") ""); intuition congruence.
Qed.

(** X7.  An administrator is listed every stored leave that passes the
    filters, of every student, department, hostel and, without a status
    filter, status. *)
Theorem X7_admin_lists_all_leaves (db : DB) (c : Context) :
  ctxRole c = users.RoleAdmin ->
  exists listed,
    leaves.ListLeaves db c
    = JSON http.StatusOK
        (H_leaves listed (DefaultQuery c "page" "1")
           (DefaultQuery c "limit" "10") (length listed))
    /\ forall l,
         In l listed
         <-> In l (leave_requests db)
             /\ (Query c "status" = ""
                 \/ LeaveRequest.Status l = Query c "status")
             /\ (Query c "leave_type" = ""
                 \/ LeaveRequest.LeaveType l = Query c "leave_type").
Proof.
  intros Hrole. unfold leaves.ListLeaves.
  rewrite Hrole. simpl. eexists. split; [reflexivity|].
  intros l. rewrite listed_iff, listFilter_true.
  destruct (String.eqb_spec (Query c "status") ""); intuition congruence.
Qed.

Lemma X5_witness :
  exists listed,
    leaves.ListLeaves scenario.db_staff_pending
      (scenario.as_user 4 "warden" 0)
    = JSON http.StatusOK (H_leaves listed "1" "10" (length listed))
    /\ In (scenario.leave1 "pending" None) listed.
Proof.
  destruct (X5_warden_lists_own_hostel scenario.db_staff_pending
              (scenario.as_user 4 "warden" 0) 4%nat scenario.hana "North")
    as (listed & Hanswer & Hin); try reflexivity.
  exists listed. split; [exact Hanswer|].
  apply Hin. repeat split; try reflexivity.
  - left. reflexivity.
  - left. reflexivity.
Defined.

Lemma X6_witness :
  exists listed,
    leaves.ListLeaves scenario.db_approved (scenario.as_user 1 "student" 0)
    = JSON http.StatusOK (H_leaves listed "1" "10" (length listed))
    /\ In (scenario.leave1 "approved" (Some 2%nat)) listed.
Proof.
  destruct (X6_student_lists_own_leaves scenario.db_approved
              (scenario.as_user 1 "student" 0) 1%nat)
    as (listed & Hanswer & Hin); try reflexivity.
  exists listed. split; [exact Hanswer|].
  apply Hin. repeat split; try reflexivity.
  - left. reflexivity.
  - left. reflexivity.
  - left. reflexivity.
Defined.

Lemma X7_witness :
  exists listed,
    leaves.ListLeaves scenario.db_approved (scenario.as_user 6 "admin" 0)
    = JSON http.StatusOK (H_leaves listed "1" "10" (length listed))
    /\ In (scenario.leave1 "approved" (Some 2%nat)) listed.
Proof.
  destruct (X7_admin_lists_all_leaves scenario.db_approved
              (scenario.as_user 6 "admin" 0))
    as (listed & Hanswer & Hin); try reflexivity.
  exists listed. split; [exact Hanswer|].
  apply Hin. repeat split; try reflexivity.
  - left. reflexivity.
  - left. reflexivity.
  - left. reflexivity.
Defined.

(** The answer of [ListLeaves] when the [page] and [limit] parameters are
    set: the same answer with the two values echoed. *)
Lemma ListLeaves_page_limit (db : DB) (c : Context) (p q : string) :
  leaves.ListLeaves db (with_query "page" p (with_query "limit" q c))
  = match leaves.ListLeaves db c with
    | JSON code (H_leaves listed _ _ total) =>
        JSON code (H_leaves listed p q total)
    | other => other
    end.
Proof.
  unfold leaves.ListLeaves.
  rewrite !DefaultQuery_with_query.
  rewrite (DefaultQuery_with_query_other "page" p "limit") by discriminate.
  rewrite !DefaultQuery_with_query.
  rewrite !(Query_with_query "page") by discriminate.
  rewrite !(Query_with_query "limit") by discriminate.
  change (ctxRole (with_query "page" p (with_query "limit" q c)))
    with (ctxRole c).
  change (ctxUserID (with_query "page" p (with_query "limit" q c)))
    with (ctxUserID c).
  destruct (String.eqb (ctxRole c) users.RoleStudent).
  { destruct (ctxUserID c); reflexivity. }
  destruct (String.eqb (ctxRole c) users.RoleWarden
            || String.eqb (ctxRole c) users.RoleFaculty
            || String.eqb (ctxRole c) users.RoleAdmin); [|reflexivity].
  destruct (String.eqb (ctxRole c) users.RoleWarden).
  { destruct (ctxUserID c) as [u|]; [|reflexivity].
    destruct (gorm.FirstByID User.ID u (users_table db)) as [a|];
      [|reflexivity].
    destruct (User.Hostel a); reflexivity. }
  destruct (String.eqb (ctxRole c) users.RoleFaculty); [|reflexivity].
  destruct (ctxUserID c) as [u|]; [|reflexivity].
  destruct (gorm.FirstByID User.ID u (users_table db)); reflexivity.
Qed.

(** X8.  The leaves of an answer of [ListLeaves] come newest first (in
    descending order of creation time) and [total] is their number.  The
    [page] and [limit] parameters are echoed in the answer but never
    applied: whatever their values, the same leaves are listed. *)
Theorem X8_list_is_newest_first_and_unpaged (db : DB) (c : Context)
    (listed : list LeaveRequest.t) (page limit : string) (total : nat) :
  leaves.ListLeaves db c
    = JSON http.StatusOK (H_leaves listed page limit total) ->
  descending LeaveRequest.CreatedAt listed
  /\ total = length listed
  /\ forall p q : string,
       leaves.ListLeaves db (with_query "page" p (with_query "limit" q c))
       = JSON http.StatusOK (H_leaves listed p q total).
Proof.
  intros H.
  assert (descending LeaveRequest.CreatedAt listed /\ total = length listed)
    as [Hsorted Htotal].
  { revert H. unfold leaves.ListLeaves.
    repeat match goal with
           | |- context [if ?b then _ else _] => destruct b
           | |- context [match ?o with Some _ => _ | None => _ end] =>
               destruct o
           end;
      try discriminate;
      intros H; injection H as <- _ _ <-;
      (split; [apply descending_OrderDesc | reflexivity]). }
  split; [exact Hsorted|]. split; [exact Htotal|].
  intros p q. rewrite ListLeaves_page_limit, H. reflexivity.
Qed.

Lemma X8_witness :
  leaves.ListLeaves scenario.db_pending
    (with_query "page" "3"
       (with_query "limit" "0" (scenario.as_user 2 "faculty" 0)))
  = JSON http.StatusOK
      (H_leaves [scenario.leave1 "pending" None] "3" "0" 1).
Proof.
  refine (proj2 (proj2
            (X8_list_is_newest_first_and_unpaged scenario.db_pending
               (scenario.as_user 2 "faculty" 0)
               [scenario.leave1 "pending" None] "1" "10" 1%nat _)) "3" "0").
  vm_compute. reflexivity.
Defined.

(** ** Viewing one leave request *)

(** X9.  A student who asks for a stored leave is shown it when it is the
    student's own, and is answered 403 otherwise. *)
Theorem X9_student_views_only_own_leave (db : DB) (c : Context)
    (userID : nat) (leave : LeaveRequest.t) :
  ctxRole c = users.RoleStudent ->
  ctxUserID c = Some userID ->
  gorm.FirstByID LeaveRequest.ID (ctxParamID c) (leave_requests db)
    = Some leave ->
  (LeaveRequest.StudentID leave = userID ->
   leaves.GetLeaveDetails db c = JSON http.StatusOK (H_leave leave))
  /\ (LeaveRequest.StudentID leave <> userID ->
      leaves.GetLeaveDetails db c
      = JSON http.StatusForbidden
          (H_error "You can only view your own leave requests")).
Proof.
  intros Hrole Hu Hl. unfold leaves.GetLeaveDetails.
  rewrite Hl, Hrole, Hu. simpl.
  split; intros H.
  - apply Nat.eqb_eq in H. now rewrite H.
  - apply Nat.eqb_neq in H. now rewrite H.
Qed.

Lemma X9_witness :
  leaves.GetLeaveDetails scenario.db_pending (scenario.as_user 1 "student" 1)
  = JSON http.StatusOK (H_leave (scenario.leave1 "pending" None))
  /\ leaves.GetLeaveDetails scenario.db_pending
       (scenario.as_user 7 "student" 1)
     = JSON http.StatusForbidden
         (H_error "You can only view your own leave requests").
Proof.
  split.
  - apply (X9_student_views_only_own_leave scenario.db_pending
             (scenario.as_user 1 "student" 1) 1%nat
             (scenario.leave1 "pending" None)); reflexivity.
  - apply (X9_student_views_only_own_leave scenario.db_pending
             (scenario.as_user 7 "student" 1) 7%nat
             (scenario.leave1 "pending" None)); try reflexivity.
    simpl. discriminate.
Defined.

(** X10.  A faculty member who asks for a stored leave is shown it when
    its department is the faculty member's own, whoever the student and
    whatever the status, and is answered 403 otherwise. *)
Theorem X10_faculty_views_own_department (db : DB) (c : Context)
    (userID : nat) (approver : User.t) (leave : LeaveRequest.t) :
  ctxRole c = users.RoleFaculty ->
  ctxUserID c = Some userID ->
  gorm.FirstByID User.ID userID (users_table db) = Some approver ->
  gorm.FirstByID LeaveRequest.ID (ctxParamID c) (leave_requests db)
    = Some leave ->
  (User.Dept approver = LeaveRequest.Dept leave ->
   leaves.GetLeaveDetails db c = JSON http.StatusOK (H_leave leave))
  /\ (User.Dept approver <> LeaveRequest.Dept leave ->
      leaves.GetLeaveDetails db c
      = JSON http.StatusForbidden
          (H_error "You can only view leaves from your department")).
Proof.
  intros Hrole Hu Ha Hl. unfold leaves.GetLeaveDetails.
  rewrite Hl, Hrole, Hu, Ha. simpl.
  split; intros H.
  - apply String.eqb_eq in H. now rewrite H.
  - apply String.eqb_neq in H. now rewrite H.
Qed.

Lemma X10_witness :
  leaves.GetLeaveDetails scenario.db_staff_pending
    (scenario.as_user 2 "faculty" 1)
  = JSON http.StatusOK (H_leave (scenario.leave1 "pending" None))
  /\ leaves.GetLeaveDetails scenario.db_staff_pending
       (scenario.as_user 5 "faculty" 1)
     = JSON http.StatusForbidden
         (H_error "You can only view leaves from your department").
Proof.
  split.
  - apply (X10_faculty_views_own_department scenario.db_staff_pending
             (scenario.as_user 2 "faculty" 1) 2%nat scenario.frank
             (scenario.leave1 "pending" None)); reflexivity.
  - apply (X10_faculty_views_own_department scenario.db_staff_pending
             (scenario.as_user 5 "faculty" 1) 5%nat scenario.eve
             (scenario.leave1 "pending" None)); try reflexivity.
    simpl. discriminate.
Defined.

(** X11.  A warden who asks for a stored leave is shown it exactly when
    the warden's hostel and the leave's hostel are both set and equal;
    otherwise the answer is 403. *)
Theorem X11_warden_views_own_hostel (db : DB) (c : Context)
    (userID : nat) (approver : User.t) (leave : LeaveRequest.t) :
  ctxRole c = users.RoleWarden ->
  ctxUserID c = Some userID ->
  gorm.FirstByID User.ID userID (users_table db) = Some approver ->
  gorm.FirstByID LeaveRequest.ID (ctxParamID c) (leave_requests db)
    = Some leave ->
  ((exists hostel, User.Hostel approver = Some hostel
                   /\ LeaveRequest.Hostel leave = Some hostel) ->
   leaves.GetLeaveDetails db c = JSON http.StatusOK (H_leave leave))
  /\ (~ (exists hostel, User.Hostel approver = Some hostel
                        /\ LeaveRequest.Hostel leave = Some hostel) ->
      leaves.GetLeaveDetails db c
      = JSON http.StatusForbidden
          (H_error "You can only view leaves from your hostel")).
Proof.
  intros Hrole Hu Ha Hl. unfold leaves.GetLeaveDetails.
  rewrite Hl, Hrole, Hu, Ha. simpl.
  split.
  - intros (hostel & -> & ->). now rewrite String.eqb_refl.
  - intros Hno.
    destruct (User.Hostel approver) as [ah|]; [|reflexivity].
    destruct (LeaveRequest.Hostel leave) as [lh|]; [|reflexivity].
    destruct (String.eqb_spec ah lh) as [->|]; [|reflexivity].
    exfalso. apply Hno. eauto.
Qed.

Lemma X11_witness :
  leaves.GetLeaveDetails scenario.db_staff_pending
    (scenario.as_user 4 "warden" 1)
  = JSON http.StatusOK (H_leave (scenario.leave1 "pending" None)).
Proof.
  apply (X11_warden_views_own_hostel scenario.db_staff_pending
           (scenario.as_user 4 "warden" 1) 4%nat scenario.hana
           (scenario.leave1 "pending" None)); try reflexivity.
  exists "North". split; reflexivity.
Defined.

(** ** More on deciding a leave request *)

Lemma NotifyLeaveStatusChange_frame (t : time.Time) (d : DB)
    (l : LeaveRequest.t) :
  users_table (notifications_pkg.NotifyLeaveStatusChange t d l)
    = users_table d
  /\ leave_requests (notifications_pkg.NotifyLeaveStatusChange t d l)
     = leave_requests d
  /\ attendances (notifications_pkg.NotifyLeaveStatusChange t d l)
     = attendances d.
Proof.
  unfold notifications_pkg.NotifyLeaveStatusChange.
  destruct (gorm.FirstByID User.ID _ (users_table d)); [|auto].
  destruct (match LeaveRequest.ApprovedBy l with
            | Some a => _ | None => true end); auto.
Qed.

(** What [ApproveRejectLeave] does once the body is valid, the leave is
    found pending, the caller is known and no restriction applies. *)
Lemma ApproveRejectLeave_unrestricted (now : time.Time) (db : DB)
    (c : Context) (input : leaves.ApproveRejectRequest)
    (leave : LeaveRequest.t) (approverID : nat) :
  leaves.bind_ApproveRejectRequest input = [] ->
  leaves.validate_ApproveRejectRequest input = [] ->
  gorm.FirstByID LeaveRequest.ID (ctxParamID c) (leave_requests db)
    = Some leave ->
  LeaveRequest.Status leave = "pending" ->
  ctxUserID c = Some approverID ->
  (if String.eqb (ctxRole c) users.RoleFaculty then
     exists approver,
       gorm.FirstByID User.ID approverID (users_table db) = Some approver
       /\ User.Dept approver = LeaveRequest.Dept leave
   else if String.eqb (ctxRole c) users.RoleWarden then
     exists approver hostel,
       gorm.FirstByID User.ID approverID (users_table db) = Some approver
       /\ User.Hostel approver = Some hostel
       /\ LeaveRequest.Hostel leave = Some hostel
   else True) ->
  let leave' :=
    leaves.decided leave (outcomeOf (leaves.Action input)) approverID
      (leaves.Remarks input) now in
  leaves.ApproveRejectLeave now db c input
  = (JSON http.StatusOK (H_leave_updated leave'),
     notifications_pkg.NotifyLeaveStatusChange now
       (leaves.set_leave_requests db
          (gorm.Save LeaveRequest.ID leave' (leave_requests db)))
       leave').
Proof.
  intros Hb Hv Hl Hst Hu Hscope. cbv zeta.
  unfold leaves.ApproveRejectLeave. rewrite Hb, Hv, Hl, Hst, Hu. simpl.
  assert (outcomeOf (leaves.Action input)
          = if String.eqb (leaves.Action input) "approve" then "approved"
            else if String.eqb (leaves.Action input) "reject"
                 then "rejected"
                 else "pending") as Hout.
  { unfold outcomeOf.
    destruct (valid_action input Hv) as [-> | ->]; reflexivity. }
  destruct (String.eqb (ctxRole c) users.RoleFaculty).
  - destruct Hscope as (approver & -> & ->).
    rewrite String.eqb_refl. simpl. now rewrite <- Hout.
  - destruct (String.eqb (ctxRole c) users.RoleWarden).
    + destruct Hscope as (approver & hostel & -> & -> & ->).
      rewrite String.eqb_refl. simpl. now rewrite <- Hout.
    + now rewrite <- Hout.
Qed.

Lemma decision_taken_intro (now : time.Time) (db : DB) (c : Context)
    (input : leaves.ApproveRejectRequest) (leave : LeaveRequest.t)
    (approverID : nat) :
  gorm.FirstByID LeaveRequest.ID (ctxParamID c) (leave_requests db)
    = Some leave ->
  let leave' :=
    leaves.decided leave (outcomeOf (leaves.Action input)) approverID
      (leaves.Remarks input) now in
  leaves.ApproveRejectLeave now db c input
  = (JSON http.StatusOK (H_leave_updated leave'),
     notifications_pkg.NotifyLeaveStatusChange now
       (leaves.set_leave_requests db
          (gorm.Save LeaveRequest.ID leave' (leave_requests db)))
       leave') ->
  decision_taken now db c input leave approverID
    (leaves.ApproveRejectLeave now db c input).
Proof.
  intros Hl leave' Heq. unfold decision_taken. fold leave'. rewrite Heq.
  destruct (NotifyLeaveStatusChange_frame now
              (leaves.set_leave_requests db
                 (gorm.Save LeaveRequest.ID leave' (leave_requests db)))
              leave') as (Husers & Hleaves & Hatt).
  cbn [fst snd]. rewrite Husers, Hleaves, Hatt. simpl.
  destruct (FirstByID_key _ _ _ _ Hl) as [Hkey _].
  split; [reflexivity|]. split; [|split; [|split; reflexivity]].
  - eapply FirstByID_Save; [exact Hl | exact Hkey].
  - intros key Hne. apply FirstByID_Save_other. simpl. congruence.
Qed.

(** X12.  A faculty member decides a pending leave exactly when its
    department is the faculty member's own: then the leave is stored as
    approved or rejected, as the action says, with the faculty member as
    approver and the remarks of the request, and nothing else in the leave,
    user and attendance tables changes; otherwise the answer is 403 and the
    store is left as it was. *)
Theorem X12_faculty_decides_own_department (now : time.Time) (db : DB)
    (c : Context) (input : leaves.ApproveRejectRequest)
    (leave : LeaveRequest.t) (approverID : nat) (approver : User.t) :
  leaves.bind_ApproveRejectRequest input = [] ->
  leaves.validate_ApproveRejectRequest input = [] ->
  gorm.FirstByID LeaveRequest.ID (ctxParamID c) (leave_requests db)
    = Some leave ->
  LeaveRequest.Status leave = "pending" ->
  ctxRole c = users.RoleFaculty ->
  ctxUserID c = Some approverID ->
  gorm.FirstByID User.ID approverID (users_table db) = Some approver ->
  (User.Dept approver = LeaveRequest.Dept leave ->
   decision_taken now db c input leave approverID
     (leaves.ApproveRejectLeave now db c input))
  /\ (User.Dept approver <> LeaveRequest.Dept leave ->
      leaves.ApproveRejectLeave now db c input
      = (JSON http.StatusForbidden
           (H_error "You can only approve leaves from your department"),
         db)).
Proof.
  intros Hb Hv Hl Hst Hrole Hu Ha. split; intros Hdept.
  - apply decision_taken_intro; [exact Hl|].
    apply ApproveRejectLeave_unrestricted; try assumption.
    rewrite Hrole. simpl. eauto.
  - unfold leaves.ApproveRejectLeave.
    rewrite Hb, Hv, Hl, Hst, Hu, Hrole, Ha. simpl.
    apply String.eqb_neq in Hdept. now rewrite Hdept.
Qed.

Lemma X12_witness :
  let approve := leaves.mkDecide "approve" (Some "get well") in
  decision_taken scenario.now scenario.db_staff_pending
    (scenario.as_user 2 "faculty" 1) approve
    (scenario.leave1 "pending" None) 2
    (leaves.ApproveRejectLeave scenario.now scenario.db_staff_pending
       (scenario.as_user 2 "faculty" 1) approve)
  /\ leaves.ApproveRejectLeave scenario.now scenario.db_staff_pending
       (scenario.as_user 5 "faculty" 1) approve
     = (JSON http.StatusForbidden
          (H_error "You can only approve leaves from your department"),
        scenario.db_staff_pending).
Proof.
  cbv zeta. split.
  - apply (X12_faculty_decides_own_department scenario.now
             scenario.db_staff_pending (scenario.as_user 2 "faculty" 1)
             (leaves.mkDecide "approve" (Some "get well"))
             (scenario.leave1 "pending" None) 2%nat scenario.frank);
      reflexivity.
  - apply (X12_faculty_decides_own_department scenario.now
             scenario.db_staff_pending (scenario.as_user 5 "faculty" 1)
             (leaves.mkDecide "approve" (Some "get well"))
             (scenario.leave1 "pending" None) 5%nat scenario.eve);
      try reflexivity.
    simpl. discriminate.
Defined.

(** X13.  A warden decides a pending leave exactly when the warden's
    hostel and the leave's hostel are both set and equal; otherwise the
    answer is 403 and the store is left as it was. *)
Theorem X13_warden_decides_own_hostel (now : time.Time) (db : DB)
    (c : Context) (input : leaves.ApproveRejectRequest)
    (leave : LeaveRequest.t) (approverID : nat) (approver : User.t) :
  leaves.bind_ApproveRejectRequest input = [] ->
  leaves.validate_ApproveRejectRequest input = [] ->
  gorm.FirstByID LeaveRequest.ID (ctxParamID c) (leave_requests db)
    = Some leave ->
  LeaveRequest.Status leave = "pending" ->
  ctxRole c = users.RoleWarden ->
  ctxUserID c = Some approverID ->
  gorm.FirstByID User.ID approverID (users_table db) = Some approver ->
  ((exists hostel, User.Hostel approver = Some hostel
                   /\ LeaveRequest.Hostel leave = Some hostel) ->
   decision_taken now db c input leave approverID
     (leaves.ApproveRejectLeave now db c input))
  /\ (~ (exists hostel, User.Hostel approver = Some hostel
                        /\ LeaveRequest.Hostel leave = Some hostel) ->
      leaves.ApproveRejectLeave now db c input
      = (JSON http.StatusForbidden
           (H_error "You can only approve leaves from your hostel"), db)).
Proof.
  intros Hb Hv Hl Hst Hrole Hu Ha. split.
  - intros (hostel & Hah & Hlh).
    apply decision_taken_intro; [exact Hl|].
    apply ApproveRejectLeave_unrestricted; try assumption.
    rewrite Hrole. simpl. eauto.
  - intros Hno. unfold leaves.ApproveRejectLeave.
    rewrite Hb, Hv, Hl, Hst, Hu, Hrole, Ha. simpl.
    destruct (User.Hostel approver) as [ah|]; [|reflexivity].
    destruct (LeaveRequest.Hostel leave) as [lh|]; [|reflexivity].
    destruct (String.eqb_spec ah lh) as [->|]; [|reflexivity].
    exfalso. apply Hno. eauto.
Qed.

Lemma X13_witness :
  let reject := leaves.mkDecide "reject" (Some "exam week") in
  decision_taken scenario.now scenario.db_staff_pending
    (scenario.as_user 4 "warden" 1) reject
    (scenario.leave1 "pending" None) 4
    (leaves.ApproveRejectLeave scenario.now scenario.db_staff_pending
       (scenario.as_user 4 "warden" 1) reject).
Proof.
  cbv zeta.
  apply (X13_warden_decides_own_hostel scenario.now
           scenario.db_staff_pending (scenario.as_user 4 "warden" 1)
           (leaves.mkDecide "reject" (Some "exam week"))
           (scenario.leave1 "pending" None) 4%nat scenario.hana);
    try reflexivity.
  exists "North". split; reflexivity.
Defined.

(** X14.  An administrator decides every pending leave, of whatever
    department and hostel; the administrator's own user record is not even
    looked up. *)
Theorem X14_admin_decides_any_pending_leave (now : time.Time) (db : DB)
    (c : Context) (input : leaves.ApproveRejectRequest)
    (leave : LeaveRequest.t) (approverID : nat) :
  leaves.bind_ApproveRejectRequest input = [] ->
  leaves.validate_ApproveRejectRequest input = [] ->
  gorm.FirstByID LeaveRequest.ID (ctxParamID c) (leave_requests db)
    = Some leave ->
  LeaveRequest.Status leave = "pending" ->
  ctxRole c = users.RoleAdmin ->
  ctxUserID c = Some approverID ->
  decision_taken now db c input leave approverID
    (leaves.ApproveRejectLeave now db c input).
Proof.
  intros Hb Hv Hl Hst Hrole Hu.
  apply decision_taken_intro; [exact Hl|].
  apply ApproveRejectLeave_unrestricted; try assumption.
  now rewrite Hrole.
Qed.

Lemma X14_witness :
  let reject := leaves.mkDecide "reject" (Some "exam week") in
  decision_taken scenario.now scenario.db_pending
    (scenario.as_user 42 "admin" 1) reject
    (scenario.leave1 "pending" None) 42
    (leaves.ApproveRejectLeave scenario.now scenario.db_pending
       (scenario.as_user 42 "admin" 1) reject).
Proof.
  cbv zeta.
  apply (X14_admin_decides_any_pending_leave scenario.now
           scenario.db_pending (scenario.as_user 42 "admin" 1)
           (leaves.mkDecide "reject" (Some "exam week"))
           (scenario.leave1 "pending" None) 42%nat);
    reflexivity.
Defined.

(** Every call of [ApproveRejectLeave] either leaves the store as it was,
    with an answer other than 200, or stores one decided leave. *)
Lemma ApproveRejectLeave_cases (now : time.Time) (db : DB) (c : Context)
    (input : leaves.ApproveRejectRequest) :
  ((leaves.ApproveRejectLeave now db c input).2 = db
   /\ exists code,
        code_of (leaves.ApproveRejectLeave now db c input).1 = Some code
        /\ In code [http.StatusBadRequest; http.StatusUnauthorized;
                    http.StatusForbidden; http.StatusNotFound;
                    http.StatusInternalServerError])
  \/ exists leave approverID,
       gorm.FirstByID LeaveRequest.ID (ctxParamID c) (leave_requests db)
         = Some leave
       /\ LeaveRequest.Status leave = "pending"
       /\ ctxUserID c = Some approverID
       /\ leaves.ApproveRejectLeave now db c input
          = (JSON http.StatusOK
               (H_leave_updated
                  (leaves.decided leave (outcomeOf (leaves.Action input))
                     approverID (leaves.Remarks input) now)),
             notifications_pkg.NotifyLeaveStatusChange now
               (leaves.set_leave_requests db
                  (gorm.Save LeaveRequest.ID
                     (leaves.decided leave
                        (outcomeOf (leaves.Action input))
                        approverID (leaves.Remarks input) now)
                     (leave_requests db)))
               (leaves.decided leave (outcomeOf (leaves.Action input))
                  approverID (leaves.Remarks input) now)).
Proof.
  pose proof (ApproveRejectLeave_unrestricted now db c input) as Hgo.
  unfold leaves.ApproveRejectLeave in *.
  destruct (leaves.bind_ApproveRejectRequest input).
  2: { left. split; [reflexivity|].
       exists http.StatusBadRequest. simpl. auto. }
  destruct (leaves.validate_ApproveRejectRequest input).
  2: { left. split; [reflexivity|].
       exists http.StatusBadRequest. simpl. auto. }
  destruct (gorm.FirstByID LeaveRequest.ID (ctxParamID c)
              (leave_requests db)) as [leave|].
  2: { left. split; [reflexivity|].
       exists http.StatusNotFound. simpl. auto 10. }
  specialize (Hgo leave).
  destruct (String.eqb_spec (LeaveRequest.Status leave) "pending")
    as [Hst|Hst].
  2: { left. split; [reflexivity|].
       exists http.StatusBadRequest. simpl. auto. }
  destruct (ctxUserID c) as [approverID|].
  2: { left. split; [reflexivity|].
       exists http.StatusUnauthorized. simpl. auto. }
  specialize (Hgo approverID eq_refl eq_refl eq_refl Hst eq_refl).
  cbv zeta in Hgo. simpl negb in *. cbv iota in *.
  destruct (String.eqb (ctxRole c) users.RoleFaculty).
  - destruct (gorm.FirstByID User.ID approverID (users_table db))
      as [approver|].
    + destruct (String.eqb_spec (User.Dept approver)
                  (LeaveRequest.Dept leave)) as [Hd|Hd].
      * right. exists leave, approverID.
        repeat (split; [reflexivity || assumption|]).
        apply Hgo. eauto.
      * left. split; [reflexivity|].
        exists http.StatusForbidden. simpl. auto 10.
    + left. split; [reflexivity|].
      exists http.StatusInternalServerError. simpl. auto 10.
  - destruct (String.eqb (ctxRole c) users.RoleWarden).
    + destruct (gorm.FirstByID User.ID approverID (users_table db))
        as [approver|].
      2: { left. split; [reflexivity|].
           exists http.StatusInternalServerError. simpl. auto 10. }
      destruct (User.Hostel approver) as [ah|] eqn:Hah.
      2: { left. split; [reflexivity|].
           exists http.StatusForbidden. simpl. auto. }
      destruct (LeaveRequest.Hostel leave) as [lh|].
      2: { left. split; [reflexivity|].
           exists http.StatusForbidden. simpl. auto. }
      destruct (String.eqb_spec ah lh) as [Heq|Hne].
      * right. exists leave, approverID.
        repeat (split; [reflexivity || assumption|]).
        apply Hgo. exists approver, ah. subst lh. auto.
      * left. split; [reflexivity|].
        exists http.StatusForbidden. simpl. auto 10.
    + right. exists leave, approverID.
      repeat (split; [reflexivity || assumption|]).
      apply Hgo. exact I.
Qed.

(** X15.  Whatever the request, [ApproveRejectLeave] answers 200, 400,
    401, 403, 404 or 500 and never panics; unless it answers 200 the store
    is left as it was. *)
Theorem X15_decide_writes_only_on_200 (now : time.Time) (db : DB)
    (c : Context) (input : leaves.ApproveRejectRequest) :
  (exists code,
      code_of (leaves.ApproveRejectLeave now db c input).1 = Some code
      /\ In code [http.StatusOK; http.StatusBadRequest;
                  http.StatusUnauthorized; http.StatusForbidden;
                  http.StatusNotFound; http.StatusInternalServerError])
  /\ (code_of (leaves.ApproveRejectLeave now db c input).1
        <> Some http.StatusOK ->
      (leaves.ApproveRejectLeave now db c input).2 = db).
Proof.
  destruct (ApproveRejectLeave_cases now db c input)
    as [(Hdb & code & Hcode & Hin) | (leave & approverID & _ & _ & _ & Heq)].
  - split; [|intros _; exact Hdb].
    exists code. split; [exact Hcode | right; exact Hin].
  - rewrite Heq. split.
    + exists http.StatusOK. split; [reflexivity | left; reflexivity].
    + intros H. now contradiction H.
Qed.

Lemma unique_key_inj {A : Type} (id : A -> nat) (rows : list A) (a b : A) :
  uniqueKeys id rows -> In a rows -> In b rows -> id a = id b -> a = b.
Proof.
  intros Hu Ha Hb Hid.
  pose proof (FirstByID_unique id rows a Hu Ha) as Fa.
  pose proof (FirstByID_unique id rows b Hu Hb) as Fb.
  rewrite Hid in Fa. congruence.
Qed.

(** X16.  Under unique keys, a call of [ApproveRejectLeave] leaves as many
    leave requests as there were, each with the columns it had on
    submission (student, type, reason, dates, days, department, hostel,
    creation time).  A record either stays exactly as it was or was pending
    and is now approved or rejected with the caller as approver and the
    remarks of the request: no approved or rejected leave ever changes. *)
Theorem X16_decide_moves_only_a_pending_leave (now : time.Time) (db : DB)
    (c : Context) (input : leaves.ApproveRejectRequest) :
  uniqueKeys LeaveRequest.ID (leave_requests db) ->
  length (leave_requests (leaves.ApproveRejectLeave now db c input).2)
    = length (leave_requests db)
  /\ forall l',
       In l' (leave_requests (leaves.ApproveRejectLeave now db c input).2) ->
       exists l,
         In l (leave_requests db)
         /\ same_request l l'
         /\ (l' = l
             \/ (LeaveRequest.Status l = "pending"
                 /\ (LeaveRequest.Status l' = "approved"
                     \/ LeaveRequest.Status l' = "rejected")
                 /\ LeaveRequest.ApprovedBy l' = ctxUserID c
                 /\ LeaveRequest.Remarks l' = leaves.Remarks input)).
Proof.
  intros Hu.
  destruct (ApproveRejectLeave_cases now db c input)
    as [(Hdb & _) | (leave & approverID & Hl & Hst & Hc & Heq)].
  - rewrite Hdb. split; [reflexivity|].
    intros l' Hin. exists l'. split; [exact Hin|].
    split; [repeat split | left; reflexivity].
  - rewrite Heq. cbn [snd].
    destruct (NotifyLeaveStatusChange_frame now
                (leaves.set_leave_requests db
                   (gorm.Save LeaveRequest.ID
                      (leaves.decided leave
                         (outcomeOf (leaves.Action input)) approverID
                         (leaves.Remarks input) now) (leave_requests db)))
                (leaves.decided leave (outcomeOf (leaves.Action input))
                   approverID (leaves.Remarks input) now))
      as (_ & -> & _).
    simpl leave_requests. split.
    + unfold gorm.Save. now rewrite length_map.
    + intros l' Hin. unfold gorm.Save in Hin.
      apply in_map_iff in Hin as (r & Hr & Hin).
      destruct (FirstByID_key _ _ _ _ Hl) as [_ Hleave].
      simpl in Hr.
      destruct (Nat.eqb_spec (LeaveRequest.ID r) (LeaveRequest.ID leave))
        as [Hid|Hid].
      * assert (r = leave) as ->
          by (eapply unique_key_inj; eassumption).
        exists leave. split; [exact Hleave|]. subst l'.
        split; [repeat split|]. right.
        split; [exact Hst|]. split; [|split; [now rewrite Hc | reflexivity]].
        simpl. unfold outcomeOf.
        destruct (String.eqb (leaves.Action input) "approve"); auto.
      * exists r. subst l'. split; [exact Hin|].
        split; [repeat split | left; reflexivity].
Qed.

Lemma X16_witness :
  exists l',
    In l'
      (leave_requests
         (leaves.ApproveRejectLeave scenario.now scenario.db_pending
            (scenario.as_user 2 "faculty" 1)
            (leaves.mkDecide "approve" (Some "get well"))).2)
    /\ same_request (scenario.leave1 "pending" None) l'
    /\ LeaveRequest.Status l' = "approved".
Proof.
  assert (uniqueKeys LeaveRequest.ID (leave_requests scenario.db_pending))
    as Hu by (apply NoDup_singleton).
  destruct (X16_decide_moves_only_a_pending_leave scenario.now
              scenario.db_pending (scenario.as_user 2 "faculty" 1)
              (leaves.mkDecide "approve" (Some "get well")) Hu)
    as [_ Hall].
  exists (leaves.decided (scenario.leave1 "pending" None) "approved" 2
            (Some "get well") scenario.now).
  assert (In (leaves.decided (scenario.leave1 "pending" None) "approved" 2
                (Some "get well") scenario.now)
            (leave_requests
               (leaves.ApproveRejectLeave scenario.now scenario.db_pending
                  (scenario.as_user 2 "faculty" 1)
                  (leaves.mkDecide "approve" (Some "get well"))).2))
    as Hin by (left; reflexivity).
  split; [exact Hin|].
  destruct (Hall _ Hin) as (l & Hl & Hsame & _).
  destruct Hl as [<- | []].
  split; [exact Hsame | reflexivity].
Defined.

(** ** More on marking attendance *)

Lemma Find_none {A : Type} (cond : A -> bool) (rows : list A) :
  gorm.Find cond rows = [] <-> forall r, In r rows -> cond r = false.
Proof.
  unfold gorm.Find. induction rows as [|x rows IH]; simpl.
  - split; [intros _ r [] | reflexivity].
  - destruct (cond x) eqn:E.
    + split; [discriminate|]. intros H.
      specialize (H x (or_introl eq_refl)). congruence.
    + rewrite IH. split.
      * intros H r [<-|Hr]; auto.
      * intros H r Hr. apply H. now right.
Qed.

(** [MarkAttendance] leaves the store as it was, or finds no record of the
    student for the day and adds one. *)
Lemma MarkAttendance_cases (now : time.Time) (db : DB) (c : Context)
    (req : attendance.MarkAttendanceRequest) :
  ((attendance.MarkAttendance now db c req).2 = db
   /\ code_of (attendance.MarkAttendance now db c req).1
      <> Some http.StatusCreated)
  \/ exists markerID student,
       attendance.bind_MarkAttendanceRequest req = []
       /\ ctxUserID c = Some markerID
       /\ gorm.FirstByID User.ID (attendance.StudentID req) (users_table db)
          = Some student
       /\ gorm.Find
            (attendance.markedOn (attendance.StudentID req)
               (time.Truncate (attendance.Date req) (24 * time.Hour)%Z))
            (attendances db) = []
       /\ attendance.MarkAttendance now db c req
          = (JSON http.StatusCreated
               (H_attendance_marked (markedRecord now db markerID req)),
             attendance.set_attendances db
               (attendances db ++ [markedRecord now db markerID req])).
Proof.
  unfold attendance.MarkAttendance.
  destruct (attendance.bind_MarkAttendanceRequest req) eqn:Hb;
    [|left; split; [reflexivity|discriminate]].
  destruct (attendance.validate_MarkAttendanceRequest req);
    [|left; split; [reflexivity|discriminate]].
  destruct (ctxUserID c) as [markerID|];
    [|left; split; [reflexivity|discriminate]].
  destruct (gorm.FirstByID User.ID _ (users_table db)) as [student|];
    [|left; split; [reflexivity|discriminate]].
  destruct (gorm.First Attendance.ID _ (attendances db)) eqn:Hfirst;
    [left; split; [reflexivity|discriminate]|].
  apply First_None in Hfirst.
  destruct (gorm.First LeaveRequest.ID _ (leave_requests db)).
  - destruct (attendance.Present req) eqn:Hp;
      [left; split; [reflexivity|discriminate]|].
    pose proof (bound_is_present req Hb). congruence.
  - right. exists markerID, student. auto.
Qed.

(** X18.  Only a faculty member marks attendance, and only presence: when
    POST /attendance/mark answers 201, the caller's role is faculty, the
    student exists, the request says present, and exactly one record was
    added, for the student, dated at the UTC midnight of the day of the
    request, with the caller as marker and a key that no stored record
    has; the other tables are not touched. *)
Theorem X18_mark_creates_one_record_for_faculty (now : time.Time) (db : DB)
    (c : Context) (req : attendance.MarkAttendanceRequest) :
  code_of (api.POST_attendance_mark now db c req).1
    = Some http.StatusCreated ->
  ctxRole c = users.RoleFaculty
  /\ attendance.Present req = true
  /\ is_Some (gorm.FirstByID User.ID (attendance.StudentID req)
                (users_table db))
  /\ exists a,
       api.POST_attendance_mark now db c req
       = (JSON http.StatusCreated (H_attendance_marked a),
          attendance.set_attendances db (attendances db ++ [a]))
       /\ Attendance.StudentID a = attendance.StudentID req
       /\ Attendance.Date a
          = (24 * time.Hour * dayOf (attendance.Date req))%Z
       /\ Attendance.Present a = true
       /\ ctxUserID c = Some (Attendance.MarkedBy a)
       /\ ~ In (Attendance.ID a) (map Attendance.ID (attendances db)).
Proof.
  unfold api.POST_attendance_mark, auth.RequireRole.
  destruct (String.eqb_spec (ctxRole c) users.RoleFaculty) as [Hrole|Hrole];
    [|discriminate].
  intros Hcode.
  destruct (MarkAttendance_cases now db c req)
    as [(_ & Hno) | (markerID & student & Hb & Hu & Hs & _ & Heq)];
    [contradiction|].
  pose proof (bound_is_present req Hb) as Hp.
  split; [exact Hrole|]. split; [exact Hp|].
  split; [rewrite Hs; eauto|].
  exists (markedRecord now db markerID req).
  split; [exact Heq|]. split; [reflexivity|].
  split; [apply Truncate_day_midnight|].
  split; [exact Hp|]. split; [exact Hu|].
  apply nextID_fresh.
Qed.

Lemma X18_witness :
  exists a,
    api.POST_attendance_mark scenario.now scenario.db_empty
      (scenario.as_user 2 "faculty" 0) (scenario.mark true)
    = (JSON http.StatusCreated (H_attendance_marked a),
       attendance.set_attendances scenario.db_empty [a])
    /\ Attendance.Date a = scenario.date "2025-03-11".
Proof.
  destruct (X18_mark_creates_one_record_for_faculty scenario.now
              scenario.db_empty (scenario.as_user 2 "faculty" 0)
              (scenario.mark true))
    as (_ & _ & _ & a & Heq & _ & Hdate & _).
  - vm_compute. reflexivity.
  - exists a. split; [exact Heq|].
    rewrite Hdate. vm_compute. reflexivity.
Defined.

(** X20.  A mark that passes binding and validation, by a known marker,
    for a known student with no record for the day: when no approved leave
    of the student covers the day's midnight the record is created (201);
    when one does, the answer is 400 with the type, reason and dates of
    such a leave, and nothing is written. *)
Theorem X20_mark_accepted_unless_on_approved_leave (now : time.Time)
    (db : DB) (c : Context) (req : attendance.MarkAttendanceRequest)
    (markerID : nat) (student : User.t) :
  attendance.bind_MarkAttendanceRequest req = [] ->
  attendance.validate_MarkAttendanceRequest req = [] ->
  ctxUserID c = Some markerID ->
  gorm.FirstByID User.ID (attendance.StudentID req) (users_table db)
    = Some student ->
  (forall e, In e (attendances db) ->
             attendance.markedOn (attendance.StudentID req)
               (time.Truncate (attendance.Date req) (24 * time.Hour)%Z) e
             = false) ->
  let day := time.Truncate (attendance.Date req) (24 * time.Hour)%Z in
  ((forall l, In l (leave_requests db) ->
              attendance.approvedOn (attendance.StudentID req) day l
              = false) ->
   attendance.MarkAttendance now db c req
   = (JSON http.StatusCreated
        (H_attendance_marked (markedRecord now db markerID req)),
      attendance.set_attendances db
        (attendances db ++ [markedRecord now db markerID req])))
  /\ ((exists l, In l (leave_requests db)
                 /\ attendance.approvedOn (attendance.StudentID req) day l
                    = true) ->
      exists l,
        In l (leave_requests db)
        /\ LeaveRequest.StudentID l = attendance.StudentID req
        /\ LeaveRequest.Status l = "approved"
        /\ (LeaveRequest.StartDate l <= day <= LeaveRequest.EndDate l)%Z
        /\ attendance.MarkAttendance now db c req
           = (JSON http.StatusBadRequest
                (H_leave_conflict "Student has approved leave for this date"
                   (LeaveRequest.LeaveType l) (LeaveRequest.Reason l)
                   (LeaveRequest.StartDate l) (LeaveRequest.EndDate l)),
              db)).
Proof.
  intros Hb Hv Hu Hs Hfree day.
  pose proof (bound_is_present req Hb) as Hp.
  assert (gorm.First Attendance.ID
            (attendance.markedOn (attendance.StudentID req) day)
            (attendances db) = None) as Hnone.
  { apply First_None. now apply Find_none. }
  unfold attendance.MarkAttendance. fold day.
  rewrite Hb, Hv, Hu, Hs, Hnone.
  split.
  - intros Hno.
    assert (gorm.First LeaveRequest.ID
              (attendance.approvedOn (attendance.StudentID req) day)
              (leave_requests db) = None) as ->.
    { apply First_None. now apply Find_none. }
    reflexivity.
  - intros (l0 & Hin0 & Hcov0).
    destruct (First_found LeaveRequest.ID _ _ l0 Hin0 Hcov0) as [l Hl].
    rewrite Hl, Hp. exists l.
    apply First_Some_In in Hl as [Hin Hcov].
    unfold attendance.approvedOn in Hcov.
    rewrite !andb_true_iff, Nat.eqb_eq, String.eqb_eq, Z.leb_le, Z.geb_le
      in Hcov.
    destruct Hcov as (((Hsid & Hst) & Hstart) & Hend).
    repeat split; auto.
Qed.

Lemma X20_witness :
  attendance.MarkAttendance scenario.now scenario.db_empty
    (scenario.as_user 2 "faculty" 0) (scenario.mark true)
  = (JSON http.StatusCreated
       (H_attendance_marked
          (markedRecord scenario.now scenario.db_empty 2
             (scenario.mark true))),
     attendance.set_attendances scenario.db_empty
       [markedRecord scenario.now scenario.db_empty 2 (scenario.mark true)]).
Proof.
  refine (proj1 (X20_mark_accepted_unless_on_approved_leave scenario.now
                   scenario.db_empty (scenario.as_user 2 "faculty" 0)
                   (scenario.mark true) 2%nat scenario.alice _ _ _ _ _) _).
  - vm_compute. reflexivity.
  - vm_compute. reflexivity.
  - reflexivity.
  - reflexivity.
  - intros e [].
  - intros l [].
Defined.

(** ** Attendance statistics *)

Lemma Count_subset {A : Type} (p q : A -> bool) (rows : list A) :
  (0 <= gorm.Count (fun a => p a && q a) rows <= gorm.Count p rows)%Z.
Proof.
  unfold gorm.Count, gorm.Find. split; [lia|].
  apply Nat2Z.inj_le.
  induction rows as [|x rows IH]; simpl; [lia|].
  destruct (p x), (q x); simpl; lia.
Qed.

Lemma Count_zero {A : Type} (p : A -> bool) (rows : list A) :
  gorm.Count p rows = 0%Z <-> gorm.Find p rows = [].
Proof.
  unfold gorm.Count. destruct (gorm.Find p rows); simpl; split;
    try reflexivity; try discriminate; lia.
Qed.

Lemma head_OrderDesc_max {A : Type} (key : A -> time.Time) (rows : list A)
    (a : A) :
  head (gorm.OrderDesc key rows) = Some a ->
  In a rows /\ forall b, In b rows -> (key b <= key a)%Z.
Proof.
  intros Hh.
  pose proof (descending_OrderDesc key rows) as Hs.
  assert (forall b, In b (gorm.OrderDesc key rows) <-> In b rows) as Hin
    by (intros b; apply In_OrderDesc_iff).
  destruct (gorm.OrderDesc key rows) as [|x l]; [discriminate|].
  injection Hh as ->.
  split; [apply Hin; now left|].
  intros b Hb. apply Hin in Hb as [<- | Hb]; [lia|].
  apply StronglySorted_inv in Hs as [_ Hall].
  rewrite List.Forall_forall in Hall. now apply Hall.
Qed.

Lemma head_OrderDesc_None {A : Type} (key : A -> time.Time)
    (rows : list A) :
  head (gorm.OrderDesc key rows) = None <-> rows = [].
Proof.
  pose proof (length_OrderDesc key rows) as Hlen.
  destruct (gorm.OrderDesc key rows), rows; simpl in *;
    split; try reflexivity; try discriminate.
Qed.

(** The percentage computed from the two counts. *)
Lemma percentage_bounds (present total : Z) :
  (0 <= present <= total)%Z -> (0 < total)%Z ->
  (0 <= inject_Z present / inject_Z total * 100 <= 100)%Q.
Proof.
  intros Hp Ht.
  destruct total as [|t|t]; try lia.
  unfold Qle, Qdiv, Qmult, Qinv, inject_Z. simpl.
  split; nia.
Qed.

Lemma GetStats_ok_inv (db : DB) (c : Context) (s : AttendanceStats) :
  attendance.GetStats db c = JSON http.StatusOK (H_stats s) ->
  exists student,
    attendance.whichStudent c = inr (User.ID student)
    /\ gorm.FirstByID User.ID (User.ID student) (users_table db)
       = Some student
    /\ s = attendance.studentStats db student.
Proof.
  unfold attendance.GetStats.
  destruct (attendance.whichStudent c) as [answer|studentID] eqn:Hw.
  - intros ->. revert Hw. unfold attendance.whichStudent.
    destruct (String.eqb (ctxRole c) users.RoleStudent).
    + destruct (ctxUserID c); discriminate.
    + destruct (String.eqb (Query c "student_id") ""); discriminate.
  - destruct (gorm.FirstByID User.ID studentID (users_table db))
      as [student|] eqn:Hs; [|discriminate].
    intros H. injection H as <-.
    destruct (FirstByID_key _ _ _ _ Hs) as [<- _].
    exists student. auto.
Qed.

(** X21.  The statistics in an answer of [GetStats] are those of an
    existing user: the total is the number of that student's records, the
    present days are between 0 and the total, and the absent days are the
    total less the present days.  With no record the percentage is 0 and
    there is no last attendance; otherwise the percentage is present over
    total times 100, between 0 and 100, and the last attendance is the
    latest date among the student's records. *)
Theorem X21_stats_are_consistent (db : DB) (c : Context)
    (s : AttendanceStats) :
  attendance.GetStats db c = JSON http.StatusOK (H_stats s) ->
  let own :=
    gorm.Find (fun a => Nat.eqb (Attendance.StudentID a) (statsStudentID s))
      (attendances db) in
  (exists student,
      gorm.FirstByID User.ID (statsStudentID s) (users_table db)
        = Some student
      /\ statsStudentName s = User.Name student)
  /\ TotalDays s = Z.of_nat (length own)
  /\ (0 <= PresentDays s <= TotalDays s)%Z
  /\ AbsentDays s = (TotalDays s - PresentDays s)%Z
  /\ (TotalDays s = 0%Z ->
      AttendancePercentage s = 0%Q /\ LastAttendance s = None)
  /\ ((0 < TotalDays s)%Z ->
      AttendancePercentage s
        = (inject_Z (PresentDays s) / inject_Z (TotalDays s) * 100)%Q
      /\ (0 <= AttendancePercentage s <= 100)%Q
      /\ exists a,
           In a own
           /\ LastAttendance s = Some (Attendance.Date a)
           /\ forall b, In b own ->
                        (Attendance.Date b <= Attendance.Date a)%Z).
Proof.
  intros H. apply GetStats_ok_inv in H as (student & _ & Hs & ->).
  cbv zeta. simpl statsStudentID. simpl statsStudentName.
  simpl TotalDays. simpl PresentDays. simpl AbsentDays.
  simpl AttendancePercentage. simpl LastAttendance.
  set (ofStudent :=
         fun a : Attendance.t =>
           Nat.eqb (Attendance.StudentID a) (User.ID student)).
  pose proof (Count_subset ofStudent Attendance.Present (attendances db))
    as Hcount.
  split; [eauto|]. split; [reflexivity|]. split; [exact Hcount|].
  split; [reflexivity|]. split.
  - intros Hzero. rewrite Hzero. split; [reflexivity|].
    apply Count_zero in Hzero. now rewrite Hzero.
  - intros Hpos.
    destruct (Z.gtb_spec (gorm.Count ofStudent (attendances db)) 0);
      [|lia].
    split; [reflexivity|].
    split; [now apply percentage_bounds|].
    destruct (head (gorm.OrderDesc Attendance.Date
                      (gorm.Find ofStudent (attendances db))))
      as [a|] eqn:Hhead.
    + apply head_OrderDesc_max in Hhead as [Hin Hmax].
      exists a. auto.
    + apply head_OrderDesc_None in Hhead.
      unfold gorm.Count in Hpos. rewrite Hhead in Hpos. simpl in Hpos. lia.
Qed.

Lemma X21_witness :
  exists s,
    attendance.GetStats scenario.db_class (scenario.as_user 7 "student" 0)
    = JSON http.StatusOK (H_stats s)
    /\ TotalDays s = 1%Z /\ PresentDays s = 0%Z /\ AbsentDays s = 1%Z
    /\ (0 <= AttendancePercentage s <= 100)%Q.
Proof.
  exists (attendance.studentStats scenario.db_class scenario.bob).
  assert (attendance.GetStats scenario.db_class
            (scenario.as_user 7 "student" 0)
          = JSON http.StatusOK
              (H_stats
                 (attendance.studentStats scenario.db_class scenario.bob)))
    as Heq by (vm_compute; reflexivity).
  destruct (X21_stats_are_consistent scenario.db_class
              (scenario.as_user 7 "student" 0)
              (attendance.studentStats scenario.db_class scenario.bob) Heq)
    as (_ & _ & _ & _ & _ & Hpos).
  split; [exact Heq|].
  repeat (split; [vm_compute; reflexivity|]).
  apply Hpos. vm_compute. reflexivity.
Defined.

(** ** Viewing attendance *)

Lemma Parse_date_empty : time.Parse_date "" = None.
Proof. reflexivity. Qed.

Lemma viewFilter_true (studentID : nat) (startDate endDate subject : string)
    (a : Attendance.t) :
  attendance.viewFilter studentID startDate endDate subject a = true
  <-> Attendance.StudentID a = studentID
      /\ (forall start, time.Parse_date startDate = Some start ->
                        (start <= Attendance.Date a)%Z)
      /\ (forall end_, time.Parse_date endDate = Some end_ ->
                       (Attendance.Date a <= end_)%Z)
      /\ (subject = "" \/ Attendance.Subject a = Some subject).
Proof.
  unfold attendance.viewFilter.
  rewrite !andb_true_iff, Nat.eqb_eq.
  assert ((if negb (String.eqb startDate "") then
             match time.Parse_date startDate with
             | Some start => (Attendance.Date a >=? start)%Z
             | None => true
             end
           else true) = true
          <-> forall start, time.Parse_date startDate = Some start ->
                            (start <= Attendance.Date a)%Z) as ->.
  { destruct (String.eqb_spec startDate "") as [->|_]; simpl.
    - split; [intros _ start; discriminate | reflexivity].
    - destruct (time.Parse_date startDate) as [start|].
      + rewrite Z.geb_le. split; [intros H s [= <-]; exact H | auto].
      + split; [intros _ s; discriminate | reflexivity]. }
  assert ((if negb (String.eqb endDate "") then
             match time.Parse_date endDate with
             | Some end_ => (Attendance.Date a <=? end_)%Z
             | None => true
             end
           else true) = true
          <-> forall end_, time.Parse_date endDate = Some end_ ->
                           (Attendance.Date a <= end_)%Z) as ->.
  { destruct (String.eqb_spec endDate "") as [->|_]; simpl.
    - split; [intros _ e; discriminate | reflexivity].
    - destruct (time.Parse_date endDate) as [end_|].
      + rewrite Z.leb_le. split; [intros H s [= <-]; exact H | auto].
      + split; [intros _ s; discriminate | reflexivity]. }
  assert ((if negb (String.eqb subject "") then
             bool_decide (Attendance.Subject a = Some subject)
           else true) = true
          <-> subject = "" \/ Attendance.Subject a = Some subject) as ->.
  { destruct (String.eqb_spec subject "") as [->|Hne]; simpl.
    - intuition.
    - rewrite bool_decide_eq_true. intuition. }
  tauto.
Qed.

(** X22.  A student who views attendance is shown exactly the student's
    own records, latest date first, that are not before [start_date], not
    after [end_date] and of the [subject] asked for; a date filter that is
    not a valid YYYY-MM-DD date is ignored, and so is any [student_id]
    parameter. *)
Theorem X22_student_views_own_attendance (db : DB) (c : Context)
    (userID : nat) :
  ctxRole c = users.RoleStudent ->
  ctxUserID c = Some userID ->
  exists records,
    attendance.ViewAttendance db c
    = JSON http.StatusOK
        (H_attendance records (Query c "start_date") (Query c "end_date")
           (Query c "subject"))
    /\ descending Attendance.Date records
    /\ (forall a,
          In a records
          <-> In a (attendances db)
              /\ Attendance.StudentID a = userID
              /\ (forall start,
                    time.Parse_date (Query c "start_date") = Some start ->
                    (start <= Attendance.Date a)%Z)
              /\ (forall end_,
                    time.Parse_date (Query c "end_date") = Some end_ ->
                    (Attendance.Date a <= end_)%Z)
              /\ (Query c "subject" = ""
                  \/ Attendance.Subject a = Some (Query c "subject")))
    /\ forall v,
         attendance.ViewAttendance db (with_query "student_id" v c)
         = attendance.ViewAttendance db c.
Proof.
  intros Hrole Hu.
  assert (attendance.whichStudent c = inr userID) as Hw.
  { unfold attendance.whichStudent. now rewrite Hrole, Hu. }
  unfold attendance.ViewAttendance at 1. rewrite Hw.
  eexists. split; [reflexivity|].
  split; [apply descending_OrderDesc|]. split.
  - intros a. rewrite In_OrderDesc_iff.
    unfold gorm.Find. rewrite filter_In, viewFilter_true. tauto.
  - intros v. unfold attendance.ViewAttendance.
    assert (attendance.whichStudent (with_query "student_id" v c)
            = inr userID) as ->.
    { unfold attendance.whichStudent. simpl. now rewrite Hrole, Hu. }
    rewrite Hw, !(Query_with_query "student_id") by discriminate.
    reflexivity.
Qed.

Lemma X22_witness :
  attendance.ViewAttendance scenario.db_class
    (with_query "student_id" "7" (scenario.as_user 1 "student" 0))
  = JSON http.StatusOK (H_attendance [scenario.marked] "" "" "").
Proof.
  destruct (X22_student_views_own_attendance scenario.db_class
              (scenario.as_user 1 "student" 0) 1%nat eq_refl eq_refl)
    as (records & _ & _ & _ & Hsame).
  rewrite Hsame. vm_compute. reflexivity.
Defined.

(** ** Department statistics *)

(** X23.  Who gets department statistics, and of which department: every
    role but faculty and admin is answered 403; a known faculty member is
    answered for the department of the faculty member's own record,
    whatever [department] parameter is sent; an administrator must send a
    non-empty [department] (400 otherwise) and is answered for it. *)
Theorem X23_department_of_the_statistics (db : DB) (c : Context) :
  (ctxRole c <> users.RoleFaculty -> ctxRole c <> users.RoleAdmin ->
   attendance.GetDepartmentStats db c
   = ReplyError http.StatusForbidden "Access denied")
  /\ (ctxRole c = users.RoleFaculty ->
      forall userID faculty,
        ctxUserID c = Some userID ->
        gorm.FirstByID User.ID userID (users_table db) = Some faculty ->
        exists obj,
          attendance.GetDepartmentStats db c = ReplyObject http.StatusOK obj
          /\ attendance.department obj = User.Dept faculty
          /\ forall v,
               attendance.GetDepartmentStats db
                 (with_query "department" v c)
               = ReplyObject http.StatusOK obj)
  /\ (ctxRole c = users.RoleAdmin ->
      (Query c "department" = "" ->
       attendance.GetDepartmentStats db c
       = ReplyError http.StatusBadRequest
           "department parameter is required")
      /\ (Query c "department" <> "" ->
          exists obj,
            attendance.GetDepartmentStats db c
              = ReplyObject http.StatusOK obj
            /\ attendance.department obj = Query c "department")).
Proof.
  split; [|split].
  - intros Hf Ha. unfold attendance.GetDepartmentStats.
    apply String.eqb_neq in Hf, Ha. now rewrite Hf, Ha.
  - intros Hrole userID faculty Hu Hfac.
    unfold attendance.GetDepartmentStats.
    rewrite Hrole, Hu, Hfac. simpl.
    eexists. split; [reflexivity|]. split; [reflexivity|].
    intros v.
    change (ctxUserID (with_query "department" v c)) with (ctxUserID c).
    change (ctxRole (with_query "department" v c)) with (ctxRole c).
    rewrite Hrole, Hu, Hfac. reflexivity.
  - intros Hrole. unfold attendance.GetDepartmentStats.
    rewrite Hrole. simpl. split; intros Hq.
    + now rewrite Hq.
    + apply String.eqb_neq in Hq. rewrite Hq.
      eexists. split; reflexivity.
Qed.

Lemma X23_witness :
  exists obj,
    attendance.GetDepartmentStats scenario.db_class
      (with_query "department" "EE" (scenario.as_user 2 "faculty" 0))
    = ReplyObject http.StatusOK obj
    /\ attendance.department obj = "CS".
Proof.
  destruct (proj1 (proj2 (X23_department_of_the_statistics
                            scenario.db_class
                            (scenario.as_user 2 "faculty" 0)))
              eq_refl 2%nat scenario.frank eq_refl eq_refl)
    as (obj & _ & Hdept & Hany).
  exists obj. split; [apply Hany | exact Hdept].
Defined.

Lemma GetDepartmentStats_ok_inv (db : DB) (c : Context) (code : nat)
    (obj : attendance.DepartmentStats) :
  attendance.GetDepartmentStats db c = ReplyObject code obj ->
  code = http.StatusOK
  /\ obj = attendance.mkDepartmentStats (attendance.department obj)
             (map (attendance.studentStats db)
                (gorm.Find
                   (fun u =>
                      String.eqb (User.Role u) users.RoleStudent
                      && String.eqb (User.Dept u)
                           (attendance.department obj))
                   (users_table db)))
             (length
                (gorm.Find
                   (fun u =>
                      String.eqb (User.Role u) users.RoleStudent
                      && String.eqb (User.Dept u)
                           (attendance.department obj))
                   (users_table db))).
Proof.
  unfold attendance.GetDepartmentStats.
  destruct (negb _ && negb _); [discriminate|].
  destruct (String.eqb (ctxRole c) users.RoleFaculty).
  - destruct (ctxUserID c) as [userID|]; [|discriminate].
    destruct (gorm.FirstByID User.ID userID (users_table db));
      [|discriminate].
    intros H. injection H as <- <-. split; reflexivity.
  - destruct (String.eqb (Query c "department") ""); [discriminate|].
    intros H. injection H as <- <-. split; reflexivity.
Qed.

(** X24.  The object of an answer of [GetDepartmentStats] holds one entry
    for each user of the department whose role is student, in the order of
    the user table, and [total_students] is their number: an entry is in
    the list exactly when it is the statistics of such a user. *)
Theorem X24_department_statistics_cover_its_students (db : DB)
    (c : Context) (code : nat) (obj : attendance.DepartmentStats) :
  attendance.GetDepartmentStats db c = ReplyObject code obj ->
  code = http.StatusOK
  /\ attendance.total_students obj = length (attendance.stats obj)
  /\ (forall entry,
        In entry (attendance.stats obj)
        <-> exists student,
              In student (users_table db)
              /\ User.Role student = users.RoleStudent
              /\ User.Dept student = attendance.department obj
              /\ entry = attendance.studentStats db student)
  /\ forall entry,
       In entry (attendance.stats obj) ->
       (0 <= PresentDays entry <= TotalDays entry)%Z
       /\ AbsentDays entry = (TotalDays entry - PresentDays entry)%Z.
Proof.
  intros H. apply GetDepartmentStats_ok_inv in H as [-> Hobj].
  split; [reflexivity|].
  set (students :=
         gorm.Find
           (fun u => String.eqb (User.Role u) users.RoleStudent
                     && String.eqb (User.Dept u) (attendance.department obj))
           (users_table db)) in *.
  assert (attendance.stats obj
          = map (attendance.studentStats db) students) as Hstats
    by (rewrite Hobj; reflexivity).
  assert (attendance.total_students obj = length students) as Htotal
    by (rewrite Hobj; reflexivity).
  assert (forall entry,
             In entry (attendance.stats obj)
             <-> exists student,
                   In student (users_table db)
                   /\ User.Role student = users.RoleStudent
                   /\ User.Dept student = attendance.department obj
                   /\ entry = attendance.studentStats db student) as Hin.
  { intros entry. rewrite Hstats, in_map_iff. unfold students, gorm.Find.
    split.
    - intros (student & <- & Hs). apply filter_In in Hs as [Hs Hc].
      apply andb_true_iff in Hc as [Hr Hd].
      apply String.eqb_eq in Hr, Hd. exists student. auto.
    - intros (student & Hs & Hr & Hd & ->). exists student.
      split; [reflexivity|]. apply filter_In. split; [exact Hs|].
      apply andb_true_iff. split; now apply String.eqb_eq. }
  split; [rewrite Htotal, Hstats; now rewrite length_map|].
  split; [exact Hin|].
  intros entry He. apply Hin in He as (student & _ & _ & _ & ->).
  simpl. split; [apply Count_subset | reflexivity].
Qed.

Lemma X24_witness :
  exists obj,
    attendance.GetDepartmentStats scenario.db_class
      (with_query "department" "EE" (scenario.as_user 9 "admin" 0))
    = ReplyObject http.StatusOK obj
    /\ attendance.total_students obj = 1%nat
    /\ In (attendance.studentStats scenario.db_class scenario.bob)
         (attendance.stats obj).
Proof.
  eexists. split; [vm_compute; reflexivity|].
  match goal with
  | |- attendance.total_students ?o = _ /\ _ =>
      destruct (X24_department_statistics_cover_its_students
                  scenario.db_class
                  (with_query "department" "EE"
                     (scenario.as_user 9 "admin" 0))
                  http.StatusOK o) as (_ & Htotal & Hin & _)
  end.
  - vm_compute. reflexivity.
  - split; [vm_compute; reflexivity|].
    apply Hin. exists scenario.bob.
    repeat split; try reflexivity.
    simpl. auto 10.
Defined.

(** X25.  Under unique user keys, the entry that [GetDepartmentStats]
    computes for a student is the statistics that [GetStats] answers to
    that student. *)
Theorem X25_department_entry_is_the_students_own_statistics (db : DB)
    (c : Context) (student : User.t) :
  uniqueKeys User.ID (users_table db) ->
  In student (users_table db) ->
  attendance.GetStats db (as_student (User.ID student) c)
  = JSON http.StatusOK (H_stats (attendance.studentStats db student)).
Proof.
  intros Hu Hin. unfold attendance.GetStats.
  assert (attendance.whichStudent (as_student (User.ID student) c)
          = inr (User.ID student)) as -> by reflexivity.
  now rewrite (FirstByID_unique User.ID _ _ Hu Hin).
Qed.

Lemma X25_witness :
  attendance.GetStats scenario.db_class
    (as_student 7 (scenario.as_user 2 "faculty" 0))
  = JSON http.StatusOK
      (H_stats (attendance.studentStats scenario.db_class scenario.bob)).
Proof.
  apply (X25_department_entry_is_the_students_own_statistics
           scenario.db_class (scenario.as_user 2 "faculty" 0) scenario.bob).
  - unfold uniqueKeys. simpl.
    repeat (apply NoDup_cons; split;
            [rewrite list_elem_of_In; simpl; lia|]).
    apply NoDup_nil_2.
  - simpl. auto 10.
Defined.

(** ** More on validation *)

(** X26.  [validateFutureDate] compares UTC calendar days: a date passes
    exactly when its day is today or later, so every instant of today
    passes, also one that is earlier than the present moment. *)
Theorem X26_future_date_means_today_or_later (now date : time.Time) :
  validation.validateFutureDate now date = true
  <-> (dayOf now <= dayOf date)%Z.
Proof.
  rewrite validateFutureDate_true, Truncate_day_midnight.
  unfold dayOf. change (24 * time.Hour)%Z with 86400000000000%Z.
  pose proof (Z.div_mod date 86400000000000).
  pose proof (Z.mod_pos_bound date 86400000000000).
  split; intros Hle; nia.
Qed.

Section FormatFacts.
Import validator.

Lemma format_lookup_other (errs : list FieldError)
    (acc : gmap string string) (key : string) :
  ~ In key (map Field errs) ->
  fold_left (fun errors e => <[Field e := validation.message e]> errors)
    errs acc !! key = acc !! key.
Proof.
  revert acc. induction errs as [|x errs IH]; intros acc Hnot; simpl.
  - reflexivity.
  - simpl in Hnot. rewrite IH by tauto.
    apply lookup_insert_ne. tauto.
Qed.

Lemma format_lookup_some (errs : list FieldError)
    (acc : gmap string string) (key : string) :
  is_Some
    (fold_left (fun errors e => <[Field e := validation.message e]> errors)
       errs acc !! key)
  <-> is_Some (acc !! key) \/ In key (map Field errs).
Proof.
  revert acc. induction errs as [|x errs IH]; intros acc; simpl.
  - tauto.
  - rewrite IH. destruct (decide (Field x = key)) as [->|Hne].
    + rewrite lookup_insert_eq. split; [auto|]. intros _. left. eauto.
    + rewrite lookup_insert_ne by exact Hne. tauto.
Qed.

(** X27.  The details of a validation failure have an entry for exactly
    the fields that failed; when no field fails twice (as in the output of
    the validator, which reports the first failing tag of a field), the
    entry of a field is the message of its error. *)
Theorem X27_details_name_the_failed_fields (errs : list FieldError) :
  (forall field,
      is_Some (validation.FormatValidationErrors errs !! field)
      <-> In field (map Field errs))
  /\ (List.NoDup (map Field errs) ->
      forall e, In e errs ->
                validation.FormatValidationErrors errs !! Field e
                = Some (validation.message e)).
Proof.
  unfold validation.FormatValidationErrors. split.
  - intros field. rewrite format_lookup_some, lookup_empty.
    split; [intros [[x Hx]|H]; [discriminate | exact H] | auto].
  - generalize (∅ : gmap string string).
    induction errs as [|x errs IH]; intros acc Hnd e Hin; simpl in *.
    + destruct Hin.
    + apply List.NoDup_cons_iff in Hnd as [Hx Hnd].
      destruct Hin as [<- | Hin].
      * rewrite format_lookup_other by exact Hx.
        apply lookup_insert_eq.
      * now apply IH.
Qed.

Lemma X27_witness :
  validation.FormatValidationErrors
    (leaves.validate_ApplyLeaveRequest scenario.now
       (leaves.mkApply "sick" "flu" (scenario.date "2025-03-10")
          (scenario.date "2025-03-10")))
    !! "Reason"
  = Some "Reason must be at least 10 characters long".
Proof.
  assert (leaves.validate_ApplyLeaveRequest scenario.now
            (leaves.mkApply "sick" "flu" (scenario.date "2025-03-10")
               (scenario.date "2025-03-10"))
          = [mkFieldError "LeaveType" "oneof"
               "medical personal emergency academic";
             mkFieldError "Reason" "min" "10";
             mkFieldError "EndDate" "date_range" ""]) as ->
    by (vm_compute; reflexivity).
  refine (proj2 (X27_details_name_the_failed_fields _) _
            (mkFieldError "Reason" "min" "10") _).
  - repeat constructor; simpl; intuition discriminate.
  - simpl. auto.
Defined.
End FormatFacts.

(** ** Notifications *)

(** X28.  [NotifyLeaveStatusChange] writes at most one row, and only to the
    notifications: when the student of the leave and, if the leave has
    one, its approver are found, the student gets one new unread
    notification of type "leave_status", titled with the status and
    related to the leave, under a fresh key; when one of them is missing
    nothing is written. *)
Theorem X28_status_change_notifies_the_student (now : time.Time) (db : DB)
    (leave : LeaveRequest.t) :
  let db' := notifications_pkg.NotifyLeaveStatusChange now db leave in
  let known (id : nat) :=
    is_Some (gorm.FirstByID User.ID id (users_table db)) in
  users_table db' = users_table db
  /\ leave_requests db' = leave_requests db
  /\ attendances db' = attendances db
  /\ ((known (LeaveRequest.StudentID leave)
       /\ (forall a, LeaveRequest.ApprovedBy leave = Some a -> known a)) ->
      exists n,
        notifications db' = notifications db ++ [n]
        /\ Notification.UserID n = LeaveRequest.StudentID leave
        /\ Notification.Title n
           = "Leave Request " +:+ LeaveRequest.Status leave
        /\ Notification.Type_ n = "leave_status"
        /\ Notification.IsRead n = false
        /\ Notification.RelatedID n = Some (LeaveRequest.ID leave)
        /\ ~ In (Notification.ID n)
             (map Notification.ID (notifications db)))
  /\ (~ (known (LeaveRequest.StudentID leave)
         /\ (forall a, LeaveRequest.ApprovedBy leave = Some a -> known a))
      -> db' = db).
Proof.
  cbv zeta.
  destruct (NotifyLeaveStatusChange_frame now db leave) as (Hu & Hl & Ha).
  split; [exact Hu|]. split; [exact Hl|]. split; [exact Ha|].
  unfold notifications_pkg.NotifyLeaveStatusChange.
  destruct (gorm.FirstByID User.ID (LeaveRequest.StudentID leave)
              (users_table db)) as [student|] eqn:Hs.
  2: { split; [intros [[x Hx] _]; discriminate | reflexivity]. }
  destruct (LeaveRequest.ApprovedBy leave) as [a|].
  - destruct (bool_decide_reflect
                (is_Some (gorm.FirstByID User.ID a (users_table db))))
      as [Hk|Hk].
    + split; [|intros Hno; exfalso; apply Hno; split;
                 [eauto | intros ? [= <-]; exact Hk]].
      intros _. eexists. split; [reflexivity|].
      repeat (split; [reflexivity|]). apply nextID_fresh.
    + split; [intros [_ Hall]; exfalso; apply Hk; now apply Hall
             | reflexivity].
  - split; [|intros Hno; exfalso; apply Hno; split;
               [eauto | intros ? [=]]].
    intros _. eexists. split; [reflexivity|].
    repeat (split; [reflexivity|]). apply nextID_fresh.
Qed.

Lemma X28_witness :
  exists n,
    notifications
      (notifications_pkg.NotifyLeaveStatusChange scenario.now
         scenario.db_approved (scenario.leave1 "approved" (Some 2%nat)))
    = [n]
    /\ Notification.UserID n = 1%nat
    /\ Notification.Title n = "Leave Request approved".
Proof.
  destruct (X28_status_change_notifies_the_student scenario.now
              scenario.db_approved
              (scenario.leave1 "approved" (Some 2%nat)))
    as (_ & _ & _ & Hyes & _).
  destruct Hyes as (n & Hn & Hu & Ht & _).
  - split; [vm_compute; eauto|].
    intros a [= <-]. vm_compute. eauto.
  - exists n. split; [exact Hn|]. split; [exact Hu | exact Ht].
Defined.

Lemma unread_count_markRead_other (cond : Notification.t -> bool)
    (db : DB) (user : nat) :
  (forall n, In n (notifications db) -> cond n = true ->
             Notification.UserID n <> user) ->
  notifications_pkg.GetUnreadNotificationCount
    (notifications_pkg.markRead cond db) user
  = notifications_pkg.GetUnreadNotificationCount db user.
Proof.
  unfold notifications_pkg.GetUnreadNotificationCount,
    notifications_pkg.markRead, gorm.Count, gorm.Find.
  simpl. intros Hother. f_equal. f_equal.
  induction (notifications db) as [|x rows IH]; simpl; [reflexivity|].
  assert (forall n, In n rows -> cond n = true ->
                    Notification.UserID n <> user) as Hrows
    by (intros n Hn; apply Hother; now right).
  destruct (cond x) eqn:Hc.
  - specialize (Hother x (or_introl eq_refl) Hc).
    apply Nat.eqb_neq in Hother. simpl. rewrite Hother. simpl.
    now apply IH.
  - destruct (_ && _); simpl; [f_equal|]; now apply IH.
Qed.

Lemma unread_count_le_markRead (cond : Notification.t -> bool)
    (db : DB) (user : nat) :
  (notifications_pkg.GetUnreadNotificationCount
     (notifications_pkg.markRead cond db) user
   <= notifications_pkg.GetUnreadNotificationCount db user)%Z.
Proof.
  unfold notifications_pkg.GetUnreadNotificationCount,
    notifications_pkg.markRead, gorm.Count, gorm.Find.
  simpl. apply Nat2Z.inj_le.
  induction (notifications db) as [|x rows IH]; simpl; [lia|].
  destruct (cond x); simpl.
  - rewrite andb_false_r. destruct (_ && _); simpl; lia.
  - destruct (_ && _); simpl; lia.
Qed.

(** X29.  Marking one notification as read.  A path id that is not a
    decimal number of 32 bits is answered 400.  Otherwise the answer is 200
    "Notification marked as read", also when no notification of the caller
    has that id: a notification is changed only if it has the id and
    belongs to the caller, and then only its read flag.  The unread count
    of every other user stays as it was, and the caller's does not grow. *)
Theorem X29_mark_as_read_reaches_only_own_notification (db : DB)
    (c : Context) (idParam : string) (userID : nat) :
  ctxUserID c = Some userID ->
  let result := notifications_pkg.MarkNotificationAsRead db c idParam in
  (strconv.ParseUint32 idParam = None ->
   result = (ReplyError http.StatusBadRequest "Invalid notification ID", db))
  /\ (forall id,
        strconv.ParseUint32 idParam = Some id ->
        result.1 = ReplyMessage http.StatusOK "Notification marked as read"
        /\ notifications result.2
           = map (fun n =>
                    if Nat.eqb (Notification.ID n) id
                       && Nat.eqb (Notification.UserID n) userID
                    then notifications_pkg.read n else n)
               (notifications db)
        /\ (forall n, In n (notifications db) ->
                      Notification.UserID n <> userID ->
                      In n (notifications result.2))
        /\ (forall other, other <> userID ->
              notifications_pkg.GetUnreadNotificationCount result.2 other
              = notifications_pkg.GetUnreadNotificationCount db other)
        /\ (notifications_pkg.GetUnreadNotificationCount result.2 userID
            <= notifications_pkg.GetUnreadNotificationCount db userID)%Z).
Proof.
  intros Hu. cbv zeta. unfold notifications_pkg.MarkNotificationAsRead.
  rewrite Hu. split.
  - intros ->. reflexivity.
  - intros id ->. cbn [fst snd].
    split; [reflexivity|]. split; [reflexivity|]. split; [|split].
    + intros n Hin Hne. unfold notifications_pkg.MarkNotificationAsReadDB,
        notifications_pkg.markRead. simpl.
      apply in_map_iff. exists n. split; [|exact Hin].
      apply Nat.eqb_neq in Hne. rewrite Hne, andb_false_r. reflexivity.
    + intros other Hne. apply unread_count_markRead_other.
      intros n _ Hc. apply andb_true_iff in Hc as [_ Hc].
      apply Nat.eqb_eq in Hc. congruence.
    + apply unread_count_le_markRead.
Qed.

Lemma X29_witness :
  let alice := scenario.as_user 1 "student" 0 in
  (notifications_pkg.MarkNotificationAsRead scenario.db_notes alice "x1")
  = (ReplyError http.StatusBadRequest "Invalid notification ID",
     scenario.db_notes)
  /\ (notifications_pkg.MarkNotificationAsRead scenario.db_notes alice
        "3").1
     = ReplyMessage http.StatusOK "Notification marked as read"
  /\ In (scenario.note 3 7)
       (notifications
          (notifications_pkg.MarkNotificationAsRead scenario.db_notes
             alice "3").2).
Proof.
  cbv zeta.
  destruct (X29_mark_as_read_reaches_only_own_notification
              scenario.db_notes (scenario.as_user 1 "student" 0) "x1"
              1%nat eq_refl) as [Hbad _].
  destruct (X29_mark_as_read_reaches_only_own_notification
              scenario.db_notes (scenario.as_user 1 "student" 0) "3"
              1%nat eq_refl) as [_ Hok].
  destruct (Hok 3%nat eq_refl) as (Hanswer & _ & Hother & _).
  split; [apply Hbad; reflexivity|]. split; [exact Hanswer|].
  apply Hother; [simpl; auto | simpl; discriminate].
Defined.

Lemma unread_count_zero_after_all (db : DB) (user : nat) :
  notifications_pkg.GetUnreadNotificationCount
    (notifications_pkg.MarkAllNotificationsAsReadDB db user) user = 0%Z.
Proof.
  unfold notifications_pkg.GetUnreadNotificationCount,
    notifications_pkg.MarkAllNotificationsAsReadDB,
    notifications_pkg.markRead, gorm.Count, gorm.Find.
  simpl.
  induction (notifications db) as [|x rows IH]; simpl; [reflexivity|].
  destruct (Nat.eqb (Notification.UserID x) user) eqn:E; simpl.
  - rewrite andb_false_r. exact IH.
  - rewrite E. simpl. exact IH.
Qed.

(** X30.  After [MarkAllNotificationsAsRead] the caller's unread count, as
    [GetUnreadCount] answers it, is 0; the unread count of every other user
    is as before, and the users, leave requests and attendance records are
    not touched. *)
Theorem X30_mark_all_clears_only_own_unread_count (db : DB) (c : Context)
    (userID : nat) :
  ctxUserID c = Some userID ->
  let result := notifications_pkg.MarkAllNotificationsAsRead db c in
  result.1 = ReplyMessage http.StatusOK "All notifications marked as read"
  /\ notifications_pkg.GetUnreadCount result.2 c
     = ReplyObject http.StatusOK 0%Z
  /\ (forall other, other <> userID ->
        notifications_pkg.GetUnreadNotificationCount result.2 other
        = notifications_pkg.GetUnreadNotificationCount db other)
  /\ length (notifications result.2) = length (notifications db)
  /\ users_table result.2 = users_table db
  /\ leave_requests result.2 = leave_requests db
  /\ attendances result.2 = attendances db.
Proof.
  intros Hu. cbv zeta.
  unfold notifications_pkg.MarkAllNotificationsAsRead,
    notifications_pkg.GetUnreadCount.
  rewrite Hu. cbn [fst snd].
  split; [reflexivity|]. split; [|split; [|split]].
  - now rewrite unread_count_zero_after_all.
  - intros other Hne. apply unread_count_markRead_other.
    intros n _ Hc. apply Nat.eqb_eq in Hc. congruence.
  - simpl. apply length_map.
  - repeat split.
Qed.

Lemma X30_witness :
  let alice := scenario.as_user 1 "student" 0 in
  notifications_pkg.GetUnreadCount scenario.db_notes alice
  = ReplyObject http.StatusOK 2%Z
  /\ notifications_pkg.GetUnreadCount
       (notifications_pkg.MarkAllNotificationsAsRead scenario.db_notes
          alice).2 alice
     = ReplyObject http.StatusOK 0%Z
  /\ notifications_pkg.GetUnreadNotificationCount
       (notifications_pkg.MarkAllNotificationsAsRead scenario.db_notes
          alice).2 7
     = 1%Z.
Proof.
  cbv zeta.
  destruct (X30_mark_all_clears_only_own_unread_count scenario.db_notes
              (scenario.as_user 1 "student" 0) 1%nat eq_refl)
    as (_ & Hzero & Hother & _).
  split; [vm_compute; reflexivity|]. split; [exact Hzero|].
  rewrite Hother by discriminate. vm_compute. reflexivity.
Defined.

(** * The student of [ViewAttendance] and [GetStats] for the other roles *)

Lemma length_filter_andb {A : Type} (p q : A -> bool) (rows : list A) :
  length (List.filter (fun a => p a && q a) rows)
  = length (List.filter q (List.filter p rows)).
Proof.
  induction rows as [|x rows IH]; simpl; [reflexivity|].
  destruct (p x); simpl; [|exact IH].
  destruct (q x); simpl; congruence.
Qed.

(** C10.  For an actor whose role is not student and a [student_id] that is
    not empty, whatever its value:
    - [ViewAttendance] answers 200 with the filters as they were sent and
      with exactly the attendance records whose student is the one with
      id 1 and that pass the date and subject filters, latest first;
    - [GetStats] answers 404 "Student not found" when no user has the id 1,
      and otherwise 200 with the statistics of student 1: the id 1, the name
      of the user with id 1, the number of the records of student 1, the
      number of those that are present, their difference, the percentage
      of the two, and the latest date among the records of student 1;
    - both answers are those that the student with id 1 gets for the same
      query, and they are the same for every non-empty [student_id]. *)
Theorem C10_student_id_is_ignored (db : DB) (c : Context) :
  ctxRole c <> users.RoleStudent ->
  Query c "student_id" <> "" ->
  let own :=
    gorm.Find (fun a => Nat.eqb (Attendance.StudentID a) 1)
      (attendances db) in
  (exists records,
      attendance.ViewAttendance db c
      = JSON http.StatusOK
          (H_attendance records (Query c "start_date") (Query c "end_date")
             (Query c "subject"))
      /\ descending Attendance.Date records
      /\ (forall a,
            In a records
            <-> In a (attendances db)
                /\ Attendance.StudentID a = 1%nat
                /\ (forall start,
                      time.Parse_date (Query c "start_date") = Some start ->
                      (start <= Attendance.Date a)%Z)
                /\ (forall end_,
                      time.Parse_date (Query c "end_date") = Some end_ ->
                      (Attendance.Date a <= end_)%Z)
                /\ (Query c "subject" = ""
                    \/ Attendance.Subject a = Some (Query c "subject")))
      /\ length records
         = length
             (gorm.Find
                (attendance.viewFilter 1 (Query c "start_date")
                   (Query c "end_date") (Query c "subject"))
                (attendances db)))
  /\ (gorm.FirstByID User.ID 1 (users_table db) = None ->
      attendance.GetStats db c
      = JSON http.StatusNotFound (H_error "Student not found"))
  /\ (forall student,
        gorm.FirstByID User.ID 1 (users_table db) = Some student ->
        exists s,
          attendance.GetStats db c = JSON http.StatusOK (H_stats s)
          /\ statsStudentID s = 1%nat
          /\ statsStudentName s = User.Name student
          /\ TotalDays s = Z.of_nat (length own)
          /\ PresentDays s
             = Z.of_nat (length (List.filter Attendance.Present own))
          /\ AbsentDays s = (TotalDays s - PresentDays s)%Z
          /\ AttendancePercentage s
             = (if (TotalDays s >? 0)%Z then
                  inject_Z (PresentDays s) / inject_Z (TotalDays s) * 100
                else 0)%Q
          /\ match LastAttendance s with
             | None => own = []
             | Some last =>
                 exists a,
                   In a own /\ Attendance.Date a = last
                   /\ forall b, In b own ->
                                (Attendance.Date b <= last)%Z
             end)
  /\ attendance.ViewAttendance db c
     = attendance.ViewAttendance db (as_student 1 c)
  /\ attendance.GetStats db c = attendance.GetStats db (as_student 1 c)
  /\ forall v : string,
       v <> "" ->
       attendance.ViewAttendance db (with_student_id v c)
         = attendance.ViewAttendance db c
       /\ attendance.GetStats db (with_student_id v c)
          = attendance.GetStats db c.
Proof.
  intros Hrole Hq own.
  assert (attendance.whichStudent (as_student 1 c) = inr 1%nat) as Hs
    by reflexivity.
  pose proof (whichStudent_other_role c Hrole Hq) as Hc.
  unfold attendance.ViewAttendance, attendance.GetStats.
  rewrite Hs, Hc. cbv zeta.
  split; [|split; [|split; [|split; [|split]]]].
  - eexists. split; [reflexivity|].
    split; [apply descending_OrderDesc|]. split.
    + intros a. rewrite In_OrderDesc_iff. unfold gorm.Find.
      rewrite filter_In, viewFilter_true. reflexivity.
    + apply length_OrderDesc.
  - intros ->. reflexivity.
  - intros student ->. eexists. split; [reflexivity|].
    cbn [statsStudentID statsStudentName TotalDays PresentDays AbsentDays
         AttendancePercentage LastAttendance].
    split; [reflexivity|]. split; [reflexivity|].
    split; [reflexivity|].
    split; [unfold gorm.Count, gorm.Find; now rewrite length_filter_andb|].
    split; [reflexivity|]. split; [reflexivity|].
    fold own.
    destruct (head (gorm.OrderDesc Attendance.Date own)) as [a|] eqn:Hhead;
      simpl.
    + apply head_OrderDesc_max in Hhead as [Hin Hmax].
      exists a. auto.
    + now apply head_OrderDesc_None in Hhead.
  - reflexivity.
  - reflexivity.
  - intros v Hv.
    assert (attendance.whichStudent (with_student_id v c) = inr 1%nat)
      as Hw.
    { apply whichStudent_other_role; [exact Hrole|].
      unfold Query, with_student_id. simpl.
      now rewrite lookup_insert_eq. }
    rewrite Hw, !Query_with_student_id by discriminate.
    split; reflexivity.
Qed.

(** Frank, of the faculty, asks for student 7 (Bob) and is answered with
    the record and the statistics of student 1 (Alice). *)
Lemma C10_witness :
  let c := scenario.frank_asks_for "7" in
  ctxRole c <> users.RoleStudent
  /\ Query c "student_id" = "7"
  /\ attendance.ViewAttendance scenario.db_class c
     = JSON http.StatusOK (H_attendance [scenario.marked] "" "" "")
  /\ exists s,
       attendance.GetStats scenario.db_class c
       = JSON http.StatusOK (H_stats s)
       /\ statsStudentID s = 1%nat
       /\ statsStudentName s = "Alice"
       /\ TotalDays s = 1%Z
       /\ PresentDays s = 1%Z.
Proof.
  cbv zeta.
  assert (ctxRole (scenario.frank_asks_for "7") <> users.RoleStudent)
    as Hrole by (vm_compute; discriminate).
  assert (Query (scenario.frank_asks_for "7") "student_id" = "7") as Hq
    by (vm_compute; reflexivity).
  split; [exact Hrole|]. split; [exact Hq|].
  destruct (C10_student_id_is_ignored scenario.db_class
              (scenario.frank_asks_for "7") Hrole)
    as (_ & _ & Hstats & Hview & _).
  - rewrite Hq. discriminate.
  - split; [rewrite Hview; vm_compute; reflexivity|].
    destruct (Hstats scenario.alice eq_refl)
      as (s & Heq & Hid & Hname & Htotal & Hpresent & _).
    exists s. split; [exact Heq|]. split; [exact Hid|].
    split; [exact Hname|].
    split; [rewrite Htotal | rewrite Hpresent]; vm_compute; reflexivity.
Defined.

(** * A role that is none of the four *)




(** * One attendance record per student and calendar day *)

Lemma dayOf_midnight (q : Z) : dayOf (24 * time.Hour * q)%Z = q.
Proof.
  unfold dayOf. change (24 * time.Hour)%Z with 86400000000000%Z.
  rewrite Z.mul_comm. apply Z.div_mul. lia.
Qed.

Lemma Truncate_day_dayOf (t : time.Time) :
  time.Truncate t (24 * time.Hour)%Z = (24 * time.Hour * dayOf t)%Z
  /\ dayOf (time.Truncate t (24 * time.Hour)%Z) = dayOf t.
Proof.
  rewrite Truncate_day_midnight. fold (dayOf t).
  split; [reflexivity | apply dayOf_midnight].
Qed.

(** X19.  On a store whose attendance records are dated at UTC midnights,
    at most one per student and calendar day, [MarkAttendance] leaves
    records dated at UTC midnights, at most one per student and calendar
    day, whatever the request. *)
Theorem X19_mark_keeps_one_record_per_day (now : time.Time) (db : DB)
    (c : Context) (req : attendance.MarkAttendanceRequest) :
  datedAtMidnight (attendances db) ->
  oneMarkPerDay (attendances db) ->
  datedAtMidnight (attendances (attendance.MarkAttendance now db c req).2)
  /\ oneMarkPerDay (attendances (attendance.MarkAttendance now db c req).2).
Proof.
  intros Hmid Hone.
  destruct (MarkAttendance_cases now db c req)
    as [(-> & _) | (markerID & student & _ & _ & _ & Hfree & ->)];
    [split; assumption|].
  destruct (Truncate_day_dayOf (attendance.Date req)) as [Htr Hday].
  cbn [snd]. cbn [attendances attendance.set_attendances]. split.
  - intros a Hin. apply in_app_or in Hin as [Hin|[<-|[]]];
      [now apply Hmid|].
    cbn [markedRecord Attendance.Date]. now rewrite Hday.
  - unfold oneMarkPerDay. rewrite map_app.
    apply NoDup_app. split; [exact Hone|].
    split; [|apply NoDup_singleton].
    intros pair Hin Hnew.
    apply list_elem_of_In in Hin, Hnew.
    destruct Hnew as [<-|[]].
    apply in_map_iff in Hin as (e & Hpair & He).
    cbn [markedRecord Attendance.StudentID Attendance.Date] in Hpair.
    injection Hpair as Hs Hd.
    rewrite Find_none in Hfree. specialize (Hfree e He).
    unfold attendance.markedOn in Hfree.
    rewrite (Hmid e He), Hd, Hday, <- Htr, Hs, Nat.eqb_refl, Z.eqb_refl
      in Hfree.
    discriminate.
Qed.

(** Alice has a record for March 11; Frank marks her for March 12. *)
Lemma X19_witness :
  let day2 :=
    attendance.mkMark 1 (scenario.date "2025-03-12" + 9 * time.Hour)%Z true
      (Some "Algebra") (Some "2") in
  let db' :=
    (attendance.MarkAttendance scenario.now scenario.db_marked
       (scenario.as_user 2 "faculty" 0) day2).2 in
  length (attendances db') = 2%nat
  /\ datedAtMidnight (attendances db')
  /\ oneMarkPerDay (attendances db').
Proof.
  cbv zeta. split; [vm_compute; reflexivity|].
  apply X19_mark_keeps_one_record_per_day.
  - intros a [<-|[]]. vm_compute. reflexivity.
  - apply NoDup_singleton.
Defined.

(** The midnight dating of the stored records is needed: the lookup of
    [MarkAttendance] compares the stored date with the midnight of the
    requested day, so a stored record of Alice dated 09:00 on March 11 is
    not found, and a second record for March 11 is created. *)
Lemma MarkAttendance_misses_record_off_midnight :
  let at_nine :=
    Attendance.mk 1 1 (scenario.date "2025-03-11" + 9 * time.Hour)%Z true 2
      (Some "Algebra") (Some "2") scenario.now in
  let db := mkDB scenario.people [] [at_nine] [] in
  oneMarkPerDay (attendances db)
  /\ attendance.MarkAttendance scenario.now db
       (scenario.as_user 2 "faculty" 0) (scenario.mark true)
     = (JSON http.StatusCreated
          (H_attendance_marked
             (markedRecord scenario.now db 2 (scenario.mark true))),
        attendance.set_attendances db
          [at_nine; markedRecord scenario.now db 2 (scenario.mark true)])
  /\ dayOf (Attendance.Date at_nine)
     = dayOf (Attendance.Date
                (markedRecord scenario.now db 2 (scenario.mark true))).
Proof.
  cbv zeta. split; [apply NoDup_singleton|].
  split; vm_compute; reflexivity.
Qed.
